(** * Guardian file integrity monitor: a shallow embedding of guardian.py

    The development follows the classes of [guardian.py]:
    [FileInfo], [ChangeReport], [GuardianConfig], [GuardianDatabase],
    [GuardianScanner] and [Guardian].  Library calls (hashlib, fnmatch,
    datetime formatting) are fields of the class [PyLib]; os.path, pathlib,
    [int()], [float()], sqlite3 and os.walk are modelled with the behaviour
    of CPython 3.11 on POSIX.  Python [str] values are modelled by [string]
    restricted to ASCII: bytes above 127 are letters of no case and no
    whitespace.

    Where the model stops.  A configuration value is the string that
    [ConfigParser.get] returns for it, which is the stored value when that
    holds no percent sign; the interpolation of a value with a percent
    sign, and the exception it may raise, are not modelled.  A file is a
    finite sequence of bytes whose [open] and [read] calls return or raise
    OSError: a FIFO or a device that blocks is no value of [node].  The
    walk has no bound on its depth, where [os.walk] raises RecursionError
    beyond a depth of about a thousand directories.  The tables hold unbounded integers
    and any float, where sqlite3 raises OverflowError outside the signed
    64-bit integers and stores a NaN as NULL; a failing INSERT, which
    rolls the transaction back, is not modelled.  The file of the store is
    no part of the [filesystem] value: a property that relates a scan
    made before a write to the store with one made after it takes two
    file system states.  The theorems about a scan or a write to the
    store say what holds when the call returns the value they name. *)

From Stdlib Require Import ZArith Ascii String List Lia.
From Stdlib.Strings Require Import Byte.
From stdpp Require Import base decidable option list strings pretty gmap sets.

Local Open Scope Z_scope.

(** ** Exceptions and results *)

Inductive exn :=
| OSError (msg : string)
| ValueError (msg : string)
| OverflowError (msg : string).

Inductive result (A : Type) :=
| Ok (a : A)
| Raise (e : exn).
Arguments Ok {A} a.
Arguments Raise {A} e.

(** ** Python floats (IEEE binary64), as far as the program uses them

    [Finite m e] stands for [m * 2^e]; signed zeros are not distinguished. *)

Inductive pyfloat :=
| Finite (m e : Z)
| Infinity (negative : bool)
| NaN.

(** ** Strings

    The [str] methods the program calls. *)

Module str.
Definition is_lower (c : ascii) : bool :=
  let n := nat_of_ascii c in ((97 <=? n) && (n <=? 122))%nat.

Definition is_upper (c : ascii) : bool :=
  let n := nat_of_ascii c in ((65 <=? n) && (n <=? 90))%nat.

(** ASCII whitespace of [str.isspace]: TAB, LF, VT, FF, CR, FS, GS, RS, US, SPACE *)
Definition is_space (c : ascii) : bool :=
  let n := nat_of_ascii c in
  (((9 <=? n) && (n <=? 13)) || ((28 <=? n) && (n <=? 32)))%nat.

Definition upper_char (c : ascii) : ascii :=
  if is_lower c then ascii_of_nat (nat_of_ascii c - 32) else c.

Definition lower_char (c : ascii) : ascii :=
  if is_upper c then ascii_of_nat (nat_of_ascii c + 32) else c.

Fixpoint map (f : ascii -> ascii) (s : string) : string :=
  match s with
  | EmptyString => EmptyString
  | String c s' => String (f c) (map f s')
  end.

Definition upper : string -> string := map upper_char.
Definition lower : string -> string := map lower_char.

Fixpoint lstrip (s : string) : string :=
  match s with
  | String c s' => if is_space c then lstrip s' else s
  | EmptyString => EmptyString
  end.

Definition rstrip (s : string) : string := String.rev (lstrip (String.rev s)).
Definition strip (s : string) : string := rstrip (lstrip s).

Definition startswith (s p : string) : bool := String.prefix p s.
Definition endswith (s p : string) : bool := String.prefix (String.rev p) (String.rev s).

(** [s[:-n]] for [n >= 1] *)
Definition drop_last (n : nat) (s : string) : string :=
  String.substring 0 (String.length s - n) s.

(** [s.split(sep)] for a separator of one character *)
Fixpoint split (sep : ascii) (s : string) : list string :=
  match s with
  | EmptyString => [EmptyString]
  | String c s' =>
      if Ascii.eqb c sep then EmptyString :: split sep s'
      else match split sep s' with
           | h :: t => String c h :: t
           | [] => [String c EmptyString]
           end
  end.

(** [sep.join(l)] *)
Fixpoint join (sep : string) (l : list string) : string :=
  match l with
  | [] => EmptyString
  | [x] => x
  | x :: l' => x +:+ sep +:+ join sep l'
  end.

(** [c * n] *)
Fixpoint repeat (c : ascii) (n : nat) : string :=
  match n with O => EmptyString | S n' => String c (repeat c n') end.
End str.

(** ** The exception monad of pure code *)

Definition rbind {A B} (r : result A) (k : A -> result B) : result B :=
  match r with
  | Ok a => k a
  | Raise e => Raise e
  end.

(** [try: r  except ValueError: return d] *)
Definition except_ValueError {A} (r : result A) (d : A) : result A :=
  match r with
  | Raise (ValueError _) => Ok d
  | _ => r
  end.

(** ** Library functions the program calls *)

Class PyLib := {
  (** [hashlib.sha256(data).hexdigest()] and its siblings *)
  sha256_hexdigest : list byte -> string;
  sha1_hexdigest : list byte -> string;
  md5_hexdigest : list byte -> string;
  (** [fnmatch.fnmatchcase(name, pat)] *)
  fnmatchcase : string -> string -> bool;
  (** [datetime.isoformat()] of a clock reading *)
  isoformat : Z -> string;
  (** [datetime.strftime('%Y%m%d_%H%M%S')] of a clock reading *)
  strftime_Ymd_HMS : Z -> string
}.

(** The wall clock is read in microseconds since the epoch. *)
Definition clock := Z.

(** ** Data classes *)

Inductive ChangeType := ADDED | MODIFIED | REMOVED | UNCHANGED.

Global Instance ChangeType_eq_dec : EqDecision ChangeType.
Proof. solve_decision. Defined.

Definition ChangeType_value (t : ChangeType) : string :=
  match t with
  | ADDED => "ADDED"
  | MODIFIED => "MODIFIED"
  | REMOVED => "REMOVED"
  | UNCHANGED => "UNCHANGED"
  end.

Module FileInfo.
Record t := mk {
  path : string;
  size : Z;
  modified_time : pyfloat;
  hash_sha256 : string;
  hash_sha1 : string;
  hash_md5 : string;
  permissions : string;
  inode : option Z
}.
End FileInfo.
Abbreviation FileInfo := FileInfo.t.

Module ChangeReport.
Record t := mk {
  change_type : ChangeType;
  file_path : string;
  old_hash : option string;
  new_hash : option string;
  old_size : option Z;
  new_size : option Z;
  timestamp : string
}.
End ChangeReport.
Abbreviation ChangeReport := ChangeReport.t.

(** ** Python dictionaries with string keys

    A [dict] keeps its items in insertion order; assigning to a key that is
    present replaces the value in place. *)

Module pydict.
Abbreviation t V := (list (string * V)).

Definition keys {V} (d : t V) : list string := d.*1.

Fixpoint get {V} (d : t V) (k : string) : option V :=
  match d with
  | [] => None
  | (k', v) :: d' => if decide (k' = k) then Some v else get d' k
  end.

(** [k in d] *)
Definition mem {V} (d : t V) (k : string) : bool :=
  match get d k with Some _ => true | None => false end.

(** [d[k] = v] *)
Fixpoint set {V} (d : t V) (k : string) (v : V) : t V :=
  match d with
  | [] => [(k, v)]
  | (k', v') :: d' =>
      if decide (k' = k) then (k', v) :: d' else (k', v') :: set d' k v
  end.

(** The invariant of every dictionary: no key occurs twice. *)
Definition wf {V} (d : t V) : Prop := NoDup (keys d).

Definition key_set {V} (d : t V) : gset string := list_to_set (keys d).
End pydict.

(** ** The comparison loop of [Guardian.check_integrity] *)

Section Compare.
Context `{PyLib}.
Variable now : clock.

Definition report_modified (file_path : string) (baseline_file current_file : FileInfo)
  : ChangeReport :=
  ChangeReport.mk MODIFIED file_path
    (Some (FileInfo.hash_sha256 baseline_file))
    (Some (FileInfo.hash_sha256 current_file))
    (Some (FileInfo.size baseline_file))
    (Some (FileInfo.size current_file))
    (isoformat now).

Definition report_removed (file_path : string) (baseline_file : FileInfo) : ChangeReport :=
  ChangeReport.mk REMOVED file_path
    (Some (FileInfo.hash_sha256 baseline_file)) None None None (isoformat now).

Definition report_added (file_path : string) (current_file : FileInfo) : ChangeReport :=
  ChangeReport.mk ADDED file_path
    None (Some (FileInfo.hash_sha256 current_file))
    None (Some (FileInfo.size current_file)) (isoformat now).

(** Body of [for file_path, baseline_file in baseline_files.items()] *)
Definition check_baseline_item (current_file_dict : pydict.t FileInfo)
    (changes : list ChangeReport) (item : string * FileInfo) : list ChangeReport :=
  let '(file_path, baseline_file) := item in
  match pydict.get current_file_dict file_path with
  | Some current_file =>
      if decide (FileInfo.hash_sha256 baseline_file ≠ FileInfo.hash_sha256 current_file)
      then changes ++ [report_modified file_path baseline_file current_file]
      else changes
  | None => changes ++ [report_removed file_path baseline_file]
  end.

(** Body of [for file_path, current_file in current_file_dict.items()] *)
Definition check_current_item (baseline_files : pydict.t FileInfo)
    (changes : list ChangeReport) (item : string * FileInfo) : list ChangeReport :=
  let '(file_path, current_file) := item in
  if negb (pydict.mem baseline_files file_path)
  then changes ++ [report_added file_path current_file]
  else changes.

Definition detect_changes (baseline_files current_file_dict : pydict.t FileInfo)
  : list ChangeReport :=
  let changes := [] in
  let changes := fold_left (check_baseline_item current_file_dict) baseline_files changes in
  let changes := fold_left (check_current_item baseline_files) current_file_dict changes in
  changes.
End Compare.

(** ** Numbers: [int(str)], [float(str)], float arithmetic, [int(float)] *)

Module pynum.
Definition digit_value (c : ascii) : option Z :=
  let n := nat_of_ascii c in
  if ((48 <=? n) && (n <=? 57))%nat then Some (Z.of_nat (n - 48)) else None.

(** digitpart ::= digit (["_"] digit)*  ; yields the digits read.
    [after_digit] tells whether an underscore may come next. *)
Fixpoint digitpart_go (after_digit : bool) (s : string) : option (list Z) :=
  match s with
  | EmptyString => if after_digit then Some [] else None
  | String c s' =>
      match digit_value c with
      | Some d => cons d <$> digitpart_go true s'
      | None =>
          if Ascii.eqb c "_" && after_digit then digitpart_go false s' else None
      end
  end.

Definition digitpart (s : string) : option (list Z) := digitpart_go false s.

Definition digits_value (ds : list Z) : Z :=
  fold_left (fun acc d => 10 * acc + d) ds 0.

(** An optional sign: the sign read ([true] for minus) and the rest. *)
Definition take_sign (s : string) : bool * string :=
  match s with
  | String "-" s' => (true, s')
  | String "+" s' => (false, s')
  | _ => (false, s)
  end.

Definition apply_sign (neg : bool) (z : Z) : Z := if neg then - z else z.

(** The white space that [int()] and [float()] skip at both ends: TAB, LF,
    VT, FF, CR and SPACE.  (The separators FS, GS, RS and US, which
    [str.strip] removes, are not skipped.) *)
Definition is_space (c : ascii) : bool :=
  let n := nat_of_ascii c in
  (((9 <=? n) && (n <=? 13)) || (n =? 32))%nat.

Fixpoint lstrip (s : string) : string :=
  match s with
  | String c s' => if is_space c then lstrip s' else s
  | EmptyString => EmptyString
  end.

Definition strip (s : string) : string :=
  String.rev (lstrip (String.rev (lstrip s))).

(** The longest prefix made of digits and underscores *)
Fixpoint digit_run (s : string) : string :=
  match s with
  | String c s' =>
      if bool_decide (is_Some (digit_value c)) || Ascii.eqb c "_"
      then String c (digit_run s') else EmptyString
  | EmptyString => EmptyString
  end.

(** [sys.get_int_max_str_digits()] *)
Definition max_str_digits : Z := 4300.

(** [int(s)] for a string [s], base 10.  The digits are scanned first; a
    run of more than [max_str_digits] digits is refused before the rest of
    the string is looked at. *)
Definition int_of_str (s : string) : result Z :=
  let '(neg, body) := take_sign (strip s) in
  let run := digit_run body in
  match digitpart run with
  | Some ds =>
      if max_str_digits <? Z.of_nat (length ds) then
        Raise (ValueError ("Exceeds the limit (4300 digits) for integer string "
                           +:+ "conversion: value has " +:+ pretty (length ds)
                           +:+ " digits; use sys.set_int_max_str_digits() to "
                           +:+ "increase the limit"))
      else if decide (run = body) then Ok (apply_sign neg (digits_value ds))
      else Raise (ValueError ("invalid literal for int() with base 10: " +:+ s))
  | None => Raise (ValueError ("invalid literal for int() with base 10: " +:+ s))
  end.

(** Rounding of a quotient [n / d], [0 < d], to the nearest integer, ties to even *)
Definition round_half_even (n d : Z) : Z :=
  let q := n / d in
  let r := n mod d in
  if 2 * r <? d then q
  else if d <? 2 * r then q + 1
  else if Z.even q then q else q + 1.

(** The binary64 value nearest to [n / d] for [0 < n], [0 < d] *)
Definition round64_pos (n d : Z) : pyfloat :=
  let e0 := Z.log2 n - Z.log2 d in
  let e := if (if 0 <=? e0 then d * 2 ^ e0 <=? n else d <=? n * 2 ^ (- e0))
           then e0 else e0 - 1 in
  let p := Z.max (e - 52) (-1074) in
  let m := if 0 <=? p then round_half_even n (d * 2 ^ p)
           else round_half_even (n * 2 ^ (- p)) d in
  if (m =? 0) then Finite 0 0
  else if 1024 <=? Z.log2 m + p then Infinity false
  else Finite m p.

Definition fneg (f : pyfloat) : pyfloat :=
  match f with
  | Finite m e => Finite (- m) e
  | Infinity neg => Infinity (negb neg)
  | NaN => NaN
  end.

Definition round64 (n d : Z) : pyfloat :=
  if n =? 0 then Finite 0 0
  else if n <? 0 then fneg (round64_pos (- n) d)
  else round64_pos n d.

(** floatnumber ::= ([digitpart] "." digitpart | digitpart ["."]) [exponent] *)
Definition split_at (c1 c2 : ascii) (s : string) : string * option string :=
  (fix go (s : string) : string * option string :=
     match s with
     | EmptyString => (EmptyString, None)
     | String c s' =>
         if Ascii.eqb c c1 || Ascii.eqb c c2 then (EmptyString, Some s')
         else let '(a, b) := go s' in (String c a, b)
     end) s.

Definition mantissa (s : string) : option (list Z * list Z) :=
  match split_at "." "." s with
  | (ip, None) => ds ← digitpart ip; Some (ds, [])
  | (ip, Some fp) =>
      match ip, fp with
      | EmptyString, EmptyString => None
      | EmptyString, _ => fs ← digitpart fp; Some ([], fs)
      | _, EmptyString => ds ← digitpart ip; Some (ds, [])
      | _, _ => ds ← digitpart ip; fs ← digitpart fp; Some (ds, fs)
      end
  end.

Definition exponent (s : option string) : option Z :=
  match s with
  | None => Some 0
  | Some es =>
      let '(neg, body) := take_sign es in
      ds ← digitpart body; Some (apply_sign neg (digits_value ds))
  end.

Definition floatnumber (s : string) : option pyfloat :=
  let '(ms, es) := split_at "e" "E" s in
  '(ds, fs) ← mantissa ms;
  x ← exponent es;
  let i := digits_value (ds ++ fs) in
  let k := x - Z.of_nat (length fs) in
  Some (if 0 <=? k then round64 (i * 10 ^ k) 1 else round64 i (10 ^ (- k))).

(** [float(s)] for a string [s] *)
Definition float_of_str (s : string) : result pyfloat :=
  let '(neg, body) := take_sign (strip s) in
  let word := str.lower body in
  let sign f := if neg then fneg f else f in
  if decide (word = "inf" ∨ word = "infinity") then Ok (sign (Infinity false))
  else if decide (word = "nan") then Ok NaN
  else match floatnumber body with
       | Some f => Ok (sign f)
       | None => Raise (ValueError ("could not convert string to float: " +:+ s))
       end.

Definition is_zero (f : pyfloat) : bool :=
  match f with Finite 0 _ => true | _ => false end.

Definition is_negative (f : pyfloat) : bool :=
  match f with Finite m _ => m <? 0 | Infinity neg => neg | NaN => false end.

(** [a * b] on floats *)
Definition fmul (a b : pyfloat) : pyfloat :=
  match a, b with
  | NaN, _ | _, NaN => NaN
  | Finite m1 e1, Finite m2 e2 =>
      let e := e1 + e2 in
      if 0 <=? e then round64 (m1 * m2 * 2 ^ e) 1 else round64 (m1 * m2) (2 ^ (- e))
  | _, _ =>
      if is_zero a || is_zero b then NaN
      else Infinity (xorb (is_negative a) (is_negative b))
  end.

(** [float(k)] for an integer below [2^53] in magnitude *)
Definition float_of_int (k : Z) : pyfloat := round64 k 1.

(** [int(f)] for a float [f]: truncation towards zero *)
Definition int_of_float (f : pyfloat) : result Z :=
  match f with
  | Finite m e => Ok (if 0 <=? e then m * 2 ^ e else Z.quot m (2 ^ (- e)))
  | Infinity _ => Raise (OverflowError "cannot convert float infinity to integer")
  | NaN => Raise (ValueError "cannot convert float NaN to integer")
  end.
End pynum.

(** ** [os.path] on POSIX *)

Module posixpath.
(** [os.path.join(a, b)] *)
Definition join (a b : string) : string :=
  if str.startswith b "/" then b
  else if bool_decide (a = "") || str.endswith a "/" then a +:+ b
  else a +:+ "/" +:+ b.

(** The loop over the components in [normpath]; [new_comps] is kept reversed. *)
Fixpoint normpath_comps (initial_slashes : nat) (comps new_comps : list string)
  : list string :=
  match comps with
  | [] => rev new_comps
  | comp :: comps' =>
      if decide (comp = "" ∨ comp = ".") then
        normpath_comps initial_slashes comps' new_comps
      else if decide (comp ≠ ".."
                      ∨ (initial_slashes = 0%nat ∧ new_comps = [])
                      ∨ head new_comps = Some "..") then
        normpath_comps initial_slashes comps' (comp :: new_comps)
      else
        normpath_comps initial_slashes comps' (tail new_comps)
  end.

Definition normpath (path : string) : string :=
  if decide (path = "") then "."
  else
    let initial_slashes :=
      if str.startswith path "/" then
        if str.startswith path "//" && negb (str.startswith path "///")
        then 2%nat else 1%nat
      else 0%nat in
    let comps := normpath_comps initial_slashes (str.split "/" path) [] in
    let path := str.repeat "/" initial_slashes +:+ str.join "/" comps in
    if decide (path = "") then "." else path.

Definition isabs (s : string) : bool := str.startswith s "/".

(** [os.path.abspath(path)] in a process whose working directory is [cwd] *)
Definition abspath (cwd path : string) : string :=
  normpath (if isabs path then path else join cwd path).
End posixpath.

(** ** [pathlib.PurePosixPath] *)

Module pathlib.
(** [splitroot]: the root (["", "/" or "//"]) and the rest *)
Definition splitroot (part : string) : string * string :=
  if str.startswith part "/" then
    let stripped_part :=
      (fix lstrip_sep (s : string) : string :=
         match s with
         | String "/" s' => lstrip_sep s'
         | _ => s
         end) part in
    if decide (String.length part - String.length stripped_part = 2)%nat
    then ("//", stripped_part) else ("/", stripped_part)
  else ("", part).

(** [parse_parts] of one string: the root and the parts (the root first) *)
Definition parse_parts (part : string) : string * list string :=
  let '(root, rel) := splitroot part in
  let parsed := filter (fun x => x ≠ "" ∧ x ≠ ".") (str.split "/" rel) in
  (root, if decide (root = "") then parsed else root :: parsed).

(** [Path(p).name] *)
Definition name (p : string) : string :=
  let '(root, parts) := parse_parts p in
  if decide (length parts = if decide (root = "") then 0 else 1)%nat then ""
  else default "" (last parts).

(** The loop [for part, pat in zip(reversed(parts), reversed(pat_parts))] *)
Fixpoint match_zip `{PyLib} (parts pat_parts : list string) : bool :=
  match parts, pat_parts with
  | part :: parts', pat :: pat_parts' =>
      if negb (fnmatchcase part pat) then false else match_zip parts' pat_parts'
  | _, _ => true
  end.

(** [Path(p).match(path_pattern)] *)
Definition match_ `{PyLib} (p path_pattern : string) : result bool :=
  let '(root, pat_parts) := parse_parts path_pattern in
  let '(path_root, parts) := parse_parts p in
  if decide (pat_parts = []) then Raise (ValueError "empty pattern")
  else if decide (root ≠ "" ∧ root ≠ path_root) then Ok false
  else if decide (root ≠ "") then
    if decide (length pat_parts ≠ length parts) then Ok false
    else Ok (match_zip (rev parts) (rev (tail pat_parts)))
  else if decide (length parts < length pat_parts)%nat then Ok false
  else Ok (match_zip (rev parts) (rev pat_parts)).
End pathlib.

(** ** [GuardianConfig]: the settings the scanner reads, as stored strings *)

Module GuardianConfig.
Record t := mk {
  exclude_patterns : string;   (* DEFAULT / exclude_patterns *)
  max_file_size : string;      (* DEFAULT / max_file_size *)
  exclude_paths : string       (* PATHS / exclude_paths *)
}.

(** [get_list]: the items between commas, stripped, the empty ones dropped *)
Definition get_list (value : string) : list string :=
  omap (fun item => let item := str.strip item in
                    if decide (item = "") then None else Some item)
       (str.split "," value).

Definition load_defaults : t :=
  mk "*.tmp,*.log,*.cache,*.swp,.DS_Store,Thumbs.db" "100MB" "/proc,/sys,/dev,/tmp".
End GuardianConfig.
Abbreviation GuardianConfig := GuardianConfig.t.

(** ** The file system seen by a scan *)

Record stat_result := {
  st_mode : Z;
  st_ino : Z;
  st_size : Z;
  st_mtime : pyfloat
}.

(** How [open(path, 'rb')] and the reads that follow behave. *)
Inductive readability :=
| Readable
| OpenError (msg : string)               (* [open] raises OSError *)
| ReadError (after : nat) (msg : string) (* the read number [after], from 0, raises *).

(** A directory entry: a file with the outcome of [os.stat] ([inl] is the
    message of the OSError raised), its bytes and how reading goes; or a
    directory with its entries in [scandir] order. *)
Local Unset Elimination Schemes.
Inductive node :=
| File (st : string + stat_result) (content : list byte) (r : readability)
| Dir (entries : list (string * node)).
Local Set Elimination Schemes.

Record filesystem := {
  cwd : string;
  root : node
}.

Definition is_dir (n : node) : bool :=
  match n with Dir _ => true | File _ _ _ => false end.

Definition find_entry (name : string) (entries : list (string * node)) : option node :=
  snd <$> find (fun e => bool_decide (e.1 = name)) entries.

Fixpoint lookup_node (n : node) (comps : list string) : option node :=
  match comps with
  | [] => Some n
  | c :: comps' =>
      match n with
      | Dir entries =>
          match find_entry c entries with
          | Some sub => lookup_node sub comps'
          | None => None
          end
      | File _ _ _ => None
      end
  end.

(** The node at an absolute, normalised path *)
Definition lookup (fs : filesystem) (p : string) : option node :=
  lookup_node (root fs) (filter (fun c => c ≠ "") (str.split "/" p)).

(** [os.path.exists(p)] is [os.stat(p)] succeeding *)
Definition os_path_exists (fs : filesystem) (p : string) : bool :=
  match lookup fs p with
  | Some (Dir _) => true
  | Some (File (inr _) _ _) => true
  | Some (File (inl _) _ _) => false
  | None => false
  end.

(** ** Effects of the scanner: log records and [files.append], in order.
    What was logged and appended before an exception stays. *)

Inductive level := INFO | WARNING | ERROR.

Global Instance level_eq_dec : EqDecision level.
Proof. solve_decision. Defined.

Inductive event :=
| Log (lv : level) (msg : string)
| Append (file_info : FileInfo).

Definition W (A : Type) : Type := result A * list event.

Definition wret {A} (a : A) : W A := (Ok a, []).

Definition wbind {A B} (m : W A) (k : A -> W B) : W B :=
  match m with
  | (Ok a, l) => let '(r, l') := k a in (r, (l ++ l')%list)
  | (Raise e, l) => (Raise e, l)
  end.

Notation "'do' x <- m ; k" := (wbind m (fun x => k))
  (at level 10, x name, m at level 100, k at level 200).
Notation "'do' ' p <- m ; k" := (wbind m (fun x => match x with p => k end))
  (at level 10, p pattern, m at level 100, k at level 200).
Notation "'run' m ; k" := (wbind m (fun _ => k))
  (at level 10, m at level 100, k at level 200).

Definition wlift {A} (r : result A) : W A := (r, []).

Definition logging (lv : level) (msg : string) : W unit := (Ok tt, [Log lv msg]).

Definition files_append (file_info : FileInfo) : W unit := (Ok tt, [Append file_info]).

(** [try: m  except (IOError, OSError) as e: h e] *)
Definition except_OSError {A} (m : W A) (h : string -> W A) : W A :=
  match m with
  | (Raise (OSError e), l) => let '(r, l') := h e in (r, (l ++ l')%list)
  | _ => m
  end.

Definition appended (evs : list event) : list FileInfo :=
  omap (fun ev => match ev with Append f => Some f | Log _ _ => None end) evs.

Definition logged (evs : list event) : list (level * string) :=
  omap (fun ev => match ev with Log lv msg => Some (lv, msg) | Append _ => None end) evs.

(** ** [GuardianScanner] *)

Module GuardianScanner.
Record t := mk {
  config : GuardianConfig;
  exclude_patterns : list string;
  max_file_size : Z
}.
End GuardianScanner.
Abbreviation GuardianScanner := GuardianScanner.t.

(** [oct(n)] for [0 <= n]: the digits, most significant first *)
Fixpoint oct_digits (fuel : nat) (n : Z) (acc : string) : string :=
  match fuel with
  | O => acc
  | S fuel' =>
      let acc := String (ascii_of_nat (48 + Z.to_nat (n mod 8))) acc in
      if n / 8 =? 0 then acc else oct_digits fuel' (n / 8) acc
  end.

Definition oct (n : Z) : string :=
  "0o" +:+ oct_digits (S (Z.to_nat (Z.log2 n))) n "".

(** [s[-3:]] *)
Definition last3 (s : string) : string :=
  String.substring (String.length s - 3) 3 s.

Section Scanner.
Context `{PyLib}.

Definition default_size : Z := 100 * 1024 * 1024.

Definition multipliers : list (string * Z) :=
  [("GB", 1024 ^ 3); ("MB", 1024 ^ 2); ("KB", 1024); ("B", 1)].

Definition _parse_size (size_str : string) : result Z :=
  let size_str := str.strip (str.upper size_str) in
  match find (fun sm => str.endswith size_str sm.1) multipliers with
  | Some (suffix, multiplier) =>
      let number := str.drop_last (String.length suffix) size_str in
      except_ValueError
        (rbind (pynum.float_of_str number) (fun f =>
         pynum.int_of_float (pynum.fmul f (pynum.float_of_int multiplier))))
        default_size
  | None =>
      except_ValueError (pynum.int_of_str size_str) default_size
  end.

Definition _compile_exclude_patterns (config : GuardianConfig) : list string :=
  GuardianConfig.get_list (GuardianConfig.exclude_patterns config).

(** [GuardianScanner.__init__] *)
Definition GuardianScanner_init (config : GuardianConfig) : result GuardianScanner :=
  rbind (_parse_size (GuardianConfig.max_file_size config)) (fun max_file_size =>
  Ok (GuardianScanner.mk config (_compile_exclude_patterns config) max_file_size)).

(** The loop [for pattern in self.exclude_patterns] of [_should_exclude] *)
Fixpoint match_patterns (file_path : string) (patterns : list string)
  : result bool :=
  match patterns with
  | [] => Ok false
  | pattern :: patterns' =>
      rbind (pathlib.match_ file_path pattern) (fun m =>
      if m || bool_decide (pathlib.name file_path = pattern) then Ok true
      else match_patterns file_path patterns')
  end.

Definition _should_exclude (self : GuardianScanner) (file_path : string) : result bool :=
  rbind (match_patterns file_path (GuardianScanner.exclude_patterns self))
    (fun matched =>
     if matched then Ok true
     else
       let exclude_paths :=
         GuardianConfig.get_list
           (GuardianConfig.exclude_paths (GuardianScanner.config self)) in
       Ok (existsb (fun exclude_path => str.startswith file_path exclude_path)
                   exclude_paths)).
End Scanner.

(** ** Hashing and the directory walk *)

Section Scan.
Context `{PyLib}.

Definition chunk_size : nat := Z.to_nat 8192.

(** Whether the call number [reads] of [f.read] raises *)
Definition read_fails (r : readability) (reads : nat) : option string :=
  match r with
  | ReadError after msg => if decide (after = reads) then Some msg else None
  | _ => None
  end.

(** The loop [for chunk in iter(lambda: f.read(8192), b"")]: [reads] counts
    the calls of [f.read] so far, [rest] is what the file still holds, and
    each hash object is the bytes it was fed.  Every turn but the last
    consumes at least one byte, so [fuel] above the length of [rest] is
    never used up. *)
Fixpoint read_chunks (fuel : nat) (r : readability) (reads : nat)
    (rest sha256_hash sha1_hash md5_hash : list byte)
  : result (list byte * list byte * list byte) :=
  match fuel with
  | O => Ok (sha256_hash, sha1_hash, md5_hash)
  | S fuel' =>
      match read_fails r reads with
      | Some msg => Raise (OSError msg)
      | None =>
          let chunk := take chunk_size rest in
          if decide (chunk = []) then Ok (sha256_hash, sha1_hash, md5_hash)
          else read_chunks fuel' r (S reads) (drop chunk_size rest)
                 (sha256_hash ++ chunk) (sha1_hash ++ chunk) (md5_hash ++ chunk)
      end
  end.

(** [with open(file_path, 'rb') as f: ...] on a file node *)
Definition open_and_hash (content : list byte) (r : readability)
  : result (list byte * list byte * list byte) :=
  match r with
  | OpenError msg => Raise (OSError msg)
  | _ => read_chunks (S (length content)) r 0 content [] [] []
  end.

Definition _calculate_hashes (file_path : string) (content : list byte)
    (r : readability) : W (string * string * string) :=
  except_OSError
    (do '(sha256_hash, sha1_hash, md5_hash) <- wlift (open_and_hash content r);
     wret (sha256_hexdigest sha256_hash, sha1_hexdigest sha1_hash,
           md5_hexdigest md5_hash))
    (fun e =>
       run logging WARNING ("Could not hash file " +:+ file_path +:+ ": " +:+ e);
       wret ("", "", "")).

(** [os.stat(file_path)] on a file node *)
Definition os_stat (st : string + stat_result) : W stat_result :=
  match st with
  | inr stat_info => wret stat_info
  | inl msg => wlift (Raise (OSError msg))
  end.

(** The body of [for filename in filenames] *)
Definition scan_file (self : GuardianScanner) (root filename : string)
    (st : string + stat_result) (content : list byte) (r : readability) : W unit :=
  let file_path := posixpath.join root filename in
  do excluded <- wlift (_should_exclude self file_path);
  if (excluded : bool) then wret tt
  else
    except_OSError
      (do stat_info <- os_stat st;
       if GuardianScanner.max_file_size self <? st_size stat_info then
         logging WARNING ("Skipping large file: " +:+ file_path +:+ " ("
                          +:+ pretty (st_size stat_info) +:+ " bytes)")
       else
         do '(sha256, sha1, md5) <- _calculate_hashes file_path content r;
         let file_info :=
           FileInfo.mk file_path (st_size stat_info) (st_mtime stat_info)
             sha256 sha1 md5 (last3 (oct (st_mode stat_info)))
             (Some (st_ino stat_info)) in
         files_append file_info)
      (fun e =>
         logging WARNING ("Could not process file " +:+ file_path +:+ ": " +:+ e)).

(** [for filename in filenames: ...], the entries that are not directories *)
Fixpoint scan_files (self : GuardianScanner) (root : string)
    (entries : list (string * node)) : W unit :=
  match entries with
  | [] => wret tt
  | (filename, File st content r) :: entries' =>
      run scan_file self root filename st content r;
      scan_files self root entries'
  | (_, Dir _) :: entries' => scan_files self root entries'
  end.

(** [dirs[:] = [d for d in dirs if not self._should_exclude(join(root, d))]]:
    the names of the directories that stay *)
Fixpoint filter_dirs (self : GuardianScanner) (root : string)
    (entries : list (string * node)) : W (list string) :=
  match entries with
  | [] => wret []
  | (d, Dir _) :: entries' =>
      do excluded <- wlift (_should_exclude self (posixpath.join root d));
      do dirs <- filter_dirs self root entries';
      wret (if (excluded : bool) then dirs else d :: dirs)
  | (_, File _ _ _) :: entries' => filter_dirs self root entries'
  end.

(** [os.walk(top)] with the body of the loop of [scan_directory].  A top
    that is no directory cannot be listed: [os.walk] drops the error and
    yields nothing.  After the body, the walk goes down into the
    directories that the body left in [dirs]. *)
Fixpoint walk (self : GuardianScanner) (top : string) (n : node) {struct n} : W unit :=
  match n with
  | File _ _ _ => wret tt
  | Dir entries =>
      do dirs <- filter_dirs self top entries;
      run scan_files self top entries;
      (fix descend (es : list (string * node)) : W unit :=
         match es with
         | [] => wret tt
         | (d, sub) :: es' =>
             if is_dir sub && bool_decide (d ∈ dirs) then
               run walk self (posixpath.join top d) sub;
               descend es'
             else descend es'
         end) entries
  end.

Definition scan_directory (self : GuardianScanner) (fs : filesystem)
    (directory : string) : result (list FileInfo) * list (level * string) :=
  let directory := posixpath.abspath (cwd fs) directory in
  if negb (os_path_exists fs directory) then
    (Ok [], [(ERROR, "Directory does not exist: " +:+ directory)])
  else
    let '(r, evs) :=
      run logging INFO ("Scanning directory: " +:+ directory);
      except_OSError
        (match lookup fs directory with
         | Some n => walk self directory n
         | None => wret tt
         end)
        (fun e => logging ERROR ("Error scanning directory " +:+ directory
                                 +:+ ": " +:+ e)) in
    let files := appended evs in
    match r with
    | Ok _ =>
        (Ok files,
         (logged evs ++ [(INFO, "Scanned " +:+ pretty (length files) +:+ " files")])%list)
    | Raise e => (Raise e, logged evs)
    end.
End Scan.

(** ** [GuardianDatabase]: the three tables, rows in rowid order *)

Module Baselines.
Record row := mk {
  id : Z;
  name : string;
  created_at : Z;      (* CURRENT_TIMESTAMP: whole seconds *)
  path : string;
  file_count : Z;
  total_size : Z
}.
End Baselines.

Module Files.
Record row := mk {
  baseline_id : Z;
  file_path : string;
  file_size : Z;
  modified_time : pyfloat;
  hash_sha256 : string;
  hash_sha1 : string;
  hash_md5 : string;
  permissions : string;
  inode : option Z;
  created_at : Z
}.
End Files.

Module ChangeHistory.
Record row := mk {
  baseline_id : Z;
  change_type : string;
  file_path : string;
  old_hash : option string;
  new_hash : option string;
  old_size : option Z;
  new_size : option Z;
  detected_at : Z
}.
End ChangeHistory.

Module GuardianDatabase.
Record t := mk {
  baselines : list Baselines.row;
  baselines_seq : Z;     (* sqlite_sequence of the AUTOINCREMENT key *)
  files : list Files.row;
  change_history : list ChangeHistory.row
}.

(** [init_database] on a new file *)
Definition init_database : t := mk [] 0 [] [].

(** SQLite's CURRENT_TIMESTAMP is 'YYYY-MM-DD HH:MM:SS': the clock cut to
    whole seconds.  Texts of this form compare as the seconds do. *)
Definition CURRENT_TIMESTAMP (now : clock) : Z := now / 1000000.

Definition insert_file (now : clock) (baseline_id : Z) (file_info : FileInfo)
  : Files.row :=
  Files.mk baseline_id (FileInfo.path file_info) (FileInfo.size file_info)
    (FileInfo.modified_time file_info) (FileInfo.hash_sha256 file_info)
    (FileInfo.hash_sha1 file_info) (FileInfo.hash_md5 file_info)
    (FileInfo.permissions file_info) (FileInfo.inode file_info)
    (CURRENT_TIMESTAMP now).

Definition create_baseline (self : t) (now : clock) (name path : string)
    (files : list FileInfo) : Z * t :=
  let total_size := foldr Z.add 0 (FileInfo.size <$> files) in
  let baseline_id := baselines_seq self + 1 in
  let self :=
    mk (baselines self ++
          [Baselines.mk baseline_id name (CURRENT_TIMESTAMP now) path
             (Z.of_nat (length files)) total_size])
       baseline_id (GuardianDatabase.files self) (change_history self) in
  let self :=
    fold_left (fun self file_info =>
                 mk (baselines self) (baselines_seq self)
                    (GuardianDatabase.files self ++ [insert_file now baseline_id file_info])
                    (change_history self))
              files self in
  (baseline_id, self).

Definition file_info_of_row (row : Files.row) : FileInfo :=
  FileInfo.mk (Files.file_path row) (Files.file_size row) (Files.modified_time row)
    (Files.hash_sha256 row) (Files.hash_sha1 row) (Files.hash_md5 row)
    (Files.permissions row) (Files.inode row).

Definition get_baseline_files (self : t) (baseline_id : Z) : pydict.t FileInfo :=
  let rows := filter (fun row => Files.baseline_id row = baseline_id) (files self) in
  fold_left (fun files row => pydict.set files (Files.file_path row) (file_info_of_row row))
            rows [].

(** [ORDER BY created_at DESC]: SQLite keeps rows of equal keys in the order
    of the scan (the sorter's key is followed by the row's sequence
    number), so the sort is the stable one. *)
Fixpoint insert_desc (row : Baselines.row) (sorted : list Baselines.row)
  : list Baselines.row :=
  match sorted with
  | [] => [row]
  | row' :: sorted' =>
      if Baselines.created_at row <? Baselines.created_at row'
      then row' :: insert_desc row sorted'
      else row :: sorted
  end.

Definition order_by_created_at_desc (rows : list Baselines.row) : list Baselines.row :=
  foldr insert_desc [] rows.

(** SELECT id FROM baselines WHERE path = ? ORDER BY created_at DESC LIMIT 1 *)
Definition get_latest_baseline (self : t) (path : string) : option Z :=
  let rows := filter (fun row => Baselines.path row = path) (baselines self) in
  match order_by_created_at_desc rows with
  | row :: _ => Some (Baselines.id row)
  | [] => None
  end.

Definition insert_change (now : clock) (baseline_id : Z) (change : ChangeReport)
  : ChangeHistory.row :=
  ChangeHistory.mk baseline_id (ChangeType_value (ChangeReport.change_type change))
    (ChangeReport.file_path change) (ChangeReport.old_hash change)
    (ChangeReport.new_hash change) (ChangeReport.old_size change)
    (ChangeReport.new_size change) (CURRENT_TIMESTAMP now).

Definition record_changes (self : t) (now : clock) (baseline_id : Z)
    (changes : list ChangeReport) : t :=
  fold_left (fun self change =>
               mk (baselines self) (baselines_seq self) (files self)
                  (change_history self ++ [insert_change now baseline_id change]))
            changes self.
End GuardianDatabase.
Abbreviation GuardianDatabase := GuardianDatabase.t.

(** ** [Guardian] *)

Module Guardian.
Record t := mk {
  config : GuardianConfig;
  scanner : GuardianScanner
}.
End Guardian.
Abbreviation Guardian := Guardian.t.

Section Guardian.
Context `{PyLib}.

(** [Guardian.__init__], as far as the scanner goes *)
Definition Guardian_init (config : GuardianConfig) : result Guardian :=
  rbind (GuardianScanner_init config) (fun scanner => Ok (Guardian.mk config scanner)).

Definition create_baseline (self : Guardian) (fs : filesystem) (now : clock)
    (db : GuardianDatabase) (path : string) (name : option string)
  : result (option Z) * GuardianDatabase * list (level * string) :=
  let name := default ("baseline_" +:+ strftime_Ymd_HMS now) name in
  let log := [(INFO, "Creating baseline '" +:+ name +:+ "' for path: " +:+ path)] in
  let '(r, scan_log) := scan_directory (Guardian.scanner self) fs path in
  let log := (log ++ scan_log)%list in
  match r with
  | Raise e => (Raise e, db, log)
  | Ok files =>
      if decide (files = []) then
        (Ok None, db, (log ++ [(WARNING, "No files found in path: " +:+ path)])%list)
      else
        let '(baseline_id, db) :=
          GuardianDatabase.create_baseline db now name path files in
        (Ok (Some baseline_id), db,
         (log ++ [(INFO, "Baseline created successfully. ID: " +:+ pretty baseline_id
                         +:+ ", Files: " +:+ pretty (length files))])%list)
  end.

Definition check_integrity (self : Guardian) (fs : filesystem) (now : clock)
    (db : GuardianDatabase) (path : string)
  : result (list ChangeReport) * GuardianDatabase * list (level * string) :=
  match GuardianDatabase.get_latest_baseline db path with
  | None => (Ok [], db, [(ERROR, "No baseline found for path: " +:+ path)])
  | Some baseline_id =>
      let log := [(INFO, "Checking integrity for path: " +:+ path)] in
      let baseline_files := GuardianDatabase.get_baseline_files db baseline_id in
      let '(r, scan_log) := scan_directory (Guardian.scanner self) fs path in
      let log := (log ++ scan_log)%list in
      match r with
      | Raise e => (Raise e, db, log)
      | Ok current_files =>
          let current_file_dict :=
            fold_left (fun d f => pydict.set d (FileInfo.path f) f) current_files [] in
          let changes := detect_changes now baseline_files current_file_dict in
          let db :=
            if decide (changes = []) then db
            else GuardianDatabase.record_changes db now baseline_id changes in
          (Ok changes, db,
           (log ++ [(INFO, "Integrity check completed. Changes detected: "
                           +:+ pretty (length changes))])%list)
      end
  end.
End Guardian.

(** ** A library instance for running the model on examples

    The digests are stand-ins (length and byte sum of the data); the glob
    matcher knows [*] and [?] and agrees with [fnmatchcase] on patterns
    without brackets. *)

Module Demo.
Fixpoint glob (fuel : nat) (name pat : string) : bool :=
  match fuel with
  | O => false
  | S fuel' =>
      match pat, name with
      | EmptyString, EmptyString => true
      | EmptyString, String _ _ => false
      | String "*" pat', EmptyString => glob fuel' name pat'
      | String "*" pat', String _ name' => glob fuel' name pat' || glob fuel' name' pat
      | String "?" pat', String _ name' => glob fuel' name' pat'
      | String c pat', String c' name' => Ascii.eqb c c' && glob fuel' name' pat'
      | String _ _, EmptyString => false
      end
  end.

Definition byte_sum (data : list byte) : N :=
  foldr (fun b acc => (Byte.to_N b + acc)%N) 0%N data.

Definition digest (tag : string) (data : list byte) : string :=
  tag +:+ pretty (length data) +:+ "x" +:+ pretty (byte_sum data).

Definition lib : PyLib := {|
  sha256_hexdigest := digest "a";
  sha1_hexdigest := digest "b";
  md5_hexdigest := digest "c";
  fnmatchcase := fun name pat =>
    glob (S (String.length name + String.length pat)) name pat;
  isoformat := fun now => pretty now;
  strftime_Ymd_HMS := fun now => pretty (now / 1000000)
|}.

Definition bytes (s : string) : list byte := list_byte_of_string s.

Definition regular (size : Z) : stat_result :=
  {| st_mode := 33188; st_ino := 7; st_size := size; st_mtime := Finite 0 0 |}.

(** A readable regular file holding the bytes of [s] *)
Definition file (s : string) : node :=
  File (inr (regular (Z.of_nat (String.length s)))) (bytes s) Readable.
End Demo.

(** ** Vocabulary of the statements *)

Definition records_for (p : string) (changes : list ChangeReport) : list ChangeReport :=
  filter (fun r => ChangeReport.file_path r = p) changes.

Definition count_type (t : ChangeType) (changes : list ChangeReport) : nat :=
  length (filter (fun r => ChangeReport.change_type r = t) changes).

(** A baseline item is unchanged when the current scan has its path with the
    same SHA-256 digest. *)
Definition is_unchanged (current_file_dict : pydict.t FileInfo)
    (item : string * FileInfo) : bool :=
  match pydict.get current_file_dict item.1 with
  | Some current_file =>
      bool_decide (FileInfo.hash_sha256 item.2 = FileInfo.hash_sha256 current_file)
  | None => false
  end.

Definition unchanged_count (baseline_files current_file_dict : pydict.t FileInfo) : nat :=
  length (filter (fun item => is_unchanged current_file_dict item = true) baseline_files).

(** The fields of a file record that the comparison reads *)
Definition decisional (f : FileInfo) : string * Z :=
  (FileInfo.hash_sha256 f, FileInfo.size f).

(** A pattern that [Path.match] accepts: it has a part. *)
Definition valid_pattern (pattern : string) : Prop :=
  (pathlib.parse_parts pattern).2 ≠ [].

Section WalkVocabulary.
Context `{PyLib}.
Variable self : GuardianScanner.

(** [walked top n r es]: the walk that starts at the node [n] under the
    name [top] lists the directory [r], whose entries are [es].  The start
    is listed as it is; below it, the walk only goes through directories
    that [_should_exclude] lets pass. *)
Inductive walked : string -> node -> string -> list (string * node) -> Prop :=
| walked_here top es : walked top (Dir es) top es
| walked_below top es d sub r es' :
    (d, sub) ∈ es ->
    _should_exclude self (posixpath.join top d) = Ok false ->
    walked (posixpath.join top d) sub r es' ->
    walked top (Dir es) r es'.

(** The tree with everything below its excluded directories removed (the
    start, [top], stays). *)
Fixpoint prune (top : string) (n : node) {struct n} : node :=
  match n with
  | File st content r => File st content r
  | Dir entries =>
      Dir ((fix prune_entries (es : list (string * node)) : list (string * node) :=
              match es with
              | [] => []
              | (d, sub) :: es' =>
                  (d, match sub with
                      | File _ _ _ => sub
                      | Dir _ =>
                          match _should_exclude self (posixpath.join top d) with
                          | Ok false => prune (posixpath.join top d) sub
                          | _ => Dir []
                          end
                      end) :: prune_entries es'
              end) entries)
  end.
End WalkVocabulary.

Section ScanVocabulary.
Context `{PyLib}.

Definition hash_warning (file_path msg : string) : event :=
  Log WARNING ("Could not hash file " +:+ file_path +:+ ": " +:+ msg).

(** The digests a file record gets: those of the content when the file can
    be opened and read to its end, three empty strings otherwise. *)
Definition digests_of (content : list byte) (r : readability)
  : string * string * string :=
  match open_and_hash content r with
  | Ok _ => (sha256_hexdigest content, sha1_hexdigest content, md5_hexdigest content)
  | Raise _ => ("", "", "")
  end.

(** The record of a file whose [os.stat] gave [stat_info] *)
Definition file_record (file_path : string) (stat_info : stat_result)
    (content : list byte) (r : readability) : FileInfo :=
  let '(sha256, sha1, md5) := digests_of content r in
  FileInfo.mk file_path (st_size stat_info) (st_mtime stat_info) sha256 sha1 md5
    (last3 (oct (st_mode stat_info))) (Some (st_ino stat_info)).

(** The descent of [walk] into the directories left in [dirs] *)
Fixpoint descend (self : GuardianScanner) (top : string) (dirs : list string)
    (es : list (string * node)) : W unit :=
  match es with
  | [] => wret tt
  | (d, sub) :: es' =>
      if is_dir sub && bool_decide (d ∈ dirs) then
        run walk self (posixpath.join top d) sub;
        descend self top dirs es'
      else descend self top dirs es'
  end.
End ScanVocabulary.

Section ProvenanceVocabulary.
Context `{PyLib}.
Variable self : GuardianScanner.

(** [from_file fi r es]: the record [fi] is that of a file entry of the
    directory [r] (entries [es]) which is not excluded, whose [os.stat]
    worked and whose size is within the limit. *)
Definition from_file (fi : FileInfo) (r : string) (es : list (string * node)) : Prop :=
  exists filename stat_info content rd,
    (filename, File (inr stat_info) content rd) ∈ es
    /\ _should_exclude self (posixpath.join r filename) = Ok false
    /\ st_size stat_info <= GuardianScanner.max_file_size self
    /\ fi = file_record (posixpath.join r filename) stat_info content rd.

(** The entries of a directory [top] after [prune] *)
Fixpoint prune_entries (top : string) (es : list (string * node))
  : list (string * node) :=
  match es with
  | [] => []
  | (d, sub) :: es' =>
      (d, match sub with
          | File _ _ _ => sub
          | Dir _ =>
              match _should_exclude self (posixpath.join top d) with
              | Ok false => prune self (posixpath.join top d) sub
              | _ => Dir []
              end
          end) :: prune_entries top es'
  end.
End ProvenanceVocabulary.

Section ScanDirectoryVocabulary.
Context `{PyLib}.
Variable self : GuardianScanner.

(** The one exception that leaves the scanner: [Path.match] refusing a
    configured pattern. *)
Definition bad_pattern_exn (e : exn) : Prop :=
  e = ValueError "empty pattern"
  /\ Exists (fun pat => ~ valid_pattern pat) (GuardianScanner.exclude_patterns self).

(** [os.walk(directory)] with the loop body, at what [directory] names *)
Definition walk_at (fs : filesystem) (directory : string) : W unit :=
  match lookup fs directory with
  | Some n => walk self directory n
  | None => wret tt
  end.

Definition scanning_msg (directory : string) : level * string :=
  (INFO, "Scanning directory: " +:+ directory).

Definition scanned_msg (files : list FileInfo) : level * string :=
  (INFO, "Scanned " +:+ pretty (length files) +:+ " files").

Definition missing_msg (directory : string) : level * string :=
  (ERROR, "Directory does not exist: " +:+ directory).
End ScanDirectoryVocabulary.

(** The invariant of the store: the AUTOINCREMENT counter is at or above
    every baseline id in use, in [baselines] and in [files]. *)
Definition db_wf (db : GuardianDatabase) : Prop :=
  Forall (fun row => Baselines.id row <= GuardianDatabase.baselines_seq db)
         (GuardianDatabase.baselines db)
  /\ Forall (fun row => Files.baseline_id row <= GuardianDatabase.baselines_seq db)
            (GuardianDatabase.files db).

(** [{f.path: f for f in files}] *)
Definition dict_of_files (files : list FileInfo) : pydict.t FileInfo :=
  fold_left (fun d f => pydict.set d (FileInfo.path f) f) files [].

(** ** Concrete inputs *)

Module Examples.
Import Demo.

Definition info (path digest : string) (size : Z) : FileInfo :=
  FileInfo.mk path size (Finite 0 0) digest ("sha1-" +:+ digest) ("md5-" +:+ digest)
    "644" (Some 7).

(** A baseline and a current scan: [a.txt] modified, [b.txt] removed,
    [c.txt] added, [k.txt] kept, [u.bin] unreadable both times. *)
Definition baseline_dict : pydict.t FileInfo :=
  [("/d/a.txt", info "/d/a.txt" "aa" 5); ("/d/b.txt", info "/d/b.txt" "bb" 5);
   ("/d/k.txt", info "/d/k.txt" "kk" 2);
   ("/d/u.bin", FileInfo.mk "/d/u.bin" 9 (Finite 0 0) "" "" "" "600" (Some 8))].

Definition current_dict : pydict.t FileInfo :=
  [("/d/a.txt", info "/d/a.txt" "a2" 11); ("/d/k.txt", info "/d/k.txt" "kk" 2);
   ("/d/u.bin", FileInfo.mk "/d/u.bin" 9 (Finite 0 0) "" "" "" "600" (Some 8));
   ("/d/c.txt", info "/d/c.txt" "cc" 3)].

(** The current scan again, with other SHA-1 and MD5 digests *)
Definition current_dict' : pydict.t FileInfo :=
  [("/d/a.txt", FileInfo.mk "/d/a.txt" 11 (Finite 1 0) "a2" "x" "y" "600" None);
   ("/d/k.txt", FileInfo.mk "/d/k.txt" 2 (Finite 1 0) "kk" "x" "y" "600" None);
   ("/d/u.bin", FileInfo.mk "/d/u.bin" 9 (Finite 1 0) "" "x" "y" "600" None);
   ("/d/c.txt", FileInfo.mk "/d/c.txt" 3 (Finite 1 0) "cc" "x" "y" "600" None)].

Definition scanner_of (config : GuardianConfig) : GuardianScanner :=
  match GuardianScanner_init config with
  | Ok scanner => scanner
  | Raise _ => GuardianScanner.mk config [] 0
  end.

Definition guardian_of (config : GuardianConfig) : Guardian :=
  Guardian.mk config (scanner_of config).

(** The default configuration *)
Definition guardian : Guardian := guardian_of GuardianConfig.load_defaults.

(** [/srv/app] with one file, the same with the file rewritten, and empty *)
Definition fs_full : filesystem :=
  {| cwd := "/srv"; root := Dir [("srv", Dir [("app", Dir [("a.txt", file "hello")])])] |}.

Definition fs_changed : filesystem :=
  {| cwd := "/srv";
     root := Dir [("srv", Dir [("app", Dir [("a.txt", file "hello there")])])] |}.

Definition fs_empty : filesystem :=
  {| cwd := "/srv"; root := Dir [("srv", Dir [("app", Dir [])])] |}.

(** The store after a first baseline of [fs_full] *)
Definition db_old : GuardianDatabase :=
  (create_baseline (H:=lib) guardian fs_full 1700000000200000
     GuardianDatabase.init_database "/srv/app" (Some "first")).1.2.

(** A limit of five bytes; a file of five bytes, one of six, one that
    cannot be opened, and an excluded directory with a file below it *)
Definition small : Guardian := guardian_of (GuardianConfig.mk "*.tmp,cache" "5B" "/proc").

Definition gate_dir : node :=
  Dir [("five", file "hello"); ("six", file "hello!");
       ("locked", File (inr (regular 3)) (bytes "abc") (OpenError "Permission denied"));
       ("x.tmp", file "t");
       ("cache", Dir [("in", file "c")]);
       ("sub", Dir [("s", file "s")])].

Definition fs_gate : filesystem := {| cwd := "/"; root := Dir [("data", gate_dir)] |}.

(** [gate_dir] with other things below the excluded directory *)
Definition gate_dir' : node :=
  Dir [("five", file "hello"); ("six", file "hello!");
       ("locked", File (inr (regular 3)) (bytes "abc") (OpenError "Permission denied"));
       ("x.tmp", file "t");
       ("cache", Dir [("other", file "zz"); ("more", Dir [])]);
       ("sub", Dir [("s", file "s")])].

Definition fs_gate' : filesystem := {| cwd := "/"; root := Dir [("data", gate_dir')] |}.

(** [fs_full] with the store file beside the monitored directory *)
Definition fs_stored : filesystem :=
  {| cwd := "/srv";
     root := Dir [("srv", Dir [("app", Dir [("a.txt", file "hello")]);
                               ("guardian_baseline.db", file "SQLite format 3")])] |}.

(** A start directory whose own name matches an exclude pattern *)
Definition fs_cache : filesystem :=
  {| cwd := "/"; root := Dir [("data", Dir [("cache", Dir [("a.txt", file "x")])])] |}.
End Examples.

(** What the scan of [Examples.fs_gate] returns *)
Definition gate_files : list FileInfo :=
  Eval vm_compute in
    match (scan_directory (H:=Demo.lib) (Guardian.scanner Examples.small)
             Examples.fs_gate "/data").1 with
    | Ok files => files
    | Raise _ => []
    end.

Definition gate_log : list (level * string) :=
  Eval vm_compute in
    (scan_directory (H:=Demo.lib) (Guardian.scanner Examples.small)
       Examples.fs_gate "/data").2.

(** A baseline item is reported as modified when the current scan has its
    path with another SHA-256 digest. *)
Definition differs (c : pydict.t FileInfo) (item : string * FileInfo) : bool :=
  match pydict.get c item.1 with
  | Some cf => bool_decide (FileInfo.hash_sha256 item.2 ≠ FileInfo.hash_sha256 cf)
  | None => false
  end.


(** The rows of [files] that belong to a baseline *)
Definition files_of (db : GuardianDatabase) (baseline_id : Z) : list Files.row :=
  filter (fun row => Files.baseline_id row = baseline_id) (GuardianDatabase.files db).

(** What the tables of a store written by [Guardian] satisfy: the
    AUTOINCREMENT counter is not negative, the ids of [baselines] are
    distinct and lie in [1, sqlite_sequence]; every row of
    [files] and of [change_history] refers to a row of [baselines]; the
    [file_count] and [total_size] columns of a baseline are the number and
    the total size of its rows in [files], and no baseline is empty. *)
Definition db_consistent (db : GuardianDatabase) : Prop :=
  let ids := Baselines.id <$> GuardianDatabase.baselines db in
  0 <= GuardianDatabase.baselines_seq db
  /\ NoDup ids
  /\ Forall (fun id => 1 <= id <= GuardianDatabase.baselines_seq db) ids
  /\ Forall (fun row => Files.baseline_id row ∈ ids) (GuardianDatabase.files db)
  /\ Forall (fun row => ChangeHistory.baseline_id row ∈ ids)
            (GuardianDatabase.change_history db)
  /\ Forall (fun row =>
               let rows := files_of db (Baselines.id row) in
               Baselines.file_count row = Z.of_nat (length rows)
               /\ Baselines.total_size row = foldr Z.add 0 (Files.file_size <$> rows)
               /\ 0 < Baselines.file_count row)
            (GuardianDatabase.baselines db).

(** The character of a digit *)
Definition digit_char (d : Z) : ascii := ascii_of_nat (48 + Z.to_nat d).

(** The three characters for the low nine bits of a mode: user, group, other *)
Definition rwx_digits (mode : Z) : string :=
  String (digit_char (mode / 64 mod 8))
    (String (digit_char (mode / 8 mod 8)) (String (digit_char (mode mod 8)) "")).

(** No name in the tree begins with a slash (no directory entry does). *)
Fixpoint relative_names (n : node) : bool :=
  match n with
  | File _ _ _ => true
  | Dir entries =>
      forallb (fun e => let '(d, sub) := e in
                        negb (str.startswith d "/") && relative_names sub)
              entries
  end.

(** The numeral that writes the digits [ds], most significant first *)
Definition numeral (ds : list Z) : string :=
  foldr (fun d s => String (digit_char d) s) "" ds.

Definition decimal_digit (d : Z) : Prop := 0 <= d <= 9.

(** Whether the character occurs in the string *)
Fixpoint has_char (c : ascii) (s : string) : bool :=
  match s with
  | EmptyString => false
  | String a s' => Ascii.eqb a c || has_char c s'
  end.

(** An item as [get_list] returns them: not empty, no white space at
    either end, no comma *)
Definition clean_item (item : string) : Prop :=
  item ≠ "" /\ str.strip item = item /\ has_char "," item = false.

(** What SQLite's INTEGER holds: the signed 64-bit integers.  The sqlite3
    module raises OverflowError for any other [int]. *)
Definition int64 (z : Z) : Prop := - 2 ^ 63 <= z < 2 ^ 63.

(** A record that the [files] table takes and gives back as it is: its
    integers fit INTEGER and its time is a number (sqlite3 stores a NaN as
    NULL, which reads back as [None]). *)
Definition storable (f : FileInfo) : Prop :=
  int64 (FileInfo.size f)
  /\ match FileInfo.inode f with Some i => int64 i | None => True end
  /\ FileInfo.modified_time f ≠ NaN.

(** ** [GuardianReporter] *)

(** What [json.dumps] is given *)
Local Unset Elimination Schemes.
Inductive json :=
| JNull
| JInt (z : Z)
| JStr (s : string)
| JList (items : list json)
| JDict (items : list (string * json)).
Local Set Elimination Schemes.

(** The library functions of the reports *)
Class ReportLib := {
  (** [datetime.strftime('%Y-%m-%d %H:%M:%S')] of a clock reading *)
  strftime_Ymd_HMS_text : Z -> string;
  (** [json.dumps(obj, indent=2)] *)
  json_dumps_indent2 : json -> string
}.

(** The outcome of building a report: the text, or the TypeError of
    slicing [None] *)
Inductive reported (A : Type) :=
| Report (a : A)
| TypeError (msg : string).
Arguments Report {A} a.
Arguments TypeError {A} msg.

Definition reported_bind {A B} (m : reported A) (k : A -> reported B) : reported B :=
  match m with
  | Report a => k a
  | TypeError msg => TypeError msg
  end.

Definition nl : string := String (ascii_of_nat 10) "".
Definition dq : string := String (ascii_of_nat 34) "".

(** [str(x)] for an [Optional[int]] and an [Optional[str]] *)
Definition str_of_optional_int (x : option Z) : string :=
  match x with Some z => pretty z | None => "None" end.

Definition str_of_optional_str (x : option string) : string :=
  match x with Some s => s | None => "None" end.

(** [h[:16]] for an [Optional[str]] *)
Definition first16 (h : option string) : reported string :=
  match h with
  | Some s => Report (String.substring 0 16 s)
  | None => TypeError "'NoneType' object is not subscriptable"
  end.

(** The dictionary [by_type], keys in the order of their first insertion *)
Module by_type.
Abbreviation t := (list (ChangeType * list ChangeReport)).

Fixpoint get (d : t) (k : ChangeType) : option (list ChangeReport) :=
  match d with
  | [] => None
  | (k', v) :: d' => if decide (k' = k) then Some v else get d' k
  end.

Definition mem (d : t) (k : ChangeType) : bool :=
  match get d k with Some _ => true | None => false end.

Fixpoint set (d : t) (k : ChangeType) (v : list ChangeReport) : t :=
  match d with
  | [] => [(k, v)]
  | (k', v') :: d' =>
      if decide (k' = k) then (k', v) :: d' else (k', v') :: set d' k v
  end.

(** [by_type[k].append(change)] for a key that is there *)
Definition append (d : t) (k : ChangeType) (change : ChangeReport) : t :=
  match get d k with
  | Some v => set d k (v ++ [change])
  | None => d
  end.
End by_type.

Module GuardianReporter.
(** Of its [config] the reporter reads REPORTING / output_format. *)
Record t := mk {
  output_format : string
}.
End GuardianReporter.
Abbreviation GuardianReporter := GuardianReporter.t.

(** The constant parts of the f-strings of [_generate_html_report] *)
Definition html_head : string :=
  nl
  +:+ "        <!DOCTYPE html>" +:+ nl
  +:+ "        <html>" +:+ nl
  +:+ "        <head>" +:+ nl
  +:+ "            <title>Guardian FIM Report</title>" +:+ nl
  +:+ "            <style>" +:+ nl
  +:+ "                body { font-family: Arial, sans-serif; margin: 20px; }" +:+ nl
  +:+ "                .header { background-color: #f0f0f0; padding: 20px; border-radius: 5px; }" +:+ nl
  +:+ "                .change { margin: 10px 0; padding: 10px; border-left: 4px solid #ccc; }" +:+ nl
  +:+ "                .added { border-left-color: #4CAF50; }" +:+ nl
  +:+ "                .modified { border-left-color: #FF9800; }" +:+ nl
  +:+ "                .removed { border-left-color: #F44336; }" +:+ nl
  +:+ "                .hash { font-family: monospace; font-size: 0.9em; color: #666; }" +:+ nl
  +:+ "            </style>" +:+ nl
  +:+ "        </head>" +:+ nl
  +:+ "        <body>" +:+ nl
  +:+ "            <div class=" +:+ dq +:+ "header" +:+ dq +:+ ">" +:+ nl
  +:+ "                <h1>Guardian File Integrity Monitor</h1>" +:+ nl
  +:+ "                <p>Scan completed: ".

Definition html_total : string :=
  "</p>" +:+ nl
  +:+ "                <p>Total changes: ".

Definition html_head_end : string :=
  "</p>" +:+ nl
  +:+ "            </div>" +:+ nl
  +:+ "        ".

Definition html_change_open : string :=
  nl
  +:+ "            <div class=" +:+ dq +:+ "change ".

Definition html_change_title : string :=
  dq +:+ ">" +:+ nl
  +:+ "                <h3>[".

Definition html_change_path : string :=
  "] ".

Definition html_change_title_end : string :=
  "</h3>" +:+ nl
  +:+ "            ".

Definition html_old_hash : string :=
  nl
  +:+ "                <p class=" +:+ dq +:+ "hash" +:+ dq +:+ ">Old hash: ".

Definition html_new_hash : string :=
  "</p>" +:+ nl
  +:+ "                <p class=" +:+ dq +:+ "hash" +:+ dq +:+ ">New hash: ".

Definition html_hash_end : string :=
  "</p>" +:+ nl
  +:+ "                ".

Definition html_size : string :=
  "<p>Size: ".

Definition html_size_arrow : string :=
  " -> ".

Definition html_size_end : string :=
  " bytes</p>".

Section Reporter.
Context `{PyLib} `{ReportLib}.

(** The loop [for change in changes] that groups the changes *)
Definition group_by_type (changes : list ChangeReport) : by_type.t :=
  fold_left (fun by_type change =>
               let k := ChangeReport.change_type change in
               let by_type := if negb (by_type.mem by_type k)
                              then by_type.set by_type k [] else by_type in
               by_type.append by_type k change)
            changes [].

(** The lines of one change in the console report *)
Definition console_change (change : ChangeReport) : reported (list string) :=
  let report := ["  " +:+ ChangeReport.file_path change] in
  if decide (ChangeReport.change_type change = MODIFIED) then
    reported_bind (first16 (ChangeReport.old_hash change)) (fun old =>
    let report := report ++ ["    Old hash: " +:+ old +:+ "..."] in
    reported_bind (first16 (ChangeReport.new_hash change)) (fun new =>
    let report := report ++ ["    New hash: " +:+ new +:+ "..."] in
    if decide (ChangeReport.old_size change ≠ ChangeReport.new_size change) then
      Report (report ++ ["    Size: " +:+ str_of_optional_int (ChangeReport.old_size change)
                         +:+ " -> " +:+ str_of_optional_int (ChangeReport.new_size change)
                         +:+ " bytes"])
    else Report report))
  else Report report.

(** [for change in by_type[change_type]] *)
Fixpoint console_changes (changes : list ChangeReport) : reported (list string) :=
  match changes with
  | [] => Report []
  | change :: changes' =>
      reported_bind (console_change change) (fun lines =>
      reported_bind (console_changes changes') (fun lines' =>
      Report (lines ++ lines')))
  end.

(** One turn of [for change_type in [ADDED, MODIFIED, REMOVED]] *)
Definition console_section (by_type : by_type.t) (change_type : ChangeType)
  : reported (list string) :=
  match by_type.get by_type change_type with
  | Some changes =>
      reported_bind (console_changes changes) (fun lines =>
      Report (["[" +:+ ChangeType_value change_type +:+ "] ("
               +:+ pretty (length changes) +:+ " files)";
               str.repeat "-" 40]
              ++ lines ++ [""]))
  | None => Report []
  end.

Definition _generate_console_report (now : clock) (changes : list ChangeReport)
  : reported string :=
  if decide (changes = []) then
    Report "No changes detected. System integrity maintained."
  else
    let report :=
      [str.repeat "=" 60;
       "GUARDIAN FILE INTEGRITY MONITOR - CHANGE REPORT";
       str.repeat "=" 60;
       "Scan completed at: " +:+ strftime_Ymd_HMS_text now;
       "Total changes detected: " +:+ pretty (length changes);
       ""] in
    let by_type := group_by_type changes in
    reported_bind (console_section by_type ADDED) (fun added =>
    reported_bind (console_section by_type MODIFIED) (fun modified =>
    reported_bind (console_section by_type REMOVED) (fun removed =>
    Report (str.join nl (report ++ added ++ modified ++ removed))))).

Definition json_of_optional_str (x : option string) : json :=
  match x with Some s => JStr s | None => JNull end.

Definition json_of_optional_int (x : option Z) : json :=
  match x with Some z => JInt z | None => JNull end.

(** [asdict(change)] with [change_type] replaced by its value *)
Definition change_dict (change : ChangeReport) : json :=
  JDict [("change_type", JStr (ChangeType_value (ChangeReport.change_type change)));
         ("file_path", JStr (ChangeReport.file_path change));
         ("old_hash", json_of_optional_str (ChangeReport.old_hash change));
         ("new_hash", json_of_optional_str (ChangeReport.new_hash change));
         ("old_size", json_of_optional_int (ChangeReport.old_size change));
         ("new_size", json_of_optional_int (ChangeReport.new_size change));
         ("timestamp", JStr (ChangeReport.timestamp change))].

Definition report_data (now : clock) (changes : list ChangeReport) : json :=
  JDict [("timestamp", JStr (isoformat now));
         ("total_changes", JInt (Z.of_nat (length changes)));
         ("changes", JList (change_dict <$> changes))].

Definition _generate_json_report (now : clock) (changes : list ChangeReport) : string :=
  json_dumps_indent2 (report_data now changes).


(** What one turn of [for change in changes] adds to [html] *)
Definition html_change (change : ChangeReport) : string :=
  let css_class := str.lower (ChangeType_value (ChangeReport.change_type change)) in
  let html :=
    html_change_open +:+ css_class +:+ html_change_title
    +:+ ChangeType_value (ChangeReport.change_type change) +:+ html_change_path
    +:+ ChangeReport.file_path change +:+ html_change_title_end in
  let html :=
    if decide (ChangeReport.change_type change = MODIFIED) then
      let html :=
        html +:+ (html_old_hash +:+ str_of_optional_str (ChangeReport.old_hash change)
                  +:+ html_new_hash +:+ str_of_optional_str (ChangeReport.new_hash change)
                  +:+ html_hash_end) in
      if decide (ChangeReport.old_size change ≠ ChangeReport.new_size change) then
        html +:+ (html_size +:+ str_of_optional_int (ChangeReport.old_size change)
                  +:+ html_size_arrow
                  +:+ str_of_optional_int (ChangeReport.new_size change)
                  +:+ html_size_end)
      else html
    else html in
  html +:+ "</div>".

Definition _generate_html_report (now : clock) (changes : list ChangeReport) : string :=
  let html :=
    html_head +:+ strftime_Ymd_HMS_text now +:+ html_total
    +:+ pretty (length changes) +:+ html_head_end in
  let html := fold_left (fun html change => html +:+ html_change change) changes html in
  html +:+ "</body></html>".

Definition generate_report (self : GuardianReporter) (now : clock)
    (changes : list ChangeReport) (output_format : option string) : reported string :=
  let output_format :=
    match output_format with
    | None => GuardianReporter.output_format self
    | Some output_format => output_format
    end in
  if decide (output_format = "json") then Report (_generate_json_report now changes)
  else if decide (output_format = "html") then Report (_generate_html_report now changes)
  else _generate_console_report now changes.
End Reporter.

(** ** [Guardian.run] *)

Module Args.
(** The attributes of [args] that [run] reads *)
Record t := mk {
  baseline : bool;
  check : bool;
  path : string;
  name : option string;
  output : option string;
  save_report : bool;
  fail_on_changes : bool
}.
End Args.

(** How a call ends: by returning, by [sys.exit], or by an exception *)
Inductive ending :=
| Returns
| SysExit (code : Z)
| Raises (e : exn)
| RaisesTypeError (msg : string).

Module Outcome.
(** What a call of [run] leaves: how it ended, the store, the log records,
    the lines printed and the files written, each in order *)
Record t := mk {
  ending_ : ending;
  db : GuardianDatabase;
  log : list (level * string);
  stdout : list string;
  written : list (string * string)
}.
End Outcome.

Section Run.
Context `{PyLib} `{ReportLib}.

(** [Guardian.run]; [open_w file] is the message of the OSError that
    [open(file, 'w')] raises, if it does. *)
Definition Guardian_run (self : Guardian) (reporter : GuardianReporter)
    (open_w : string -> option string) (fs : filesystem) (now : clock)
    (db : GuardianDatabase) (args : Args.t) : Outcome.t :=
  if Args.baseline args then
    let '(r, db, log) := create_baseline self fs now db (Args.path args) (Args.name args) in
    match r with
    | Raise e => Outcome.mk (Raises e) db log [] []
    | Ok baseline_id =>
        match baseline_id with
        | Some id =>
            if decide (id ≠ 0) then
              Outcome.mk Returns db log
                ["Baseline created successfully with ID: " +:+ pretty id] []
            else Outcome.mk (SysExit 1) db log ["Failed to create baseline"] []
        | None => Outcome.mk (SysExit 1) db log ["Failed to create baseline"] []
        end
    end
  else if Args.check args then
    let '(r, db, log) := check_integrity self fs now db (Args.path args) in
    match r with
    | Raise e => Outcome.mk (Raises e) db log [] []
    | Ok changes =>
        if decide (changes ≠ []) then
          match generate_report reporter now changes (Args.output args) with
          | TypeError msg => Outcome.mk (RaisesTypeError msg) db log [] []
          | Report report =>
              let stdout := [report] in
              let finish stdout written :=
                Outcome.mk (if Args.fail_on_changes args then SysExit 1 else Returns)
                  db log stdout written in
              if Args.save_report args then
                let report_file :=
                  "guardian_report_" +:+ strftime_Ymd_HMS now +:+ ".txt" in
                match open_w report_file with
                | Some msg => Outcome.mk (Raises (OSError msg)) db log stdout []
                | None =>
                    finish (stdout ++ ["Report saved to: " +:+ report_file])
                           [(report_file, report)]
                end
              else finish stdout []
          end
        else
          Outcome.mk Returns db log
            ["No changes detected. System integrity maintained."] []
    end
  else
    Outcome.mk (SysExit 1) db [] ["Please specify either --baseline or --check mode"] [].
End Run.

(** ** Vocabulary of the report properties *)

(** The changes of one type, in the order given *)
Definition of_type (t : ChangeType) (changes : list ChangeReport) : list ChangeReport :=
  filter (fun change => ChangeReport.change_type change = t) changes.

(** [d] is [by_type] after the grouping loop has gone through [changes] *)
Definition grouped (changes : list ChangeReport) (d : by_type.t) : Prop :=
  forall t, by_type.get d t
            = match of_type t changes with [] => None | l => Some l end.

(** A change that the console report can print: a MODIFIED one has both
    digests. *)
Definition hashes_given (change : ChangeReport) : bool :=
  if decide (ChangeReport.change_type change = MODIFIED)
  then bool_decide (is_Some (ChangeReport.old_hash change))
       && bool_decide (is_Some (ChangeReport.new_hash change))
  else true.

(** [html] after the loop over [changes], from the empty string *)
Definition html_changes (changes : list ChangeReport) : string :=
  foldr (fun change html => html_change change +:+ html) "" changes.

(** ** A library instance for running the reports on examples

    The clock is printed as a number; the JSON text is compact and does
    not escape (a stand-in for [json.dumps]). *)

Module DemoReport.
Fixpoint json_text (j : json) : string :=
  match j with
  | JNull => "null"
  | JInt z => pretty z
  | JStr s => dq +:+ s +:+ dq
  | JList items =>
      "[" +:+ (fix go (l : list json) : string :=
                 match l with
                 | [] => ""
                 | x :: l' =>
                     json_text x +:+ (match l' with [] => "" | _ => ", " end) +:+ go l'
                 end) items +:+ "]"
  | JDict items =>
      "{" +:+ (fix go (l : list (string * json)) : string :=
                 match l with
                 | [] => ""
                 | (k, v) :: l' =>
                     dq +:+ k +:+ dq +:+ ": " +:+ json_text v
                     +:+ (match l' with [] => "" | _ => ", " end) +:+ go l'
                 end) items +:+ "}"
  end.

Definition lib : ReportLib :=
  {| strftime_Ymd_HMS_text := fun now => pretty now;
     json_dumps_indent2 := json_text |}.

(** A reporter with the default format, and arguments of the two modes *)
Definition reporter : GuardianReporter := GuardianReporter.mk "console".

Definition baseline_args : Args.t :=
  Args.mk true false "/srv/app" (Some "first") (Some "console") false false.

Definition check_args : Args.t :=
  Args.mk false true "/srv/app" None (Some "console") true true.

(** Opening a file for writing works *)
Definition open_w (file : string) : option string := None.

(** Two changes, and the same two the other way round *)
Definition added : ChangeReport :=
  ChangeReport.mk ADDED "/d/c.txt" None (Some "cc") None (Some 3) "t".

Definition removed : ChangeReport :=
  ChangeReport.mk REMOVED "/d/b.txt" (Some "bb") None None None "t".
End DemoReport.

(** * Properties *)

(** ** Dictionaries *)

Section DictFacts.
Context {V : Type}.
Implicit Types (d : pydict.t V) (k : string) (v : V).

Lemma get_None d k : pydict.get d k = None <-> k ∉ pydict.keys d.
Proof.
  induction d as [|[k' v'] d IH]; simpl.
  - split; [intros _; apply not_elem_of_nil | done].
  - destruct (decide (k' = k)) as [->|Hne].
    + split; [done | intros Hn; exfalso; apply Hn; left].
    + rewrite IH, not_elem_of_cons.
      split; [intros ?; split; [congruence | done] | by intros [_ ?]].
Qed.

Lemma get_Some_elem d k v : pydict.get d k = Some v -> (k, v) ∈ d.
Proof.
  induction d as [|[k' v'] d IH]; simpl; [done|].
  destruct (decide (k' = k)) as [->|Hne].
  - intros [= ->]. left.
  - intros Hg. right. auto.
Qed.

Lemma get_elem d k v : pydict.wf d -> (k, v) ∈ d -> pydict.get d k = Some v.
Proof.
  unfold pydict.wf, pydict.keys.
  induction d as [|[k' v'] d IH]; simpl; intros Hnd Hin.
  - by apply elem_of_nil in Hin.
  - apply NoDup_cons in Hnd as [Hk' Hnd].
    apply elem_of_cons in Hin as [[= -> ->]|Hin].
    + by rewrite decide_True.
    + rewrite decide_False; [auto|].
      intros ->. apply Hk'. apply list_elem_of_fmap. by exists (k, v).
Qed.

Lemma mem_true d k : pydict.mem d k = true <-> k ∈ pydict.keys d.
Proof.
  unfold pydict.mem. destruct (pydict.get d k) eqn:Hg.
  - split; [intros _ | done].
    apply get_Some_elem in Hg. apply list_elem_of_fmap. by exists (k, v).
  - apply get_None in Hg. split; [done | intros; contradiction].
Qed.

Lemma elem_of_key_set d k : k ∈ pydict.key_set d <-> k ∈ pydict.keys d.
Proof. unfold pydict.key_set. apply elem_of_list_to_set. Qed.

Lemma keys_set d k v :
  pydict.keys (pydict.set d k v) =
  if pydict.mem d k then pydict.keys d else pydict.keys d ++ [k].
Proof.
  unfold pydict.mem, pydict.keys.
  induction d as [|[k' v'] d IH]; simpl; [done|].
  destruct (decide (k' = k)) as [->|Hne]; simpl; [done|].
  destruct (pydict.get d k); simpl; f_equal; apply IH.
Qed.

Lemma wf_set d k v : pydict.wf d -> pydict.wf (pydict.set d k v).
Proof.
  unfold pydict.wf. intros Hnd. rewrite keys_set.
  destruct (pydict.mem d k) eqn:Hm; [done|].
  apply NoDup_app. split_and!; [done | | apply NoDup_singleton].
  intros x Hx Hx'. apply list_elem_of_singleton in Hx' as ->.
  apply mem_true in Hx. congruence.
Qed.

Lemma wf_fold {A} (f : A -> string) (g : A -> V) (l : list A) d :
  pydict.wf d -> pydict.wf (fold_left (fun d a => pydict.set d (f a) (g a)) l d).
Proof. revert d. induction l; simpl; auto using wf_set. Qed.
End DictFacts.

(** ** The comparison loop *)

Section CompareFacts.
Context `{PyLib}.
Variable now : clock.
Implicit Types (b c : pydict.t FileInfo) (p : string).

Lemma check_baseline_item_acc c acc item :
  check_baseline_item now c acc item = acc ++ check_baseline_item now c [] item.
Proof.
  destruct item as [k v]; simpl.
  destruct (pydict.get c k); [case_decide|]; simpl; by rewrite ?app_nil_r.
Qed.

Lemma check_current_item_acc b acc item :
  check_current_item now b acc item = acc ++ check_current_item now b [] item.
Proof.
  destruct item as [k v]; simpl.
  destruct (pydict.mem b k); simpl; by rewrite ?app_nil_r.
Qed.

Lemma fold_left_acc {A B} (f : list B -> A -> list B) (l : list A) (acc : list B) :
  (forall acc a, f acc a = acc ++ f [] a) ->
  fold_left f l acc = acc ++ flat_map (f []) l.
Proof.
  intros Hf. revert acc. induction l as [|a l IH]; intros acc; simpl.
  - by rewrite app_nil_r.
  - rewrite IH, (Hf acc a). by rewrite <- app_assoc.
Qed.

Lemma detect_changes_eq b c :
  detect_changes now b c =
  flat_map (check_baseline_item now c []) b ++ flat_map (check_current_item now b []) c.
Proof.
  unfold detect_changes.
  rewrite (fold_left_acc _ c); [|apply check_current_item_acc].
  rewrite (fold_left_acc _ b); [|apply check_baseline_item_acc]. done.
Qed.

Lemma filter_all {A} (P : A -> Prop) `{!forall x, Decision (P x)} (l : list A) :
  (forall x, x ∈ l -> P x) -> filter P l = l.
Proof.
  induction l as [|x l IH]; intros HP; [done|].
  rewrite filter_cons_True by (apply HP; left).
  f_equal. apply IH. intros y Hy. apply HP. by right.
Qed.

Lemma filter_none {A} (P : A -> Prop) `{!forall x, Decision (P x)} (l : list A) :
  (forall x, x ∈ l -> ~ P x) -> filter P l = [].
Proof.
  induction l as [|x l IH]; intros HP; [done|].
  rewrite filter_cons_False by (apply HP; left).
  apply IH. intros y Hy. apply HP. by right.
Qed.

(** The records a loop emits for one key are those of the item under that
    key, when every item only emits records of its own key. *)
Lemma records_for_flat_map (f : string * FileInfo -> list ChangeReport) b p :
  pydict.wf b ->
  (forall k v r, r ∈ f (k, v) -> ChangeReport.file_path r = k) ->
  records_for p (flat_map f b) =
  match pydict.get b p with Some v => f (p, v) | None => [] end.
Proof.
  intros Hwf Hf. unfold records_for.
  induction b as [|[k v] b IH]; simpl; [done|].
  apply NoDup_cons in Hwf as [Hk Hwf].
  rewrite filter_app, (IH Hwf).
  destruct (decide (k = p)) as [->|Hne].
  - assert (pydict.get b p = None) as -> by by apply get_None.
    rewrite app_nil_r. apply filter_all. eauto.
  - rewrite filter_none; [done|].
    intros r Hr Hp. apply Hf in Hr. congruence.
Qed.

Lemma baseline_item_path c k v r :
  r ∈ check_baseline_item now c [] (k, v) -> ChangeReport.file_path r = k.
Proof.
  simpl. destruct (pydict.get c k); [case_decide|]; simpl; intros Hr;
    try (by apply list_elem_of_singleton in Hr as ->); by apply elem_of_nil in Hr.
Qed.

Lemma current_item_path b k v r :
  r ∈ check_current_item now b [] (k, v) -> ChangeReport.file_path r = k.
Proof.
  simpl. destruct (pydict.mem b k); simpl; intros Hr;
    try (by apply list_elem_of_singleton in Hr as ->); by apply elem_of_nil in Hr.
Qed.

(** What the comparison emits for one path *)
Lemma records_for_detect b c p :
  pydict.wf b -> pydict.wf c ->
  records_for p (detect_changes now b c) =
  match pydict.get b p, pydict.get c p with
  | Some bf, Some cf =>
      if decide (FileInfo.hash_sha256 bf ≠ FileInfo.hash_sha256 cf)
      then [report_modified now p bf cf] else []
  | Some bf, None => [report_removed now p bf]
  | None, Some cf => [report_added now p cf]
  | None, None => []
  end.
Proof.
  intros Hb Hc. rewrite detect_changes_eq. unfold records_for.
  rewrite filter_app.
  pose proof (records_for_flat_map _ b p Hb (baseline_item_path c)) as Hl.
  pose proof (records_for_flat_map _ c p Hc (current_item_path b)) as Hr.
  unfold records_for in Hl, Hr. rewrite Hl, Hr. clear Hl Hr.
  unfold check_baseline_item, check_current_item, pydict.mem.
  destruct (pydict.get b p) as [bf|], (pydict.get c p) as [cf|]; simpl;
    try case_decide; done.
Qed.

Lemma NoDup_fmap_filter {A B} `{EqDecision B} (f : A -> B) (l : list A) :
  (forall y, (length (filter (fun x => f x = y) l) <= 1)%nat) -> NoDup (f <$> l).
Proof.
  induction l as [|x l IH]; intros Hlen; simpl; [constructor|].
  apply NoDup_cons. split.
  - intros (x' & Heq & Hx')%list_elem_of_fmap.
    specialize (Hlen (f x)). rewrite filter_cons_True in Hlen by done.
    assert (x' ∈ filter (fun x0 => f x0 = f x) l) as Hin
      by by apply list_elem_of_filter.
    destruct (filter (fun x0 => f x0 = f x) l); simpl in *;
      [by apply elem_of_nil in Hin | lia].
  - apply IH. intros y. specialize (Hlen y).
    rewrite filter_cons in Hlen. case_decide; simpl in *; lia.
Qed.

Lemma count_type_app t (l1 l2 : list ChangeReport) :
  count_type t (l1 ++ l2) = (count_type t l1 + count_type t l2)%nat.
Proof. unfold count_type. by rewrite filter_app, length_app. Qed.

Lemma count_baseline_item c k v :
  let l := check_baseline_item now c [] (k, v) in
  (count_type MODIFIED l + count_type REMOVED l
   + (if is_unchanged c (k, v) then 1 else 0))%nat = 1%nat
  /\ count_type ADDED l = 0%nat /\ count_type UNCHANGED l = 0%nat.
Proof.
  unfold is_unchanged, check_baseline_item. simpl.
  destruct (pydict.get c k) as [cf|]; [|done].
  case_decide as Hh.
  - by rewrite bool_decide_eq_false_2.
  - by rewrite bool_decide_eq_true_2.
Qed.

Lemma count_baseline b c :
  let l := flat_map (check_baseline_item now c []) b in
  (count_type MODIFIED l + count_type REMOVED l + unchanged_count b c)%nat = length b
  /\ count_type ADDED l = 0%nat /\ count_type UNCHANGED l = 0%nat.
Proof.
  induction b as [|[k v] b (IH1 & IH2 & IH3)]; [done|].
  cbn [flat_map]. cbv zeta in *.
  destruct (count_baseline_item c k v) as (I1 & I2 & I3). cbv zeta in *.
  rewrite !count_type_app, IH2, IH3, I2, I3. unfold unchanged_count in *.
  rewrite filter_cons. split_and!; [|done|done].
  destruct (decide (is_unchanged c (k, v) = true)) as [Hu|Hu].
  - rewrite Hu in I1. cbn [length]. lia.
  - apply not_true_is_false in Hu. rewrite Hu in I1. cbn [length]. lia.
Qed.

Lemma count_current b c :
  let l := flat_map (check_current_item now b []) c in
  count_type ADDED l = length (filter (fun item => pydict.mem b item.1 = false) c)
  /\ count_type MODIFIED l = 0%nat /\ count_type REMOVED l = 0%nat
  /\ count_type UNCHANGED l = 0%nat.
Proof.
  induction c as [|[k v] c (IH1 & IH2 & IH3 & IH4)]; [done|].
  cbn [flat_map]. cbv zeta in *.
  rewrite !count_type_app, IH1, IH2, IH3, IH4. rewrite filter_cons.
  unfold check_current_item. cbn [fst].
  by destruct (pydict.mem b k).
Qed.

Lemma size_union_keys b c :
  pydict.wf b -> pydict.wf c ->
  size (pydict.key_set b ∪ pydict.key_set c) =
  (length b + length (filter (fun item => pydict.mem b item.1 = false) c))%nat.
Proof.
  intros Hb Hc. induction c as [|[k v] c IH].
  - unfold pydict.key_set at 2. simpl. rewrite (right_id_L ∅ (∪)).
    unfold pydict.key_set. rewrite size_list_to_set by done.
    unfold pydict.keys. rewrite length_fmap. simpl. lia.
  - apply NoDup_cons in Hc as [Hk Hc]. specialize (IH Hc).
    rewrite filter_cons. simpl.
    assert (pydict.key_set ((k, v) :: c) = {[k]} ∪ pydict.key_set c) as -> by done.
    destruct (pydict.mem b k) eqn:Hm.
    + rewrite decide_False by done. rewrite <- IH. f_equal.
      apply mem_true, elem_of_key_set in Hm.
      apply set_eq. intros x. rewrite !elem_of_union, elem_of_singleton.
      split; [intros [?|[->|?]]; tauto | tauto].
    + rewrite decide_True by done. simpl. rewrite Nat.add_succ_r, <- IH.
      assert (k ∉ pydict.key_set b ∪ pydict.key_set c) as Hfresh.
      { rewrite not_elem_of_union, !elem_of_key_set. split; [|done].
        intros Hin%mem_true. congruence. }
      rewrite (assoc_L (∪)), (comm_L (∪) _ {[k]}), <- (assoc_L (∪)).
      rewrite size_union by by apply disjoint_singleton_l.
      by rewrite size_singleton.
Qed.
End CompareFacts.

(** ** Classification of paths *)

Section Classification.
Context `{PyLib}.
Variable now : clock.
Implicit Types (b c : pydict.t FileInfo) (p : string).

Lemma records_for_length b c p :
  pydict.wf b -> pydict.wf c ->
  (length (records_for p (detect_changes now b c)) <= 1)%nat.
Proof.
  intros Hb Hc. rewrite records_for_detect by done.
  destruct (pydict.get b p), (pydict.get c p); try case_decide; simpl; lia.
Qed.

(** C1. Every path of the union of the two key sets falls in exactly one of
    the four classes: a path in both dictionaries yields no record or one
    MODIFIED record, a path of the baseline alone one REMOVED record, a path
    of the current scan alone one ADDED record; every record belongs to a
    path of the union; the numbers of added, modified, removed and unchanged
    paths add up to the size of the union, and no path has two records. *)
Theorem classification_complete_exclusive b c :
  pydict.wf b -> pydict.wf c ->
  let changes := detect_changes now b c in
  (forall p, p ∈ pydict.key_set b ∪ pydict.key_set c ->
     match pydict.get b p, pydict.get c p with
     | Some _, Some _ =>
         records_for p changes = [] \/
         exists r, records_for p changes = [r] /\ ChangeReport.change_type r = MODIFIED
     | Some _, None =>
         exists r, records_for p changes = [r] /\ ChangeReport.change_type r = REMOVED
     | None, Some _ =>
         exists r, records_for p changes = [r] /\ ChangeReport.change_type r = ADDED
     | None, None => False
     end)
  /\ (forall r, r ∈ changes ->
        ChangeReport.file_path r ∈ pydict.key_set b ∪ pydict.key_set c)
  /\ (count_type ADDED changes + count_type MODIFIED changes
      + count_type REMOVED changes + unchanged_count b c)%nat
     = size (pydict.key_set b ∪ pydict.key_set c)
  /\ count_type UNCHANGED changes = 0%nat
  /\ NoDup (ChangeReport.file_path <$> changes).
Proof.
  intros Hb Hc changes. split_and!.
  - intros p Hp. unfold changes. rewrite records_for_detect by done.
    destruct (pydict.get b p) as [bf|] eqn:Hgb, (pydict.get c p) as [cf|] eqn:Hgc.
    + case_decide; [right; eauto | by left].
    + eauto.
    + eauto.
    + apply get_None in Hgb, Hgc.
      rewrite elem_of_union, !elem_of_key_set in Hp. tauto.
  - intros r Hr.
    assert (r ∈ records_for (ChangeReport.file_path r) changes) as Hin
      by by apply list_elem_of_filter.
    unfold changes in Hin. rewrite records_for_detect in Hin by done.
    rewrite elem_of_union, !elem_of_key_set.
    destruct (pydict.get b _) eqn:Hgb, (pydict.get c _) eqn:Hgc.
    + left. eapply mem_true. unfold pydict.mem. by rewrite Hgb.
    + left. eapply mem_true. unfold pydict.mem. by rewrite Hgb.
    + right. eapply mem_true. unfold pydict.mem. by rewrite Hgc.
    + by apply elem_of_nil in Hin.
  - unfold changes. rewrite detect_changes_eq, !count_type_app.
    destruct (count_baseline now b c) as (B1 & B2 & _).
    destruct (count_current now b c) as (C1 & C2 & C3 & _).
    cbv zeta in *. rewrite size_union_keys by done. lia.
  - unfold changes. rewrite detect_changes_eq, count_type_app.
    destruct (count_baseline now b c) as (_ & _ & ->).
    by destruct (count_current now b c) as (_ & _ & _ & ->).
  - apply NoDup_fmap_filter. intros p. by apply records_for_length.
Qed.
End Classification.

Section Decisional.
Context `{PyLib}.
Variable now : clock.
Implicit Types (b c : pydict.t FileInfo) (p : string).

Lemma get_decisional c c' k :
  prod_map id decisional <$> c = prod_map id decisional <$> c' ->
  decisional <$> pydict.get c k = decisional <$> pydict.get c' k.
Proof.
  revert c'. induction c as [|[k1 v1] c IH]; intros [|[k2 v2] c']; simpl; try done.
  intros [= -> Hh Hs Hc]. case_decide; simpl; [|by apply IH].
  unfold decisional. by rewrite Hh, Hs.
Qed.

Lemma baseline_item_decisional c c' k v v' :
  prod_map id decisional <$> c = prod_map id decisional <$> c' ->
  decisional v = decisional v' ->
  check_baseline_item now c [] (k, v) = check_baseline_item now c' [] (k, v').
Proof.
  intros Hc [= Hh Hs]. apply (get_decisional _ _ k) in Hc.
  unfold check_baseline_item, report_modified, report_removed. simpl.
  destruct (pydict.get c k) as [cf|], (pydict.get c' k) as [cf'|];
    simpl in Hc; try done.
  - injection Hc as Hh' Hs'. rewrite Hh, Hh', Hs, Hs'. done.
  - by rewrite Hh.
Qed.

Lemma current_item_decisional b b' k v v' :
  prod_map id decisional <$> b = prod_map id decisional <$> b' ->
  decisional v = decisional v' ->
  check_current_item now b [] (k, v) = check_current_item now b' [] (k, v').
Proof.
  intros Hb [= Hh Hs]. apply (get_decisional _ _ k) in Hb.
  unfold check_current_item, report_added, pydict.mem. simpl.
  destruct (pydict.get b k), (pydict.get b' k); simpl in Hb; try done.
  by rewrite Hh, Hs.
Qed.

Lemma flat_map_decisional (f f' : string * FileInfo -> list ChangeReport) b b' :
  (forall k v v', decisional v = decisional v' -> f (k, v) = f' (k, v')) ->
  prod_map id decisional <$> b = prod_map id decisional <$> b' ->
  flat_map f b = flat_map f' b'.
Proof.
  intros Hf. revert b'.
  induction b as [|[k1 v1] b IH]; intros [|[k2 v2] b']; simpl; try done.
  intros [= -> Hh Hs Hb]. f_equal; [apply Hf; unfold decisional; congruence | by apply IH].
Qed.

(** The comparison reads the path, the SHA-256 digest and the size of a
    record, and nothing else. *)
Lemma detect_changes_decisional b c b' c' :
  prod_map id decisional <$> b = prod_map id decisional <$> b' ->
  prod_map id decisional <$> c = prod_map id decisional <$> c' ->
  detect_changes now b c = detect_changes now b' c'.
Proof.
  intros Hb Hc. rewrite !detect_changes_eq. f_equal.
  - apply flat_map_decisional; [|done]. intros. by apply baseline_item_decisional.
  - apply flat_map_decisional; [|done]. intros. by apply current_item_decisional.
Qed.

(** C2. For a path in both dictionaries a MODIFIED record is emitted exactly
    when the SHA-256 digests differ; the records carry the fields the claim
    lists; and two pairs of dictionaries that agree on paths, SHA-256
    digests and sizes, whatever their SHA-1 and MD5 digests, give the same
    records. *)
Theorem modified_iff_sha256_differs b c :
  pydict.wf b -> pydict.wf c ->
  let changes := detect_changes now b c in
  (forall p bf cf,
      pydict.get b p = Some bf -> pydict.get c p = Some cf ->
      ((exists r, r ∈ changes /\ ChangeReport.file_path r = p
                  /\ ChangeReport.change_type r = MODIFIED)
         <-> FileInfo.hash_sha256 bf ≠ FileInfo.hash_sha256 cf)
      /\ (FileInfo.hash_sha256 bf ≠ FileInfo.hash_sha256 cf ->
          records_for p changes =
          [ChangeReport.mk MODIFIED p
             (Some (FileInfo.hash_sha256 bf)) (Some (FileInfo.hash_sha256 cf))
             (Some (FileInfo.size bf)) (Some (FileInfo.size cf)) (isoformat now)]))
  /\ (forall p bf,
        pydict.get b p = Some bf -> pydict.get c p = None ->
        records_for p changes =
        [ChangeReport.mk REMOVED p (Some (FileInfo.hash_sha256 bf)) None None None
           (isoformat now)])
  /\ (forall p cf,
        pydict.get b p = None -> pydict.get c p = Some cf ->
        records_for p changes =
        [ChangeReport.mk ADDED p None (Some (FileInfo.hash_sha256 cf))
           None (Some (FileInfo.size cf)) (isoformat now)])
  /\ (forall b' c',
        prod_map id decisional <$> b = prod_map id decisional <$> b' ->
        prod_map id decisional <$> c = prod_map id decisional <$> c' ->
        detect_changes now b' c' = changes).
Proof.
  intros Hb Hc changes. split_and!.
  - intros p bf cf Hgb Hgc.
    pose proof (records_for_detect now b c p Hb Hc) as Hrec.
    rewrite Hgb, Hgc in Hrec. fold changes in Hrec. split; [split|].
    + intros (r & Hr & Hp & _).
      assert (r ∈ records_for p changes) as Hin by by apply list_elem_of_filter.
      rewrite Hrec in Hin. case_decide; [done | by apply elem_of_nil in Hin].
    + intros Hne. rewrite decide_True in Hrec by done.
      assert (report_modified now p bf cf ∈ records_for p changes) as Hin
        by (rewrite Hrec; left).
      apply list_elem_of_filter in Hin as [Hp Hin]. exists (report_modified now p bf cf). done.
    + intros Hne. by rewrite decide_True in Hrec.
  - intros p bf Hgb Hgc. unfold changes.
    rewrite records_for_detect by done. by rewrite Hgb, Hgc.
  - intros p cf Hgb Hgc. unfold changes.
    rewrite records_for_detect by done. by rewrite Hgb, Hgc.
  - intros b' c' Hb' Hc'. symmetry. by apply detect_changes_decisional.
Qed.

(** First half of C10: two empty digests compare equal. *)
Lemma empty_digests_unchanged b c p bf cf :
  pydict.wf b -> pydict.wf c ->
  pydict.get b p = Some bf -> pydict.get c p = Some cf ->
  FileInfo.hash_sha256 bf = "" -> FileInfo.hash_sha256 cf = "" ->
  forall r, r ∈ detect_changes now b c -> ChangeReport.file_path r ≠ p.
Proof.
  intros Hb Hc Hgb Hgc Hbf Hcf r Hr Hp.
  assert (r ∈ records_for p (detect_changes now b c)) as Hin
    by by apply list_elem_of_filter.
  rewrite records_for_detect, Hgb, Hgc in Hin by done.
  rewrite decide_False in Hin by congruence. by apply elem_of_nil in Hin.
Qed.
End Decisional.

(** ** Trees and the effect monad *)

Lemma node_ind (P : node -> Prop) :
  (forall st content r, P (File st content r)) ->
  (forall entries, Forall (fun e => P e.2) entries -> P (Dir entries)) ->
  forall n, P n.
Proof.
  intros HF HD. fix IH 1. intros [st content r|entries]; [apply HF|].
  apply HD. induction entries as [|[d sub] entries IHe]; constructor; [apply IH | apply IHe].
Qed.

Lemma wbind_Ok {A B} (m : W A) (k : A -> W B) b evs :
  wbind m k = (Ok b, evs) ->
  exists a l1 l2, m = (Ok a, l1) /\ k a = (Ok b, l2) /\ evs = l1 ++ l2.
Proof.
  unfold wbind. destruct m as [[a|e] l1]; [|done].
  destruct (k a) as [r l2] eqn:Hk. intros [= -> <-]. eauto 6.
Qed.

Lemma wbind_events {A B} (m : W A) (k : A -> W B) ev :
  ev ∈ (wbind m k).2 ->
  ev ∈ m.2 \/ exists a, m.1 = Ok a /\ ev ∈ (k a).2.
Proof.
  unfold wbind. destruct m as [[a|e] l1]; simpl; [|by left].
  destruct (k a) as [r l2] eqn:Hk. simpl. rewrite elem_of_app.
  intros [?|?]; [by left | right]. exists a. by rewrite Hk.
Qed.

Lemma wbind_ext {A B} (m : W A) (k k' : A -> W B) :
  (forall a, k a = k' a) -> wbind m k = wbind m k'.
Proof. intros Hk. unfold wbind. destruct m as [[a|e] l]; [by rewrite Hk | done]. Qed.

Lemma wbind_ext_Ok {A B} (m : W A) (k k' : A -> W B) :
  (forall a, m.1 = Ok a -> k a = k' a) -> wbind m k = wbind m k'.
Proof. intros Hk. unfold wbind. destruct m as [[a|e] l]; [by rewrite Hk | done]. Qed.

Lemma wbind_run {A B} (a : A) l1 (k : A -> W B) :
  wbind (Ok a, l1) k = ((k a).1, l1 ++ (k a).2).
Proof. unfold wbind. by destruct (k a). Qed.

(** ** Hashing *)

Section Hashing.
Context `{PyLib}.

Lemma read_chunks_content fuel r reads rest h1 h2 h3 g1 g2 g3 :
  (length rest < fuel)%nat ->
  read_chunks fuel r reads rest h1 h2 h3 = Ok (g1, g2, g3) ->
  g1 = h1 ++ rest /\ g2 = h2 ++ rest /\ g3 = h3 ++ rest.
Proof.
  revert reads rest h1 h2 h3.
  induction fuel as [|fuel IH]; intros reads rest h1 h2 h3 Hlen; [lia|].
  simpl. destruct (read_fails r reads); [done|].
  case_decide as Hchunk.
  - intros [= <- <- <-].
    assert (rest = []) as ->.
    { destruct rest; [done|]. unfold chunk_size in Hchunk. done. }
    by rewrite !app_nil_r.
  - intros Hrec. apply IH in Hrec.
    + rewrite <- !app_assoc, take_drop in Hrec. done.
    + rewrite length_drop.
      destruct rest; [done|]. unfold chunk_size. simpl in *. lia.
Qed.

Lemma read_chunks_Readable fuel reads rest h1 h2 h3 :
  (length rest < fuel)%nat ->
  read_chunks fuel Readable reads rest h1 h2 h3 = Ok (h1 ++ rest, h2 ++ rest, h3 ++ rest).
Proof.
  revert reads rest h1 h2 h3.
  induction fuel as [|fuel IH]; intros reads rest h1 h2 h3 Hlen; [lia|].
  simpl. case_decide as Hchunk.
  - assert (rest = []) as ->.
    { destruct rest; [done|]. unfold chunk_size in Hchunk. done. }
    by rewrite !app_nil_r.
  - rewrite IH.
    + by rewrite <- !app_assoc, take_drop.
    + rewrite length_drop.
      destruct rest; [done|]. unfold chunk_size. simpl in *. lia.
Qed.

Lemma read_chunks_no_other_exn fuel r reads rest h1 h2 h3 e :
  read_chunks fuel r reads rest h1 h2 h3 = Raise e -> exists msg, e = OSError msg.
Proof.
  revert reads rest h1 h2 h3.
  induction fuel as [|fuel IH]; intros reads rest h1 h2 h3; simpl; [done|].
  destruct (read_fails r reads); [intros [= <-]; eauto|].
  case_decide; [done|]. apply IH.
Qed.

(** The outcome of opening and reading a file: the whole content went
    through the three hash objects, or an OSError was raised. *)
Lemma open_and_hash_cases content r :
  open_and_hash content r = Ok (content, content, content)
  \/ exists msg, open_and_hash content r = Raise (OSError msg).
Proof.
  unfold open_and_hash.
  assert (forall r', read_chunks (S (length content)) r' 0 content [] [] []
                     = Ok (content, content, content)
                   \/ exists msg, read_chunks (S (length content)) r' 0 content [] [] []
                                  = Raise (OSError msg)) as Hread.
  { intros r'. destruct (read_chunks _ r' 0 content [] [] []) as [[[g1 g2] g3]|e] eqn:Hr.
    - apply read_chunks_content in Hr as (-> & -> & ->); [by left | lia].
    - apply read_chunks_no_other_exn in Hr as [msg ->]. eauto. }
  destruct r; eauto.
Qed.

Lemma _calculate_hashes_cases file_path content r :
  (open_and_hash content r = Ok (content, content, content)
   /\ _calculate_hashes file_path content r =
      (Ok (sha256_hexdigest content, sha1_hexdigest content, md5_hexdigest content), []))
  \/ exists msg,
      open_and_hash content r = Raise (OSError msg)
      /\ _calculate_hashes file_path content r =
         (Ok ("", "", ""), [hash_warning file_path msg]).
Proof.
  unfold _calculate_hashes.
  destruct (open_and_hash_cases content r) as [Hok|[msg Hfail]].
  - left. split; [done|]. by rewrite Hok.
  - right. exists msg. split; [done|]. by rewrite Hfail.
Qed.
End Hashing.

(** ** Exclusion *)

Section Exclusion.
Context `{PyLib}.
Implicit Types (self : GuardianScanner).

Lemma match__cases p pattern :
  (valid_pattern pattern /\ exists b, pathlib.match_ p pattern = Ok b)
  \/ (~ valid_pattern pattern
      /\ pathlib.match_ p pattern = Raise (ValueError "empty pattern")).
Proof.
  unfold valid_pattern, pathlib.match_.
  destruct (pathlib.parse_parts pattern) as [root pat_parts].
  destruct (pathlib.parse_parts p) as [path_root parts]. simpl.
  destruct (decide (pat_parts = [])) as [->|Hne]; [right; split; [tauto|done]|].
  left. split; [done|]. repeat case_decide; eauto.
Qed.

Lemma match_patterns_Raise p patterns e :
  match_patterns p patterns = Raise e ->
  e = ValueError "empty pattern" /\ Exists (fun pat => ~ valid_pattern pat) patterns.
Proof.
  induction patterns as [|pattern patterns IH]; simpl; [done|].
  destruct (match__cases p pattern) as [[Hv [b ->]]|[Hv ->]]; simpl.
  - destruct (b || _); [done|]. intros [-> ?]%IH. split; [done | by right].
  - intros [= <-]. split; [done | by left].
Qed.

Lemma match_patterns_valid p patterns :
  Forall valid_pattern patterns -> exists b, match_patterns p patterns = Ok b.
Proof.
  induction 1 as [|pattern patterns Hv _ IH]; simpl; [eauto|].
  destruct (match__cases p pattern) as [[_ [b ->]]|[? _]]; [|done]. simpl.
  destruct (b || _); eauto.
Qed.

Lemma _should_exclude_Raise self p e :
  _should_exclude self p = Raise e ->
  e = ValueError "empty pattern"
  /\ Exists (fun pat => ~ valid_pattern pat) (GuardianScanner.exclude_patterns self).
Proof.
  unfold _should_exclude.
  destruct (match_patterns p _) as [[|]|e'] eqn:Hm; simpl; try done.
  intros [= <-]. by apply match_patterns_Raise in Hm.
Qed.

Lemma _should_exclude_valid self p :
  Forall valid_pattern (GuardianScanner.exclude_patterns self) ->
  exists b, _should_exclude self p = Ok b.
Proof.
  intros Hv. unfold _should_exclude.
  destruct (match_patterns_valid p _ Hv) as [[|] ->]; simpl; eauto.
Qed.
End Exclusion.

(** ** The loop body and the walk *)

Section ScanFacts.
Context `{PyLib}.
Variable self : GuardianScanner.

Lemma scan_file_eq top filename st content r :
  scan_file self top filename st content r =
  let file_path := posixpath.join top filename in
  match _should_exclude self file_path with
  | Raise e => (Raise e, [])
  | Ok true => (Ok tt, [])
  | Ok false =>
      match st with
      | inl msg =>
          (Ok tt, [Log WARNING ("Could not process file " +:+ file_path +:+ ": " +:+ msg)])
      | inr stat_info =>
          if GuardianScanner.max_file_size self <? st_size stat_info then
            (Ok tt, [Log WARNING ("Skipping large file: " +:+ file_path +:+ " ("
                                  +:+ pretty (st_size stat_info) +:+ " bytes)")])
          else
            (Ok tt, (_calculate_hashes file_path content r).2
                    ++ [Append (file_record file_path stat_info content r)])
      end
  end.
Proof.
  unfold scan_file. cbv zeta.
  destruct (_should_exclude self _) as [[|]|e]; try done.
  destruct st as [msg|stat_info]; [done|]. simpl.
  destruct (_ <? _); [done|].
  unfold file_record, digests_of.
  destruct (_calculate_hashes_cases (posixpath.join top filename) content r)
    as [[Ho ->]|[msg [Ho ->]]]; by rewrite Ho.
Qed.

Lemma walk_Dir top entries :
  walk self top (Dir entries) =
  (do dirs <- filter_dirs self top entries;
   run scan_files self top entries;
   descend self top dirs entries).
Proof.
  cbn [walk]. apply wbind_ext. intros dirs. apply wbind_ext. intros _.
  induction entries as [|[d sub] entries IH]; [done|].
  cbn [descend]. destruct (is_dir sub && _); [|done].
  apply wbind_ext. intros _. apply IH.
Qed.

Lemma filter_dirs_no_events top es : (filter_dirs self top es).2 = [].
Proof.
  induction es as [|[d [st content r|sub]] es IH]; simpl; try done.
  destruct (_should_exclude self _) as [b|e]; simpl; [|done].
  destruct (filter_dirs self top es) as [[dirs|e] l]; simpl in *; by subst.
Qed.

Lemma filter_dirs_Ok top es dirs l :
  filter_dirs self top es = (Ok dirs, l) ->
  forall d, d ∈ dirs <->
            exists sub, (d, sub) ∈ es /\ is_dir sub = true
                        /\ _should_exclude self (posixpath.join top d) = Ok false.
Proof.
  revert dirs l.
  induction es as [|[d' [st content r|sub']] es IH]; simpl; intros dirs l.
  - intros [= <- <-] d. split; [by intros ?%elem_of_nil|].
    intros (sub & Hin & _). by apply elem_of_nil in Hin.
  - intros Hf d. rewrite (IH _ _ Hf). split; intros (sub & Hin & Hd & Hx).
    + exists sub. split_and!; [by right | done | done].
    + apply elem_of_cons in Hin as [[= -> ->]|Hin]; [done|]. eauto.
  - destruct (_should_exclude self (posixpath.join top d')) as [b|e] eqn:Hx;
      simpl; [|done].
    destruct (filter_dirs self top es) as [[dirs'|e] l'] eqn:Hf; simpl; [|done].
    intros [= <- <-] d. specialize (IH _ _ eq_refl d).
    assert (d ∈ (if b then dirs' else d' :: dirs') <->
            (d = d' /\ b = false) \/ d ∈ dirs') as ->.
    { destruct b; [|rewrite elem_of_cons]; intuition congruence. }
    rewrite IH. split.
    + intros [[-> ->]|(sub & Hin & Hd & Hx')].
      * exists (Dir sub'). split_and!; [left | done | done].
      * exists sub. split_and!; [by right | done | done].
    + intros (sub & Hin & Hd & Hx').
      apply elem_of_cons in Hin as [[= -> ->]|Hin].
      * left. split; [done|]. congruence.
      * right. eauto.
Qed.

Lemma filter_dirs_Raise top es e l :
  filter_dirs self top es = (Raise e, l) ->
  e = ValueError "empty pattern"
  /\ Exists (fun pat => ~ valid_pattern pat) (GuardianScanner.exclude_patterns self).
Proof.
  revert l. induction es as [|[d' [st content r|sub']] es IH]; simpl; intros l; try done.
  - apply IH.
  - destruct (_should_exclude self _) as [b|e'] eqn:Hx; simpl.
    + destruct (filter_dirs self top es) as [[dirs'|e'] l'] eqn:Hf; simpl; [done|].
      intros [= <- <-]. by eapply IH.
    + intros [= <- <-]. by apply _should_exclude_Raise in Hx.
Qed.
End ScanFacts.

Section WalkFacts.
Context `{PyLib}.
Variable self : GuardianScanner.

Lemma scan_files_events top es ev :
  ev ∈ (scan_files self top es).2 ->
  exists name st content rd,
    (name, File st content rd) ∈ es /\ ev ∈ (scan_file self top name st content rd).2.
Proof.
  induction es as [|[name [st content rd|sub]] es IH]; cbn [scan_files].
  - by intros ?%elem_of_nil.
  - intros [Hev|(_ & _ & Hev)]%wbind_events.
    + exists name, st, content, rd. split; [left | done].
    + destruct (IH Hev) as (name' & st' & content' & rd' & Hin & Hev').
      exists name', st', content', rd'. split; [by right | done].
  - intros Hev. destruct (IH Hev) as (name' & st' & content' & rd' & Hin & Hev').
    exists name', st', content', rd'. split; [by right | done].
Qed.

Lemma descend_events top dirs es ev :
  ev ∈ (descend self top dirs es).2 ->
  exists d sub,
    (d, sub) ∈ es /\ is_dir sub = true /\ d ∈ dirs
    /\ ev ∈ (walk self (posixpath.join top d) sub).2.
Proof.
  induction es as [|[d sub] es IH]; cbn [descend].
  - by intros ?%elem_of_nil.
  - destruct (is_dir sub && bool_decide (d ∈ dirs)) eqn:Hgo.
    + apply andb_true_iff in Hgo as [Hd Hin%bool_decide_eq_true].
      intros [Hev|(_ & _ & Hev)]%wbind_events.
      * exists d, sub. split_and!; [left | done | done | done].
      * destruct (IH Hev) as (d' & sub' & Hin' & ?). exists d', sub'.
        split; [by right | done].
    + intros Hev. destruct (IH Hev) as (d' & sub' & Hin' & ?). exists d', sub'.
      split; [by right | done].
Qed.

Lemma walk_Dir_events top entries ev :
  ev ∈ (walk self top (Dir entries)).2 ->
  (exists name st content rd,
      (name, File st content rd) ∈ entries
      /\ ev ∈ (scan_file self top name st content rd).2)
  \/ (exists d sub,
        (d, sub) ∈ entries
        /\ _should_exclude self (posixpath.join top d) = Ok false
        /\ ev ∈ (walk self (posixpath.join top d) sub).2).
Proof.
  rewrite walk_Dir. intros [Hev|(dirs & Hdirs & Hev)]%wbind_events.
  { rewrite filter_dirs_no_events in Hev. by apply elem_of_nil in Hev. }
  apply wbind_events in Hev as [Hev|(_ & _ & Hev)].
  - left. by apply scan_files_events.
  - right. apply descend_events in Hev as (d & sub & Hin & Hd & Hkeep & Hev).
    exists d, sub. split_and!; [done| |done].
    destruct (filter_dirs self top entries) as [r l] eqn:Hf. simpl in Hdirs. subst r.
    by apply (filter_dirs_Ok _ _ _ _ _ Hf) in Hkeep as (_ & _ & _ & ?).
Qed.

(** What one turn of the loop over the files can emit *)
Lemma scan_file_events top name st content rd ev :
  ev ∈ (scan_file self top name st content rd).2 ->
  (exists msg, ev = Log WARNING msg)
  \/ exists stat_info,
      st = inr stat_info
      /\ _should_exclude self (posixpath.join top name) = Ok false
      /\ st_size stat_info <= GuardianScanner.max_file_size self
      /\ ev = Append (file_record (posixpath.join top name) stat_info content rd).
Proof.
  rewrite scan_file_eq. cbv zeta.
  destruct (_should_exclude self _) as [[|]|e] eqn:Hx; simpl;
    try by intros ?%elem_of_nil.
  destruct st as [msg|stat_info].
  { intros ->%list_elem_of_singleton. eauto. }
  destruct (_ <? _) eqn:Hsz.
  { intros ->%list_elem_of_singleton. eauto. }
  apply Z.ltb_ge in Hsz. simpl. rewrite elem_of_app, list_elem_of_singleton.
  intros [Hev| ->].
  - left.
    destruct (_calculate_hashes_cases (posixpath.join top name) content rd)
      as [[_ Hc]|[msg [_ Hc]]]; rewrite Hc in Hev; simpl in Hev.
    + by apply elem_of_nil in Hev.
    + apply list_elem_of_singleton in Hev as ->. unfold hash_warning. eauto.
  - right. exists stat_info. done.
Qed.

(** Every record comes from a file of a directory the walk lists. *)
Lemma walk_append top n fi :
  Append fi ∈ (walk self top n).2 ->
  exists r es, walked self top n r es /\ from_file self fi r es.
Proof.
  revert top. induction n as [st content rd|entries IH] using node_ind; intros top.
  { simpl. by intros ?%elem_of_nil. }
  intros [(name & st & content & rd & Hin & Hev)|(d & sub & Hin & Hx & Hev)]%walk_Dir_events.
  - apply scan_file_events in Hev as [[msg [=]]|(stat_info & -> & Hx & Hsz & [= ->])].
    exists top, entries. split; [constructor|].
    exists name, stat_info, content, rd. done.
  - rewrite Forall_forall in IH. apply (IH _ Hin) in Hev as (r & es & Hw & Hf).
    exists r, es. split; [|done]. by eapply walked_below.
Qed.

(** The walk logs warnings only. *)
Lemma walk_log top n lv msg :
  Log lv msg ∈ (walk self top n).2 -> lv = WARNING.
Proof.
  revert top. induction n as [st content rd|entries IH] using node_ind; intros top.
  { simpl. by intros ?%elem_of_nil. }
  intros [(name & st & content & rd & Hin & Hev)|(d & sub & Hin & Hx & Hev)]%walk_Dir_events.
  - by apply scan_file_events in Hev as [[msg' [= -> _]]|(? & _ & _ & _ & [=])].
  - rewrite Forall_forall in IH. by apply (IH _ Hin) in Hev.
Qed.
End WalkFacts.

Section WalkResults.
Context `{PyLib}.
Variable self : GuardianScanner.

Lemma scan_file_result top name st content rd :
  (scan_file self top name st content rd).1 = Ok tt
  \/ exists e, (scan_file self top name st content rd).1 = Raise e /\ bad_pattern_exn self e.
Proof.
  rewrite scan_file_eq. cbv zeta.
  destruct (_should_exclude self _) as [[|]|e] eqn:Hx; simpl.
  - by left.
  - left. destruct st; [done|]. by destruct (_ <? _).
  - right. exists e. split; [done|]. by apply _should_exclude_Raise in Hx.
Qed.

Lemma wbind_Raise {A B} (m : W A) (k : A -> W B) e :
  (wbind m k).1 = Raise e ->
  m.1 = Raise e \/ exists a, m.1 = Ok a /\ (k a).1 = Raise e.
Proof.
  unfold wbind. destruct m as [[a|e'] l]; simpl. 2:{ intros [= ->]. by left. }
  destruct (k a) as [r l'] eqn:Hk. simpl. intros ->. right. exists a. by rewrite Hk.
Qed.

Lemma scan_files_Raise top es e :
  (scan_files self top es).1 = Raise e -> bad_pattern_exn self e.
Proof.
  induction es as [|[name [st content rd|sub]] es IH]; cbn [scan_files]; try done.
  intros [He|(_ & _ & He)]%wbind_Raise; [|by apply IH].
  destruct (scan_file_result top name st content rd) as [Hok|(e' & Hr & Hbad)];
    congruence.
Qed.

Lemma walk_Raise top n e :
  (walk self top n).1 = Raise e -> bad_pattern_exn self e.
Proof.
  revert top. induction n as [st content rd|entries IH] using node_ind; intros top.
  { done. }
  rewrite walk_Dir. intros [He|(dirs & _ & He)]%wbind_Raise.
  { destruct (filter_dirs self top entries) as [r l] eqn:Hf. simpl in He. subst r.
    by apply filter_dirs_Raise in Hf. }
  apply wbind_Raise in He as [He|(_ & _ & He)]; [by apply scan_files_Raise in He|].
  clear -IH He. induction entries as [|[d sub] entries IHe]; cbn [descend] in He; [done|].
  apply Forall_cons in IH as [IHsub IH].
  destruct (is_dir sub && _); [|by apply IHe].
  apply wbind_Raise in He as [He|(_ & _ & He)]; [by apply IHsub in He | by apply IHe].
Qed.

(** With patterns that [Path.match] accepts the walk raises nothing. *)
Lemma walk_valid top n :
  Forall valid_pattern (GuardianScanner.exclude_patterns self) ->
  (walk self top n).1 = Ok tt.
Proof.
  intros Hv. destruct (walk self top n).1 as [[]|e] eqn:Hw; [done|].
  apply walk_Raise in Hw as [_ Hbad].
  apply Exists_exists in Hbad as (pat & Hin & Hbad).
  rewrite Forall_forall in Hv. by apply Hv in Hin.
Qed.

Lemma wbind_Ok_fst {A B} (m : W A) (k : A -> W B) b :
  (wbind m k).1 = Ok b ->
  exists a, m.1 = Ok a /\ (k a).1 = Ok b
            /\ (wbind m k).2 = m.2 ++ (k a).2.
Proof.
  unfold wbind. destruct m as [[a|e'] l]; simpl; [|done].
  destruct (k a) as [r l'] eqn:Hk. simpl. intros ->. exists a. by rewrite Hk.
Qed.

Lemma scan_files_Ok top es name st content rd ev :
  (scan_files self top es).1 = Ok tt ->
  (name, File st content rd) ∈ es ->
  ev ∈ (scan_file self top name st content rd).2 ->
  ev ∈ (scan_files self top es).2.
Proof.
  induction es as [|[name' [st' content' rd'|sub]] es IH]; cbn [scan_files].
  - by intros _ ?%elem_of_nil.
  - intros ([] & H1 & H2 & ->)%wbind_Ok_fst Hin Hev. rewrite elem_of_app.
    apply elem_of_cons in Hin as [[= ? ? ? ?]|Hin]; [subst; by left | right; auto].
  - intros Hok Hin Hev. apply elem_of_cons in Hin as [[=]|Hin]. auto.
Qed.

Lemma descend_Ok top dirs es d sub :
  (descend self top dirs es).1 = Ok tt ->
  (d, sub) ∈ es -> is_dir sub = true -> d ∈ dirs ->
  (walk self (posixpath.join top d) sub).1 = Ok tt
  /\ forall ev, ev ∈ (walk self (posixpath.join top d) sub).2 ->
                ev ∈ (descend self top dirs es).2.
Proof.
  intros Hok Hin Hd Hkeep.
  induction es as [|[d' sub'] es IH]; cbn [descend] in *.
  { by apply elem_of_nil in Hin. }
  destruct (is_dir sub' && bool_decide (d' ∈ dirs)) eqn:Hgo.
  - apply wbind_Ok_fst in Hok as ([] & H1 & H2 & ->).
    apply elem_of_cons in Hin as [[= -> ->]|Hin].
    + split; [done|]. intros ev Hev. apply elem_of_app. by left.
    + destruct (IH H2 Hin) as [? Hsub]. split; [done|].
      intros ev Hev. apply elem_of_app. right. auto.
  - apply elem_of_cons in Hin as [[= -> ->]|Hin]; [|auto].
    rewrite Hd, bool_decide_eq_true_2 in Hgo by done. done.
Qed.

(** A walk that returns has recorded every file within the limit of every
    directory it lists. *)
Lemma walk_complete top n r es fi :
  (walk self top n).1 = Ok tt ->
  walked self top n r es -> from_file self fi r es ->
  Append fi ∈ (walk self top n).2.
Proof.
  intros Hok Hw Hfi. induction Hw as [top es|top es d sub r es' Hin Hx Hw IH].
  - rewrite walk_Dir in *.
    apply wbind_Ok_fst in Hok as (dirs & _ & Hok & ->).
    apply wbind_Ok_fst in Hok as ([] & Hfiles & _ & ->).
    rewrite !elem_of_app. right. left.
    destruct Hfi as (name & stat_info & content & rd & Hin & Hx & Hsz & ->).
    eapply scan_files_Ok; [done | done |].
    rewrite scan_file_eq. cbv zeta. rewrite Hx.
    apply Z.ltb_ge in Hsz. rewrite Hsz. apply elem_of_app. right. left.
  - rewrite walk_Dir in *.
    apply wbind_Ok_fst in Hok as (dirs & Hdirs & Hok & ->).
    apply wbind_Ok_fst in Hok as ([] & _ & Hdesc & ->).
    rewrite !elem_of_app. right. right.
    assert (is_dir sub = true) as Hd by by inversion Hw.
    assert (d ∈ dirs) as Hkeep.
    { destruct (filter_dirs self top es) as [res l] eqn:Hf. simpl in Hdirs. subst res.
      apply (filter_dirs_Ok _ _ _ _ _ Hf). eauto. }
    destruct (descend_Ok _ _ _ _ _ Hdesc Hin Hd Hkeep) as [Hsub Hincl]. auto.
Qed.
End WalkResults.

Section Pruning.
Context `{PyLib}.
Variable self : GuardianScanner.

Lemma prune_Dir top entries :
  prune self top (Dir entries) = Dir (prune_entries self top entries).
Proof.
  cbn [prune]. f_equal.
  induction entries as [|[d sub] entries IH]; [done|].
  cbn [prune_entries]. by rewrite IH.
Qed.

Lemma prune_entry_is_dir top d sub :
  is_dir (match sub with
          | File _ _ _ => sub
          | Dir _ =>
              match _should_exclude self (posixpath.join top d) with
              | Ok false => prune self (posixpath.join top d) sub
              | _ => Dir []
              end
          end) = is_dir sub.
Proof.
  destruct sub as [|es]; [done|].
  by destruct (_should_exclude self _) as [[|]|].
Qed.

Lemma filter_dirs_prune top es :
  filter_dirs self top (prune_entries self top es) = filter_dirs self top es.
Proof.
  induction es as [|[d [st content rd|sub]] es IH]; cbn [prune_entries filter_dirs].
  - done.
  - done.
  - pose proof (prune_entry_is_dir top d (Dir sub)) as Hd.
    destruct (match _should_exclude self (posixpath.join top d) with
              | Ok false => _ | _ => _ end) as [|sub']; [done|].
    by rewrite IH.
Qed.

Lemma scan_files_prune top es :
  scan_files self top (prune_entries self top es) = scan_files self top es.
Proof.
  induction es as [|[d [st content rd|sub]] es IH]; cbn [prune_entries scan_files].
  - done.
  - by rewrite IH.
  - pose proof (prune_entry_is_dir top d (Dir sub)) as Hd.
    destruct (match _should_exclude self (posixpath.join top d) with
              | Ok false => _ | _ => _ end) as [|sub']; [done|].
    done.
Qed.

Lemma descend_prune top dirs es :
  (forall d, d ∈ dirs -> _should_exclude self (posixpath.join top d) = Ok false) ->
  Forall (fun e => forall top, walk self top (prune self top e.2) = walk self top e.2) es ->
  descend self top dirs (prune_entries self top es) = descend self top dirs es.
Proof.
  intros Hdirs. induction 1 as [|[d sub] es Hsub _ IH]; [done|].
  cbn [prune_entries descend]. rewrite prune_entry_is_dir, IH.
  destruct (is_dir sub && bool_decide (d ∈ dirs)) eqn:Hgo; [|done].
  apply andb_true_iff in Hgo as [Hd Hin%bool_decide_eq_true].
  destruct sub as [|es']; [done|]. rewrite (Hdirs _ Hin).
  specialize (Hsub (posixpath.join top d)). cbn [snd] in Hsub. by rewrite Hsub.
Qed.

(** The walk does not depend on what lies below an excluded directory. *)
Lemma walk_prune top n : walk self top (prune self top n) = walk self top n.
Proof.
  revert top. induction n as [st content rd|entries IH] using node_ind; intros top.
  { done. }
  rewrite prune_Dir, !walk_Dir, filter_dirs_prune.
  apply wbind_ext_Ok. intros dirs Hdirs. rewrite scan_files_prune.
  apply wbind_ext. intros _. apply descend_prune; [|done].
  intros d Hd.
  destruct (filter_dirs self top entries) as [r l] eqn:Hf. simpl in Hdirs. subst r.
  by apply (filter_dirs_Ok _ _ _ _ _ Hf) in Hd as (_ & _ & _ & ?).
Qed.
End Pruning.

(** ** [scan_directory] *)

Section ScanDirectoryFacts.
Context `{PyLib}.
Variable self : GuardianScanner.

Lemma walk_at_Raise fs d e : (walk_at self fs d).1 = Raise e -> bad_pattern_exn self e.
Proof. unfold walk_at. destruct (lookup fs d); [apply walk_Raise | done]. Qed.

Lemma logged_app l1 l2 : logged (l1 ++ l2) = logged l1 ++ logged l2.
Proof. unfold logged. apply omap_app. Qed.

Lemma appended_app l1 l2 : appended (l1 ++ l2) = appended l1 ++ appended l2.
Proof. unfold appended. apply omap_app. Qed.

Lemma elem_of_appended evs fi : fi ∈ appended evs <-> Append fi ∈ evs.
Proof.
  unfold appended. rewrite list_elem_of_omap. split.
  - intros ([|f] & Hin & Heq); simplify_eq. done.
  - intros Hin. by exists (Append fi).
Qed.

Lemma elem_of_logged evs lv msg : (lv, msg) ∈ logged evs <-> Log lv msg ∈ evs.
Proof.
  unfold logged. rewrite list_elem_of_omap. split.
  - intros ([|f] & Hin & Heq); simplify_eq. done.
  - intros Hin. by exists (Log lv msg).
Qed.

(** [scan_directory] in terms of the walk: the handler of the outer [try]
    never runs, since no OSError leaves the loop. *)
Lemma scan_directory_eq fs directory :
  scan_directory self fs directory =
  let d := posixpath.abspath (cwd fs) directory in
  if os_path_exists fs d then
    let w := walk_at self fs d in
    match w.1 with
    | Ok _ => (Ok (appended w.2),
               scanning_msg d :: logged w.2 ++ [scanned_msg (appended w.2)])
    | Raise e => (Raise e, scanning_msg d :: logged w.2)
    end
  else (Ok [], [missing_msg d]).
Proof.
  unfold scan_directory. cbv zeta.
  destruct (os_path_exists fs _); [|done]. cbn [negb].
  fold (walk_at self fs (posixpath.abspath (cwd fs) directory)).
  pose proof (walk_at_Raise fs (posixpath.abspath (cwd fs) directory)) as Hr.
  destruct (walk_at self fs _) as [[[]|e] evs]; simpl in *.
  - done.
  - destruct (Hr e eq_refl) as [-> _]. done.
Qed.
End ScanDirectoryFacts.

(** ** The scan: what is in the result *)

Section ScanResults.
Context `{PyLib}.
Variable self : GuardianScanner.

Lemma scan_result_provenance fs directory files log fi :
  scan_directory self fs directory = (Ok files, log) ->
  fi ∈ files ->
  let top := posixpath.abspath (cwd fs) directory in
  exists n r es,
    lookup fs top = Some n /\ walked self top n r es /\ from_file self fi r es.
Proof.
  rewrite scan_directory_eq. cbv zeta.
  destruct (os_path_exists fs _); [|by intros [= <- _] ?%elem_of_nil].
  destruct (walk_at self fs _).1 eqn:Hw; [|done].
  intros [= <- _] Hfi%elem_of_appended. unfold walk_at in *.
  destruct (lookup fs _) as [n|]; [|by apply elem_of_nil in Hfi].
  apply walk_append in Hfi as (r & es & ? & ?). by exists n, r, es.
Qed.

Lemma file_record_path p stat_info content rd :
  FileInfo.path (file_record p stat_info content rd) = p.
Proof. unfold file_record. by destruct (digests_of content rd) as [[? ?] ?]. Qed.

Lemma file_record_size p stat_info content rd :
  FileInfo.size (file_record p stat_info content rd) = st_size stat_info.
Proof. unfold file_record. by destruct (digests_of content rd) as [[? ?] ?]. Qed.

Lemma file_record_digests p stat_info content rd :
  let fi := file_record p stat_info content rd in
  (FileInfo.hash_sha256 fi, FileInfo.hash_sha1 fi, FileInfo.hash_md5 fi)
  = digests_of content rd.
Proof. unfold file_record. by destruct (digests_of content rd) as [[? ?] ?]. Qed.

(** A directory the walk lists is the start or passes the filter. *)
Lemma walked_passes top n r es :
  walked self top n r es -> r = top \/ _should_exclude self r = Ok false.
Proof.
  induction 1 as [|top es d sub r es' Hin Hx Hw [->|IH]]; [by left | |]; by right.
Qed.

(** The start of a walk that lists anything is a directory. *)
Lemma walked_start_is_dir top n r es : walked self top n r es -> is_dir n = true.
Proof. by destruct 1. Qed.

(** C5, as amended.  In the result of a scan no file is excluded; every file
    of the result lies in a directory that the walk reached from the start
    through directories [_should_exclude] lets pass, so that this directory
    is the start or is itself not excluded (the start is never tested); and
    the scan of a tree equals the scan of the tree with everything below its
    excluded directories removed. *)
Theorem excluded_never_scanned fs directory files log :
  scan_directory self fs directory = (Ok files, log) ->
  let top := posixpath.abspath (cwd fs) directory in
  (forall fi, fi ∈ files -> _should_exclude self (FileInfo.path fi) = Ok false)
  /\ (forall fi, fi ∈ files ->
        exists n r es filename st content rd,
          lookup fs top = Some n /\ walked self top n r es
          /\ (r = top \/ _should_exclude self r = Ok false)
          /\ (filename, File st content rd) ∈ es
          /\ FileInfo.path fi = posixpath.join r filename)
  /\ (forall fs' n n',
        cwd fs' = cwd fs ->
        os_path_exists fs' top = os_path_exists fs top ->
        lookup fs top = Some n -> lookup fs' top = Some n' ->
        prune self top n' = prune self top n ->
        scan_directory self fs' directory = (Ok files, log)).
Proof.
  intros Hscan top. split_and!.
  - intros fi Hfi.
    destruct (scan_result_provenance _ _ _ _ _ Hscan Hfi)
      as (n & r & es & _ & _ & name & st & content & rd & _ & Hx & _ & ->).
    by rewrite file_record_path.
  - intros fi Hfi.
    destruct (scan_result_provenance _ _ _ _ _ Hscan Hfi)
      as (n & r & es & Hl & Hw & name & st & content & rd & Hin & _ & _ & ->).
    exists n, r, es, name, (inr st), content, rd.
    rewrite file_record_path. split_and!; [done | done | | done | done].
    by eapply walked_passes.
  - intros fs' n n' Hcwd Hex Hn Hn' Hprune.
    rewrite <- Hscan, !scan_directory_eq. cbv zeta. rewrite Hcwd. fold top.
    rewrite Hex. unfold walk_at. rewrite Hn, Hn'.
    by rewrite <- (walk_prune self top n), <- (walk_prune self top n'), Hprune.
Qed.

(** C6.  A file of a listed directory that is not excluded and whose
    [os.stat] works is in the result when its size is at most
    [max_file_size]; no record of the result is larger than
    [max_file_size]; and the turn of the loop for a larger file appends
    nothing and logs one warning. *)
Theorem size_gate fs directory files log :
  scan_directory self fs directory = (Ok files, log) ->
  let top := posixpath.abspath (cwd fs) directory in
  (forall n r es filename stat_info content rd,
      lookup fs top = Some n -> walked self top n r es ->
      (filename, File (inr stat_info) content rd) ∈ es ->
      _should_exclude self (posixpath.join r filename) = Ok false ->
      st_size stat_info <= GuardianScanner.max_file_size self ->
      exists fi, fi ∈ files
                 /\ FileInfo.path fi = posixpath.join r filename
                 /\ FileInfo.size fi = st_size stat_info)
  /\ (forall fi, fi ∈ files -> FileInfo.size fi <= GuardianScanner.max_file_size self)
  /\ (forall r filename stat_info content rd,
        _should_exclude self (posixpath.join r filename) = Ok false ->
        GuardianScanner.max_file_size self < st_size stat_info ->
        scan_file self r filename (inr stat_info) content rd =
        (Ok tt, [Log WARNING ("Skipping large file: " +:+ posixpath.join r filename
                              +:+ " (" +:+ pretty (st_size stat_info) +:+ " bytes)")])).
Proof.
  intros Hscan top. split_and!.
  - intros n r es name stat_info content rd Hn Hw Hin Hx Hsz.
    assert (os_path_exists fs top = true) as Hex.
    { unfold os_path_exists. rewrite Hn.
      apply walked_start_is_dir in Hw. by destruct n. }
    exists (file_record (posixpath.join r name) stat_info content rd).
    rewrite file_record_path, file_record_size. split; [|done].
    rewrite scan_directory_eq in Hscan. cbv zeta in Hscan. fold top in Hscan.
    rewrite Hex in Hscan. unfold walk_at in Hscan. rewrite Hn in Hscan.
    destruct (walk self top n).1 as [[]|] eqn:Hok; [|done].
    injection Hscan as <- _. apply elem_of_appended.
    eapply walk_complete; [done | done |].
    exists name, stat_info, content, rd. done.
  - intros fi Hfi.
    destruct (scan_result_provenance _ _ _ _ _ Hscan Hfi)
      as (n & r & es & _ & _ & name & st & content & rd & _ & _ & Hsz & ->).
    by rewrite file_record_size.
  - intros r name stat_info content rd Hx Hsz.
    rewrite scan_file_eq. cbv zeta. rewrite Hx.
    apply Z.ltb_lt in Hsz. by rewrite Hsz.
Qed.

Lemma digests_of_cases content rd :
  (open_and_hash content rd = Ok (content, content, content)
   /\ digests_of content rd =
      (sha256_hexdigest content, sha1_hexdigest content, md5_hexdigest content))
  \/ (exists msg, open_and_hash content rd = Raise (OSError msg))
     /\ digests_of content rd = ("", "", "").
Proof.
  unfold digests_of.
  destruct (open_and_hash_cases content rd) as [Ho|[msg Ho]]; rewrite Ho; eauto.
Qed.

(** C3.  [_calculate_hashes] returns, without raising, the three digests of
    the content when the file can be opened and read, and three empty
    strings with a warning when [open] or a [read] raises OSError; the turn
    of the loop for such a file ends normally, with a warning and a record
    of three empty digests appended, so that the loop goes on to the next
    file; every record of a scan has three digests of one content or three
    empty strings; and a scan that returns holds the record, with three
    empty digests, of every file that could not be hashed. *)
Theorem hashes_all_or_none :
  (forall file_path content rd,
      (open_and_hash content rd = Ok (content, content, content)
       /\ _calculate_hashes file_path content rd =
          (Ok (sha256_hexdigest content, sha1_hexdigest content, md5_hexdigest content),
           []))
      \/ exists msg,
          open_and_hash content rd = Raise (OSError msg)
          /\ _calculate_hashes file_path content rd =
             (Ok ("", "", ""), [hash_warning file_path msg]))
  /\ (forall content, open_and_hash content Readable = Ok (content, content, content))
  /\ (forall content msg, open_and_hash content (OpenError msg) = Raise (OSError msg))
  /\ (forall content msg, open_and_hash content (ReadError 0 msg) = Raise (OSError msg))
  /\ (forall r filename stat_info content rd msg,
        _should_exclude self (posixpath.join r filename) = Ok false ->
        st_size stat_info <= GuardianScanner.max_file_size self ->
        open_and_hash content rd = Raise (OSError msg) ->
        scan_file self r filename (inr stat_info) content rd =
        (Ok tt, [hash_warning (posixpath.join r filename) msg;
                 Append (FileInfo.mk (posixpath.join r filename) (st_size stat_info)
                           (st_mtime stat_info) "" "" ""
                           (last3 (oct (st_mode stat_info)))
                           (Some (st_ino stat_info)))]))
  /\ (forall fs directory files log fi,
        scan_directory self fs directory = (Ok files, log) -> fi ∈ files ->
        (FileInfo.hash_sha256 fi = "" /\ FileInfo.hash_sha1 fi = ""
         /\ FileInfo.hash_md5 fi = "")
        \/ exists content,
            FileInfo.hash_sha256 fi = sha256_hexdigest content
            /\ FileInfo.hash_sha1 fi = sha1_hexdigest content
            /\ FileInfo.hash_md5 fi = md5_hexdigest content)
  /\ (forall fs directory files log n r es filename stat_info content rd msg,
        scan_directory self fs directory = (Ok files, log) ->
        lookup fs (posixpath.abspath (cwd fs) directory) = Some n ->
        walked self (posixpath.abspath (cwd fs) directory) n r es ->
        (filename, File (inr stat_info) content rd) ∈ es ->
        _should_exclude self (posixpath.join r filename) = Ok false ->
        st_size stat_info <= GuardianScanner.max_file_size self ->
        open_and_hash content rd = Raise (OSError msg) ->
        FileInfo.mk (posixpath.join r filename) (st_size stat_info)
          (st_mtime stat_info) "" "" "" (last3 (oct (st_mode stat_info)))
          (Some (st_ino stat_info)) ∈ files).
Proof.
  split_and!.
  - apply _calculate_hashes_cases.
  - intros content. unfold open_and_hash. apply read_chunks_Readable. lia.
  - done.
  - done.
  - intros r name stat_info content rd msg Hx Hsz Ho.
    rewrite scan_file_eq. cbv zeta. rewrite Hx.
    apply Z.ltb_ge in Hsz. rewrite Hsz.
    destruct (_calculate_hashes_cases (posixpath.join r name) content rd)
      as [[Ho' _]|(msg' & Ho' & ->)]; [congruence|].
    assert (msg' = msg) as -> by congruence.
    unfold file_record, digests_of. by rewrite Ho.
  - intros fs directory files log fi Hscan Hfi.
    destruct (scan_result_provenance _ _ _ _ _ Hscan Hfi)
      as (n & r & es & _ & _ & name & st & content & rd & _ & _ & _ & ->).
    pose proof (file_record_digests (posixpath.join r name) st content rd) as Hd.
    cbv zeta in Hd.
    destruct (digests_of_cases content rd) as [[_ He]|[_ He]];
      rewrite He in Hd; injection Hd as -> -> ->; eauto.
  - intros fs directory files log n r es name stat_info content rd msg
      Hscan Hn Hw Hin Hx Hsz Ho.
    assert (os_path_exists fs (posixpath.abspath (cwd fs) directory) = true) as Hex.
    { unfold os_path_exists. rewrite Hn.
      apply walked_start_is_dir in Hw. by destruct n. }
    rewrite scan_directory_eq in Hscan. cbv zeta in Hscan.
    rewrite Hex in Hscan. unfold walk_at in Hscan. rewrite Hn in Hscan.
    destruct (walk self _ n).1 as [[]|] eqn:Hok; [|done].
    injection Hscan as <- _. apply elem_of_appended.
    replace (FileInfo.mk (posixpath.join r name) (st_size stat_info)
               (st_mtime stat_info) "" "" "" (last3 (oct (st_mode stat_info)))
               (Some (st_ino stat_info)))
      with (file_record (posixpath.join r name) stat_info content rd)
      by (unfold file_record, digests_of; by rewrite Ho).
    eapply walk_complete; [done | done |].
    exists name, stat_info, content, rd. done.
Qed.
End ScanResults.

(** ** The store *)

Section StoreFacts.
Import GuardianDatabase.

Lemma db_wf_init : db_wf init_database.
Proof. split; constructor. Qed.

Lemma insert_files_eq now id (files : list FileInfo) db :
  fold_left (fun self file_info =>
               mk (baselines self) (baselines_seq self)
                  (GuardianDatabase.files self ++ [insert_file now id file_info])
                  (change_history self)) files db
  = mk (baselines db) (baselines_seq db)
       (GuardianDatabase.files db ++ (insert_file now id <$> files))
       (change_history db).
Proof.
  revert db. induction files as [|f files IH]; intros db; simpl.
  - rewrite app_nil_r. by destruct db.
  - rewrite IH. simpl. by rewrite <- app_assoc.
Qed.

Lemma create_baseline_eq db now name path (files : list FileInfo) :
  create_baseline db now name path files =
  (baselines_seq db + 1,
   mk (baselines db ++
         [Baselines.mk (baselines_seq db + 1) name (CURRENT_TIMESTAMP now) path
            (Z.of_nat (length files)) (foldr Z.add 0 (FileInfo.size <$> files))])
      (baselines_seq db + 1)
      (GuardianDatabase.files db ++ (insert_file now (baselines_seq db + 1) <$> files))
      (change_history db)).
Proof. unfold create_baseline. by rewrite insert_files_eq. Qed.

Lemma create_baseline_wf db now name path files :
  db_wf db -> db_wf (create_baseline db now name path files).2.
Proof.
  intros [Hb Hf]. rewrite create_baseline_eq. split; simpl.
  - apply Forall_app. split.
    + eapply Forall_impl; [done|]. simpl. intros; lia.
    + repeat constructor. simpl. lia.
  - apply Forall_app. split.
    + eapply Forall_impl; [done|]. simpl. intros; lia.
    + apply Forall_fmap, Forall_true. simpl. intros; lia.
Qed.

Lemma record_changes_eq db now id (changes : list ChangeReport) :
  record_changes db now id changes =
  mk (baselines db) (baselines_seq db) (files db)
     (change_history db ++ (insert_change now id <$> changes)).
Proof.
  unfold record_changes. revert db.
  induction changes as [|c changes IH]; intros db; simpl.
  - rewrite app_nil_r. by destruct db.
  - rewrite IH. simpl. by rewrite <- app_assoc.
Qed.

Lemma file_info_of_insert now id f : file_info_of_row (insert_file now id f) = f.
Proof. by destruct f. Qed.

(** Reading back the files of a baseline that was just written *)
Lemma get_baseline_files_created db now name path files :
  db_wf db ->
  let '(id, db') := create_baseline db now name path files in
  get_baseline_files db' id = dict_of_files files.
Proof.
  intros [_ Hf]. rewrite create_baseline_eq. unfold get_baseline_files. simpl.
  rewrite filter_app.
  rewrite (filter_none _ (GuardianDatabase.files db)).
  2:{ intros row Hin. rewrite Forall_forall in Hf. apply Hf in Hin. lia. }
  rewrite (filter_all _ (_ <$> files)).
  2:{ intros row (f & -> & _)%list_elem_of_fmap. done. }
  simpl. unfold dict_of_files. generalize (@nil (string * FileInfo)).
  induction files as [|f files IH]; intros d; simpl; [done|].
  rewrite IH. by destruct f.
Qed.

Lemma order_head_newest (x : Baselines.row) (l : list Baselines.row) :
  Forall (fun y => Baselines.created_at y < Baselines.created_at x) l ->
  exists rest, foldr insert_desc [x] l = x :: rest.
Proof.
  induction 1 as [|y l Hy _ [rest IH]]; simpl; [by exists []|].
  rewrite IH. simpl. apply Z.ltb_lt in Hy. rewrite Hy. eauto.
Qed.

(** A baseline stamped later than every earlier one of its path is the
    latest. *)
Lemma latest_after_create db now name path files :
  Forall (fun row => Baselines.path row = path ->
                     Baselines.created_at row < CURRENT_TIMESTAMP now)
         (baselines db) ->
  let '(id, db') := create_baseline db now name path files in
  get_latest_baseline db' path = Some id.
Proof.
  intros Hold. rewrite create_baseline_eq. unfold get_latest_baseline. simpl.
  rewrite filter_app, filter_cons_True, filter_nil by done.
  unfold order_by_created_at_desc. rewrite foldr_app. simpl.
  edestruct order_head_newest as [rest ->]; [|done].
  apply Forall_forall. intros row [Hp Hin]%list_elem_of_filter. simpl.
  rewrite Forall_forall in Hold. by apply Hold.
Qed.

Lemma insert_desc_elem x y l : y ∈ insert_desc x l <-> y = x \/ y ∈ l.
Proof.
  induction l as [|z l IH]; simpl;
    [rewrite list_elem_of_singleton, elem_of_nil; tauto|].
  destruct (_ <? _); rewrite !elem_of_cons; [rewrite IH|]; tauto.
Qed.

Lemma order_by_elem y l : y ∈ order_by_created_at_desc l <-> y ∈ l.
Proof.
  unfold order_by_created_at_desc.
  induction l as [|x l IH]; simpl; [done|].
  by rewrite insert_desc_elem, IH, elem_of_cons.
Qed.

(** [get_latest_baseline] finds a baseline exactly when the path has one. *)
Lemma get_latest_baseline_None db path :
  get_latest_baseline db path = None <->
  forall row, row ∈ baselines db -> Baselines.path row ≠ path.
Proof.
  unfold get_latest_baseline.
  destruct (order_by_created_at_desc _) as [|row rest] eqn:Ho; split; try done.
  - intros _ row Hin Hp.
    assert (row ∈ order_by_created_at_desc
              (filter (fun row => Baselines.path row = path) (baselines db))) as Hr
      by by apply order_by_elem, list_elem_of_filter.
    rewrite Ho in Hr. by apply elem_of_nil in Hr.
  - intros Hno. exfalso.
    assert (row ∈ order_by_created_at_desc
              (filter (fun row => Baselines.path row = path) (baselines db))) as Hr
      by (rewrite Ho; left).
    apply order_by_elem, list_elem_of_filter in Hr as [Hp Hin]. by eapply Hno.
Qed.
End StoreFacts.

(** ** [create_baseline] and [check_integrity] *)

Section GuardianFacts.
Context `{PyLib}.
Implicit Types (self : Guardian) (db : GuardianDatabase).

Lemma flat_map_nil {A B} (f : A -> list B) (l : list A) :
  (forall x, x ∈ l -> f x = []) -> flat_map f l = [].
Proof.
  induction l as [|x l IH]; intros Hf; simpl; [done|].
  rewrite (Hf x) by left. apply IH. intros y Hy. apply Hf. by right.
Qed.

(** A dictionary compared with itself shows no change. *)
Lemma detect_changes_same now (d : pydict.t FileInfo) :
  pydict.wf d -> detect_changes now d d = [].
Proof.
  intros Hwf. rewrite detect_changes_eq.
  rewrite !flat_map_nil; [done| |].
  - intros [k v] Hin. unfold check_current_item, pydict.mem.
    by rewrite (get_elem d k v Hwf Hin).
  - intros [k v] Hin. unfold check_baseline_item.
    rewrite (get_elem d k v Hwf Hin). by rewrite decide_False by auto.
Qed.

Lemma wf_dict_of_files files : pydict.wf (dict_of_files files).
Proof. apply wf_fold. constructor. Qed.

Lemma wf_get_baseline_files db id :
  pydict.wf (GuardianDatabase.get_baseline_files db id).
Proof.
  unfold GuardianDatabase.get_baseline_files.
  apply (wf_fold Files.file_path GuardianDatabase.file_info_of_row). constructor.
Qed.

(** [db_wf] holds of every store the program reaches: the new store has it,
    and both operations keep it. *)
Lemma create_baseline_keeps_wf self fs now db path name :
  db_wf db -> db_wf (create_baseline self fs now db path name).1.2.
Proof.
  intros Hwf. unfold create_baseline.
  destruct (scan_directory (Guardian.scanner self) fs path) as [[files|e] slog]; [|done].
  destruct (decide (files = [])); [done|].
  pose proof (create_baseline_wf db now
                (default ("baseline_" +:+ strftime_Ymd_HMS now) name) path files Hwf).
  by destruct (GuardianDatabase.create_baseline db now _ path files).
Qed.

Lemma check_integrity_keeps_wf self fs now db path :
  db_wf db -> db_wf (check_integrity self fs now db path).1.2.
Proof.
  intros Hwf. unfold check_integrity.
  destruct (GuardianDatabase.get_latest_baseline db path) as [id|]; [|done].
  destruct (scan_directory (Guardian.scanner self) fs path) as [[files|e] slog]; [|done].
  simpl. case_decide; [done|]. by rewrite record_changes_eq.
Qed.

(** C9, as amended.  When [create_baseline] returned a baseline id, that id
    is the one [get_latest_baseline] gives for the path, and the scan of
    the path returns at the time of the check what it returned when the
    baseline was made, the check returns no change and leaves the store as
    it is.  The file system at the time of the check is a state of its
    own, [fs']: what [create_baseline] wrote in between (the store file)
    may have changed it, and only the scan of the path has to agree. *)
Theorem check_after_create_is_empty self fs fs' now now' db path name id db1 log1 :
  db_wf db ->
  create_baseline self fs now db path name = (Ok (Some id), db1, log1) ->
  GuardianDatabase.get_latest_baseline db1 path = Some id ->
  (scan_directory (Guardian.scanner self) fs' path).1
  = (scan_directory (Guardian.scanner self) fs path).1 ->
  exists log2, check_integrity self fs' now' db1 path = (Ok [], db1, log2).
Proof.
  intros Hwf Hcreate Hlatest Hsame. unfold create_baseline in Hcreate.
  unfold check_integrity. rewrite Hlatest.
  destruct (scan_directory (Guardian.scanner self) fs path) as [[files|e] slog];
    [|done].
  destruct (scan_directory (Guardian.scanner self) fs' path) as [r' slog'].
  simpl in Hsame. subst r'.
  destruct (decide (files = [])); [done|].
  pose proof (get_baseline_files_created db now
                (default ("baseline_" +:+ strftime_Ymd_HMS now) name) path files Hwf)
    as Hfiles.
  destruct (GuardianDatabase.create_baseline db now _ path files) as [id' db'].
  injection Hcreate as -> -> _. rewrite Hfiles.
  fold (dict_of_files files).
  rewrite detect_changes_same by apply wf_dict_of_files.
  rewrite decide_True by done. eauto.
Qed.

(** C10.  A path whose SHA-256 digest is the empty string in the baseline
    and in the current scan gets no record, in the comparison loop and in
    [check_integrity]; and a check that finds no change returns the store
    it was given. *)
Theorem empty_digests_and_no_write :
  (forall now (b c : pydict.t FileInfo) p bf cf,
      pydict.wf b -> pydict.wf c ->
      pydict.get b p = Some bf -> pydict.get c p = Some cf ->
      FileInfo.hash_sha256 bf = "" -> FileInfo.hash_sha256 cf = "" ->
      forall r, r ∈ detect_changes now b c -> ChangeReport.file_path r ≠ p)
  /\ (forall self fs now db path id files slog changes db' log p bf cf,
        GuardianDatabase.get_latest_baseline db path = Some id ->
        scan_directory (Guardian.scanner self) fs path = (Ok files, slog) ->
        pydict.get (GuardianDatabase.get_baseline_files db id) p = Some bf ->
        pydict.get (dict_of_files files) p = Some cf ->
        FileInfo.hash_sha256 bf = "" -> FileInfo.hash_sha256 cf = "" ->
        check_integrity self fs now db path = (Ok changes, db', log) ->
        forall r, r ∈ changes -> ChangeReport.file_path r ≠ p)
  /\ (forall self fs now db path db' log,
        check_integrity self fs now db path = (Ok [], db', log) -> db' = db).
Proof.
  split_and!.
  - intros now b c p bf cf Hb Hc Hgb Hgc Hbf Hcf.
    by apply (empty_digests_unchanged now b c p bf cf).
  - intros self fs now db path id files slog changes db' log p bf cf
      Hl Hs Hb Hc Hbf Hcf Hcheck r Hr.
    unfold check_integrity in Hcheck. rewrite Hl, Hs in Hcheck.
    injection Hcheck as <- _ _. revert r Hr.
    eapply empty_digests_unchanged; eauto using wf_get_baseline_files, wf_dict_of_files.
  - intros self fs now db path db' log. unfold check_integrity.
    destruct (GuardianDatabase.get_latest_baseline db path) as [id|];
      [|by intros [= <- _]].
    destruct (scan_directory _ fs path) as [[files|e] slog]; [|done].
    intros [= Hch <- _]. by rewrite Hch, decide_True.
Qed.

(** C8.  A scan of a path that does not exist returns, without raising,
    the empty list, the value it also returns for any directory in which it
    finds no file: nothing in the returned value tells the two apart, and
    neither does the [None] that [create_baseline] returns, with the store
    left alone, in both cases.  The missing path shows only in the log, as
    one ERROR record, "Directory does not exist"; a scan of a path that
    exists logs no ERROR record at all. *)
Theorem missing_root_returns_empty self fs now db path name :
  let top := posixpath.abspath (cwd fs) path in
  let scanned := scan_directory (Guardian.scanner self) fs path in
  (os_path_exists fs top = false ->
     scanned.1 = Ok []
     /\ scanned.2 = [(ERROR, "Directory does not exist: " +:+ top)]
     /\ (create_baseline self fs now db path name).1 = (Ok None, db)
     /\ forall fs' path',
          (scan_directory (Guardian.scanner self) fs' path').1 = Ok [] ->
          (scan_directory (Guardian.scanner self) fs' path').1 = scanned.1
          /\ (create_baseline self fs' now db path' name).1
             = (create_baseline self fs now db path name).1)
  /\ (os_path_exists fs top = true ->
      forall lv msg, (lv, msg) ∈ scanned.2 -> lv ≠ ERROR)
  /\ (scanned.1 = Ok [] ->
      (create_baseline self fs now db path name).1 = (Ok None, db)).
Proof.
  intros top scanned.
  assert (forall fs' path',
        (scan_directory (Guardian.scanner self) fs' path').1 = Ok [] ->
        (create_baseline self fs' now db path' name).1 = (Ok None, db)) as Hnone.
  { intros fs' path' Hs. unfold create_baseline.
    destruct (scan_directory (Guardian.scanner self) fs' path') as [r log].
    simpl in Hs. subst r. by rewrite decide_True. }
  split_and!.
  - intros Hex.
    assert (scanned = (Ok [], [(ERROR, "Directory does not exist: " +:+ top)])) as Hs.
    { unfold scanned. rewrite scan_directory_eq. cbv zeta. fold top. by rewrite Hex. }
    rewrite Hs. cbn [fst snd]. split_and!; try done.
    + apply Hnone. fold scanned. by rewrite Hs.
    + intros fs' path' Hs'. split; [done|].
      rewrite (Hnone fs' path' Hs'). symmetry. apply Hnone. fold scanned. by rewrite Hs.
  - intros Hex lv msg. unfold scanned.
    rewrite scan_directory_eq. cbv zeta. fold top. rewrite Hex.
    assert (forall lv msg, (lv, msg) ∈ logged (walk_at (Guardian.scanner self) fs top).2
                           -> lv ≠ ERROR) as Hwalk.
    { intros lv' msg' Hin%elem_of_logged. unfold walk_at in Hin.
      destruct (lookup fs top); [|by apply elem_of_nil in Hin].
      by apply walk_log in Hin as ->. }
    destruct (walk_at _ fs top).1; simpl.
    + rewrite elem_of_cons, elem_of_app, list_elem_of_singleton.
      intros [[= -> _]|[Hin|[= -> _]]]; [done| |done]. by eapply Hwalk.
    + rewrite elem_of_cons. intros [[= -> _]|Hin]; [done|]. by eapply Hwalk.
  - apply Hnone.
Qed.
End GuardianFacts.

(** ** [_parse_size] *)

Lemma float_of_str_cases s :
  (exists f, pynum.float_of_str s = Ok f)
  \/ exists msg, pynum.float_of_str s = Raise (ValueError msg).
Proof.
  unfold pynum.float_of_str. destruct (pynum.take_sign _) as [neg body].
  repeat case_decide; eauto. destruct (pynum.floatnumber body); eauto.
Qed.

(** [_parse_size] returns a number or raises OverflowError; the ValueErrors
    are all caught. *)
Lemma _parse_size_cases size_str :
  (exists n, _parse_size size_str = Ok n)
  \/ _parse_size size_str = Raise (OverflowError "cannot convert float infinity to integer").
Proof.
  unfold _parse_size. destruct (find _ multipliers) as [[suffix multiplier]|].
  - destruct (float_of_str_cases (str.drop_last (String.length suffix)
                                    (str.strip (str.upper size_str))))
      as [[f ->]|[msg ->]]; simpl; [|eauto].
    destruct (pynum.fmul f _) as [m e|neg|]; simpl; eauto.
  - unfold pynum.int_of_str. destruct (pynum.take_sign _) as [neg body].
    cbv zeta. destruct (pynum.digitpart _); simpl; eauto.
    destruct (_ <? _); simpl; eauto. case_decide; simpl; eauto.
Qed.
(** ** The theorems at concrete inputs *)

Section Witnesses.
Import Examples.

Local Ltac by_computation := vm_compute; reflexivity.
Local Ltac nodup_by_computation := apply (bool_decide_unpack _); vm_compute; exact I.

Lemma classification_witness :
  pydict.wf baseline_dict /\ pydict.wf current_dict
  /\ (count_type ADDED (detect_changes (H:=Demo.lib) 0%Z baseline_dict current_dict)
      + count_type MODIFIED (detect_changes (H:=Demo.lib) 0%Z baseline_dict current_dict)
      + count_type REMOVED (detect_changes (H:=Demo.lib) 0%Z baseline_dict current_dict)
      + unchanged_count baseline_dict current_dict)%nat
     = size (pydict.key_set baseline_dict ∪ pydict.key_set current_dict)
  /\ NoDup (ChangeReport.file_path
              <$> detect_changes (H:=Demo.lib) 0%Z baseline_dict current_dict).
Proof.
  assert (pydict.wf baseline_dict) as Hb by nodup_by_computation.
  assert (pydict.wf current_dict) as Hc by nodup_by_computation.
  pose proof (@classification_complete_exclusive Demo.lib 0 _ _ Hb Hc) as Hthm.
  cbv zeta in Hthm. destruct Hthm as (_ & _ & Hcount & _ & Hnodup).
  exact (conj Hb (conj Hc (conj Hcount Hnodup))).
Defined.

Lemma modified_witness :
  pydict.wf baseline_dict /\ pydict.wf current_dict
  /\ records_for "/d/a.txt" (detect_changes (H:=Demo.lib) 0%Z baseline_dict current_dict)
     = [ChangeReport.mk MODIFIED "/d/a.txt" (Some "aa") (Some "a2") (Some 5) (Some 11)
          (isoformat (PyLib:=Demo.lib) 0)]
  /\ detect_changes (H:=Demo.lib) 0%Z baseline_dict current_dict'
     = detect_changes (H:=Demo.lib) 0%Z baseline_dict current_dict.
Proof.
  assert (pydict.wf baseline_dict) as Hb by nodup_by_computation.
  assert (pydict.wf current_dict) as Hc by nodup_by_computation.
  pose proof (@modified_iff_sha256_differs Demo.lib 0 _ _ Hb Hc) as Hthm.
  cbv zeta in Hthm. destruct Hthm as (Hmod & _ & _ & Hdec).
  split; [exact Hb|]. split; [exact Hc|]. split.
  - refine (proj2 (Hmod "/d/a.txt" (info "/d/a.txt" "aa" 5) (info "/d/a.txt" "a2" 11)
                     eq_refl eq_refl) _).
    vm_compute. discriminate.
  - apply Hdec; reflexivity.
Defined.

(** C5, the claim as stated fails: the start directory [/data/cache]
    satisfies [_should_exclude], the walk goes into it all the same, and the
    file below it is in the result. *)
Lemma excluded_start_is_scanned :
  _should_exclude (H:=Demo.lib) (Guardian.scanner small) "/data/cache" = Ok true
  /\ scan_directory (H:=Demo.lib) (Guardian.scanner small) fs_cache "/data/cache"
     = (Ok [FileInfo.mk "/data/cache/a.txt" 1 (Finite 0 0) "a1x120" "b1x120" "c1x120"
              "644" (Some 7)],
        [(INFO, "Scanning directory: /data/cache"); (INFO, "Scanned 1 files")]).
Proof. split; by_computation. Qed.

Lemma excluded_never_scanned_witness :
  scan_directory (H:=Demo.lib) (Guardian.scanner small) fs_gate "/data"
  = (Ok gate_files, gate_log)
  /\ (forall fi, fi ∈ gate_files ->
        _should_exclude (H:=Demo.lib) (Guardian.scanner small) (FileInfo.path fi)
        = Ok false)
  /\ scan_directory (H:=Demo.lib) (Guardian.scanner small) fs_gate' "/data"
     = (Ok gate_files, gate_log).
Proof.
  assert (scan_directory (H:=Demo.lib) (Guardian.scanner small) fs_gate "/data"
          = (Ok gate_files, gate_log)) as Hscan by by_computation.
  pose proof (@excluded_never_scanned Demo.lib (Guardian.scanner small) fs_gate "/data"
                gate_files gate_log Hscan) as Hthm.
  destruct Hthm as (Hfiles & _ & Hprune).
  split; [exact Hscan|]. split; [exact Hfiles|].
  apply (Hprune fs_gate' gate_dir gate_dir'); by_computation.
Defined.

Lemma size_gate_witness :
  scan_directory (H:=Demo.lib) (Guardian.scanner small) fs_gate "/data"
  = (Ok gate_files, gate_log)
  /\ (exists fi, fi ∈ gate_files /\ FileInfo.path fi = "/data/five"
                 /\ FileInfo.size fi = 5)
  /\ (forall fi, fi ∈ gate_files -> FileInfo.size fi <= 5)
  /\ scan_file (H:=Demo.lib) (Guardian.scanner small) "/data" "six"
       (inr (Demo.regular 6)) (Demo.bytes "hello!") Readable
     = (Ok tt, [Log WARNING "Skipping large file: /data/six (6 bytes)"]).
Proof.
  assert (scan_directory (H:=Demo.lib) (Guardian.scanner small) fs_gate "/data"
          = (Ok gate_files, gate_log)) as Hscan by by_computation.
  pose proof (@size_gate Demo.lib (Guardian.scanner small) fs_gate "/data"
                gate_files gate_log Hscan) as Hthm.
  destruct Hthm as (Hin & Hmax & Hskip).
  split; [exact Hscan|]. split; [|split; [exact Hmax|]].
  - refine (Hin gate_dir "/data" _ "five" (Demo.regular 5) (Demo.bytes "hello") Readable
              _ (walked_here _ _ _) _ _ _).
    + by_computation.
    + left.
    + by_computation.
    + vm_compute. discriminate.
  - apply (Hskip "/data" "six" (Demo.regular 6)); [by_computation|].
    vm_compute. reflexivity.
Defined.

Lemma hashes_all_or_none_witness :
  scan_file (H:=Demo.lib) (Guardian.scanner small) "/data" "locked"
    (inr (Demo.regular 3)) (Demo.bytes "abc") (OpenError "Permission denied")
  = (Ok tt, [hash_warning "/data/locked" "Permission denied";
             Append (FileInfo.mk "/data/locked" 3 (Finite 0 0) "" "" "" "644"
                       (Some 7))])
  /\ FileInfo.mk "/data/locked" 3 (Finite 0 0) "" "" "" "644" (Some 7) ∈ gate_files.
Proof.
  destruct (@hashes_all_or_none Demo.lib (Guardian.scanner small))
    as (_ & _ & _ & _ & Hfile & _ & Hkept).
  split.
  - apply (Hfile "/data" "locked" (Demo.regular 3)).
    + by_computation.
    + vm_compute. discriminate.
    + reflexivity.
  - refine (Hkept fs_gate "/data" gate_files gate_log gate_dir "/data" _ "locked"
              (Demo.regular 3) (Demo.bytes "abc") (OpenError "Permission denied")
              "Permission denied" _ _ (walked_here _ _ _) _ _ _ _).
    + by_computation.
    + by_computation.
    + right. right. left.
    + by_computation.
    + vm_compute. discriminate.
    + reflexivity.
Defined.

(** C8: the scan of a directory without files and the scan of a path that
    does not exist return the same value, and so does [create_baseline]. *)
Lemma missing_root_like_empty_directory :
  os_path_exists fs_empty (posixpath.abspath (cwd fs_empty) "/srv/app") = true
  /\ os_path_exists fs_empty (posixpath.abspath (cwd fs_empty) "/srv/nope") = false
  /\ (scan_directory (H:=Demo.lib) (Guardian.scanner guardian) fs_empty "/srv/app").1
     = Ok []
  /\ (scan_directory (H:=Demo.lib) (Guardian.scanner guardian) fs_empty "/srv/nope").1
     = Ok []
  /\ (create_baseline (H:=Demo.lib) guardian fs_empty 1700000000200000
        GuardianDatabase.init_database "/srv/app" None).1
     = (Ok None, GuardianDatabase.init_database)
  /\ (create_baseline (H:=Demo.lib) guardian fs_empty 1700000000200000
        GuardianDatabase.init_database "/srv/nope" None).1
     = (Ok None, GuardianDatabase.init_database).
Proof. split_and!; by_computation. Qed.

Lemma missing_root_witness :
  os_path_exists fs_full (posixpath.abspath (cwd fs_full) "nope") = false
  /\ (scan_directory (H:=Demo.lib) (Guardian.scanner guardian) fs_full "nope").1
     = Ok []
  /\ (scan_directory (H:=Demo.lib) (Guardian.scanner guardian) fs_full "nope").2
     = [(ERROR, "Directory does not exist: /srv/nope")]
  /\ (create_baseline (H:=Demo.lib) guardian fs_full 1700000000200000
        GuardianDatabase.init_database "nope" None).1
     = (Ok None, GuardianDatabase.init_database).
Proof.
  assert (os_path_exists fs_full (posixpath.abspath (cwd fs_full) "nope") = false)
    as Hex by by_computation.
  destruct (proj1 (@missing_root_returns_empty Demo.lib guardian fs_full
                     1700000000200000 GuardianDatabase.init_database "nope" None) Hex)
    as (Hv & Hl & Hc & _).
  exact (conj Hex (conj Hv (conj Hl Hc))).
Defined.

(** C9, the claim as stated fails: with an earlier baseline of [/srv/app] in
    the store and the directory now empty, [create_baseline] returns [None]
    and writes nothing, and the check made right after it, on the same
    state, reports the file of the earlier baseline as removed. *)
Lemma check_after_create_not_empty :
  (create_baseline (H:=Demo.lib) guardian fs_empty 1700000050000000 db_old
     "/srv/app" None).1 = (Ok None, db_old)
  /\ (check_integrity (H:=Demo.lib) guardian fs_empty 1700000050000000 db_old
        "/srv/app").1.1
     = Ok [ChangeReport.mk REMOVED "/srv/app/a.txt" (Some "a5x532") None None None
             "1700000050000000"].
Proof. split; by_computation. Qed.

Lemma check_after_create_witness :
  db_wf GuardianDatabase.init_database
  /\ (create_baseline (H:=Demo.lib) guardian fs_full 1700000000200000
        GuardianDatabase.init_database "/srv/app" (Some "first")).1
     = (Ok (Some 1), db_old)
  /\ GuardianDatabase.get_latest_baseline db_old "/srv/app" = Some 1
  /\ (scan_directory (H:=Demo.lib) (Guardian.scanner guardian) fs_stored "/srv/app").1
     = (scan_directory (H:=Demo.lib) (Guardian.scanner guardian) fs_full "/srv/app").1
  /\ exists log2,
      check_integrity (H:=Demo.lib) guardian fs_stored 1700000050000000 db_old
        "/srv/app"
      = (Ok [], db_old, log2).
Proof.
  split; [exact db_wf_init|]. split; [by_computation|]. split; [by_computation|].
  split; [by_computation|].
  eapply (@check_after_create_is_empty Demo.lib guardian fs_full fs_stored
            1700000000200000 1700000050000000 GuardianDatabase.init_database
            "/srv/app" (Some "first") 1 db_old).
  - exact db_wf_init.
  - by_computation.
  - by_computation.
  - by_computation.
Defined.

Lemma empty_digests_witness :
  pydict.wf baseline_dict /\ pydict.wf current_dict
  /\ forall r, r ∈ detect_changes (H:=Demo.lib) 0%Z baseline_dict current_dict ->
               ChangeReport.file_path r ≠ "/d/u.bin".
Proof.
  assert (pydict.wf baseline_dict) as Hb by nodup_by_computation.
  assert (pydict.wf current_dict) as Hc by nodup_by_computation.
  split; [exact Hb|]. split; [exact Hc|].
  exact (proj1 (@empty_digests_and_no_write Demo.lib) 0 baseline_dict current_dict
           "/d/u.bin" _ _ Hb Hc eq_refl eq_refl eq_refl eq_refl).
Defined.

(** C4: two baselines of one path written in the same second.  The later one
    has id 2; [get_latest_baseline] returns 1, the earlier one, and the check
    made right after the second baseline compares against the first. *)
Theorem latest_baseline_same_second :
  let '(r1, db1, _) :=
    create_baseline (H:=Demo.lib) guardian fs_full 1700000000200000
      GuardianDatabase.init_database "/srv/app" (Some "first") in
  let '(r2, db2, _) :=
    create_baseline (H:=Demo.lib) guardian fs_changed 1700000000900000
      db1 "/srv/app" (Some "second") in
  r1 = Ok (Some 1) /\ r2 = Ok (Some 2)
  /\ GuardianDatabase.get_latest_baseline db2 "/srv/app" = Some 1
  /\ (check_integrity (H:=Demo.lib) guardian fs_changed 1700000000950000 db2
        "/srv/app").1.1
     = Ok [ChangeReport.mk MODIFIED "/srv/app/a.txt" (Some "a5x532") (Some "a11x1100")
             (Some 5) (Some 11) "1700000000950000"].
Proof. vm_compute. repeat split. Qed.

(** C7: a size that [float] reads as infinite.  [int] raises OverflowError,
    which [_parse_size] does not catch, and building the scanner fails. *)
Theorem parse_size_overflow :
  _parse_size "infB" = Raise (OverflowError "cannot convert float infinity to integer")
  /\ _parse_size "1e999MB"
     = Raise (OverflowError "cannot convert float infinity to integer")
  /\ GuardianScanner_init (GuardianConfig.mk "*.tmp" "infB" "/proc")
     = Raise (OverflowError "cannot convert float infinity to integer").
Proof. split_and!; by_computation. Qed.

(** The sizes of the unit test, and some malformed ones *)
Example parse_size_examples :
  _parse_size "1024B" = Ok 1024 /\ _parse_size "1KB" = Ok 1024
  /\ _parse_size "1MB" = Ok (1024 * 1024) /\ _parse_size "1GB" = Ok (1024 * 1024 * 1024)
  /\ _parse_size "100MB" = Ok 104857600 /\ _parse_size "4096" = Ok 4096
  /\ _parse_size "1.5kb" = Ok 1536
  /\ _parse_size "ten" = Ok 104857600 /\ _parse_size "12XB" = Ok 104857600
  /\ _parse_size "" = Ok 104857600 /\ _parse_size "nanB" = Ok 104857600.
Proof. split_and!; by_computation. Qed.
End Witnesses.
(** * Further properties of the comparison loop *)

Section CompareOrder.
Context `{PyLib}.
Variable now : clock.
Implicit Types (b c : pydict.t FileInfo) (p : string).

Lemma flat_map_eq_nil {A B} (f : A -> list B) (l : list A) :
  flat_map f l = [] <-> forall x, x ∈ l -> f x = [].
Proof.
  induction l as [|a l IH]; simpl.
  - split; [intros _ x Hx; by apply elem_of_nil in Hx | done].
  - split.
    + intros [Ha Hl]%app_eq_nil x [->|Hx]%elem_of_cons; [done|]. by apply IH.
    + intros Hall. rewrite (Hall a) by left. simpl. apply IH.
      intros x Hx. apply Hall. by right.
Qed.

Lemma baseline_items_sublist c b :
  sublist (ChangeReport.file_path <$> flat_map (check_baseline_item now c []) b)
          (pydict.keys b)
  /\ Forall (fun r => ChangeReport.change_type r = MODIFIED
                       \/ ChangeReport.change_type r = REMOVED)
            (flat_map (check_baseline_item now c []) b).
Proof.
  induction b as [|[k v] b [IH1 IH2]]; simpl.
  - split; constructor.
  - destruct (pydict.get c k) as [cf|]; [case_decide|]; simpl; split;
      first [ by apply sublist_skip | by apply sublist_cons
            | by constructor; [left|] | by constructor; [right|] | done ].
Qed.

Lemma current_items_sublist b c :
  sublist (ChangeReport.file_path <$> flat_map (check_current_item now b []) c)
          (pydict.keys c)
  /\ Forall (fun r => ChangeReport.change_type r = ADDED)
            (flat_map (check_current_item now b []) c).
Proof.
  induction c as [|[k v] c [IH1 IH2]]; simpl.
  - split; constructor.
  - destruct (pydict.mem b k); simpl; split;
      first [ by apply sublist_skip | by apply sublist_cons
            | by constructor | done ].
Qed.

(** X1. The comparison reports nothing exactly when the two dictionaries
    have the same paths and, path by path, the same SHA-256 digest. *)
Theorem no_changes_iff_same_digests b c :
  pydict.wf b -> pydict.wf c ->
  detect_changes now b c = [] <->
  forall p, FileInfo.hash_sha256 <$> pydict.get b p
            = FileInfo.hash_sha256 <$> pydict.get c p.
Proof.
  intros Hb Hc. rewrite detect_changes_eq. split.
  - intros [Hl Hr]%app_eq_nil p.
    rewrite flat_map_eq_nil in Hl. rewrite flat_map_eq_nil in Hr.
    destruct (pydict.get b p) as [bf|] eqn:Hgb.
    + specialize (Hl _ (get_Some_elem _ _ _ Hgb)). simpl in Hl.
      destruct (pydict.get c p) as [cf|]; [|discriminate Hl].
      case_decide as Hne; [done|]. simpl. f_equal.
      by destruct (decide (FileInfo.hash_sha256 bf = FileInfo.hash_sha256 cf)).
    + destruct (pydict.get c p) as [cf|] eqn:Hgc; [|done].
      specialize (Hr _ (get_Some_elem _ _ _ Hgc)). simpl in Hr.
      unfold pydict.mem in Hr. by rewrite Hgb in Hr.
  - intros Hsame.
    enough (flat_map (check_baseline_item now c []) b = []
            /\ flat_map (check_current_item now b []) c = []) as [-> ->]; [done|].
    split; apply flat_map_eq_nil.
    + intros [k v] Hin. specialize (Hsame k).
      rewrite (get_elem _ _ _ Hb Hin) in Hsame. simpl.
      destruct (pydict.get c k) as [cf|]; [|done].
      injection Hsame as Hsame. by rewrite decide_False by (by intros []).
    + intros [k v] Hin. specialize (Hsame k).
      rewrite (get_elem _ _ _ Hc Hin) in Hsame. simpl.
      unfold pydict.mem. by destruct (pydict.get b k).
Qed.

(** X2. The order of the result: first the records of baseline paths
    (each MODIFIED or REMOVED), in the order of the baseline
    dictionary, then the added paths in the order of the current scan. *)
Theorem changes_in_dictionary_order b c :
  exists of_baseline of_current,
    detect_changes now b c = of_baseline ++ of_current
    /\ sublist (ChangeReport.file_path <$> of_baseline) (pydict.keys b)
    /\ sublist (ChangeReport.file_path <$> of_current) (pydict.keys c)
    /\ Forall (fun r => ChangeReport.change_type r = MODIFIED
                         \/ ChangeReport.change_type r = REMOVED) of_baseline
    /\ Forall (fun r => ChangeReport.change_type r = ADDED) of_current.
Proof.
  exists (flat_map (check_baseline_item now c []) b),
         (flat_map (check_current_item now b []) c).
  destruct (baseline_items_sublist c b), (current_items_sublist b c).
  by rewrite detect_changes_eq.
Qed.

Lemma count_removed_items b c :
  count_type REMOVED (flat_map (check_baseline_item now c []) b)
  = length (filter (fun item => pydict.mem c item.1 = false) b).
Proof.
  induction b as [|[k v] b IH]; [done|]. cbn [flat_map].
  rewrite count_type_app, IH, filter_cons. unfold pydict.mem.
  cbn [check_baseline_item fst].
  destruct (pydict.get c k) as [cf|]; [case_decide|].
  - rewrite decide_False by done. done.
  - rewrite decide_False by done. done.
  - rewrite decide_True by done. done.
Qed.

Lemma count_modified_items b c :
  count_type MODIFIED (flat_map (check_baseline_item now c []) b)
  = length (filter (fun item => differs c item = true) b).
Proof.
  induction b as [|[k v] b IH]; [done|]. cbn [flat_map].
  rewrite count_type_app, IH, filter_cons. unfold differs.
  cbn [check_baseline_item fst snd].
  destruct (pydict.get c k) as [cf|]; [case_decide|].
  - rewrite bool_decide_true by done. rewrite decide_True by done. reflexivity.
  - rewrite bool_decide_false by (by intros ?). rewrite decide_False by done. reflexivity.
  - rewrite decide_False by done. done.
Qed.

Lemma elem_of_differs b c p :
  pydict.wf b ->
  p ∈ (filter (fun item => differs c item = true) b).*1 <->
  exists bf cf, pydict.get b p = Some bf /\ pydict.get c p = Some cf
                /\ FileInfo.hash_sha256 bf ≠ FileInfo.hash_sha256 cf.
Proof.
  intros Hb. rewrite list_elem_of_fmap. split.
  - intros [[k v] [-> [Hd Hin]%list_elem_of_filter]]. simpl.
    unfold differs in Hd. simpl in Hd.
    destruct (pydict.get c k) as [cf|] eqn:Hgc; [|done].
    apply bool_decide_eq_true in Hd. exists v, cf. by rewrite (get_elem _ _ _ Hb Hin).
  - intros (bf & cf & Hgb & Hgc & Hne). exists (p, bf). split; [done|].
    apply list_elem_of_filter. split; [|by apply get_Some_elem].
    unfold differs. simpl. rewrite Hgc. by apply bool_decide_eq_true.
Qed.

Lemma NoDup_differs b c :
  pydict.wf b -> NoDup (filter (fun item => differs c item = true) b).*1.
Proof.
  intros Hb. eapply sublist_NoDup; [exact Hb|].
  apply fmap_sublist, sublist_filter.
Qed.

(** X3. Exchanging the roles of the two dictionaries exchanges added and
    removed: as many ADDED records one way as REMOVED records the other
    way, and the same number of MODIFIED records both ways. *)
Theorem swap_exchanges_added_removed b c :
  pydict.wf b -> pydict.wf c ->
  count_type ADDED (detect_changes now b c) = count_type REMOVED (detect_changes now c b)
  /\ count_type REMOVED (detect_changes now b c)
     = count_type ADDED (detect_changes now c b)
  /\ count_type MODIFIED (detect_changes now b c)
     = count_type MODIFIED (detect_changes now c b).
Proof.
  intros Hb Hc. rewrite !detect_changes_eq, !count_type_app.
  destruct (count_baseline now b c) as (_ & Hab & _).
  destruct (count_baseline now c b) as (_ & Hac & _).
  destruct (count_current now b c) as (Hcb & Hmb & Hrb & _).
  destruct (count_current now c b) as (Hcc & Hmc & Hrc & _).
  cbv zeta in *. rewrite Hab, Hac, Hcb, Hcc, Hmb, Hmc, Hrb, Hrc.
  rewrite !count_removed_items, !count_modified_items.
  split_and!; [lia | lia |].
  rewrite !Nat.add_0_r, <- !(length_fmap fst).
  apply Permutation_length, NoDup_Permutation; [by apply NoDup_differs..|].
  intros p. rewrite !elem_of_differs by done. split.
  - intros (bf & cf & ? & ? & ?). by exists cf, bf.
  - intros (cf & bf & ? & ? & ?). by exists bf, cf.
Qed.

End CompareOrder.

(** * Further properties of the store *)

Section StoreQueries.
Import GuardianDatabase.

Lemma order_head_first_newest (l : list Baselines.row) x rest :
  order_by_created_at_desc l = x :: rest ->
  exists l1 l2, l = l1 ++ x :: l2
    /\ Forall (fun y => Baselines.created_at y < Baselines.created_at x) l1
    /\ Forall (fun y => Baselines.created_at y <= Baselines.created_at x) l2.
Proof.
  revert x rest. induction l as [|a l IH]; intros x rest; [done|].
  unfold order_by_created_at_desc. cbn [foldr].
  fold (order_by_created_at_desc l).
  destruct (order_by_created_at_desc l) as [|h sorted] eqn:Hsorted.
  - assert (l = []) as ->.
    { destruct l as [|y l]; [done|].
      assert (y ∈ order_by_created_at_desc (y :: l)) as Hy by (apply order_by_elem; left).
      rewrite Hsorted in Hy. by apply elem_of_nil in Hy. }
    simpl. intros [= <- <-]. exists [], []. by repeat constructor.
  - destruct (IH h sorted eq_refl) as (l1 & l2 & -> & Hl1 & Hl2).
    cbn [insert_desc]. destruct (Z.ltb_spec (Baselines.created_at a) (Baselines.created_at h)).
    + intros [= <- <-]. exists (a :: l1), l2. split; [done|]. split; [|done].
      by constructor.
    + intros [= <- <-]. exists [], (l1 ++ h :: l2). split; [done|]. split; [constructor|].
      apply Forall_app. split; [|constructor].
      * eapply Forall_impl; [exact Hl1|]. simpl. lia.
      * lia.
      * eapply Forall_impl; [exact Hl2|]. simpl. lia.
Qed.

(** X4. The id that [get_latest_baseline] returns is the id of a row of the
    path with the greatest [created_at]; among the rows of the path it is
    the first one, in the order of insertion, that carries this greatest
    stamp: the rows of the path before it are strictly older, the rows
    after it are not newer. *)
Theorem latest_baseline_first_newest db path id :
  get_latest_baseline db path = Some id ->
  exists row before after,
    Baselines.id row = id /\ Baselines.path row = path
    /\ filter (fun row => Baselines.path row = path) (baselines db)
       = before ++ row :: after
    /\ Forall (fun y => Baselines.created_at y < Baselines.created_at row) before
    /\ Forall (fun y => Baselines.created_at y <= Baselines.created_at row) after.
Proof.
  unfold get_latest_baseline.
  destruct (order_by_created_at_desc _) as [|row rest] eqn:Hsorted; [done|].
  intros [= <-].
  destruct (order_head_first_newest _ _ _ Hsorted) as (l1 & l2 & Hl & Hl1 & Hl2).
  exists row, l1, l2. split_and!; try done.
  assert (row ∈ filter (fun row => Baselines.path row = path) (baselines db)) as Hin.
  { rewrite Hl. apply elem_of_app. right. left. }
  by apply list_elem_of_filter in Hin as [? _].
Qed.

Lemma get_set {V} (d : pydict.t V) k v p :
  pydict.get (pydict.set d k v) p = if decide (k = p) then Some v else pydict.get d p.
Proof.
  induction d as [|[k' v'] d IH]; simpl.
  - done.
  - destruct (decide (k' = k)) as [->|Hne]; simpl.
    + by destruct (decide (k = p)).
    + destruct (decide (k' = p)) as [->|]; [by rewrite decide_False|done].
Qed.

Lemma get_fold_set (files : list FileInfo) d p :
  pydict.get (fold_left (fun d f => pydict.set d (FileInfo.path f) f) files d) p
  = match last (filter (fun f => FileInfo.path f = p) files) with
    | Some f => Some f
    | None => pydict.get d p
    end.
Proof.
  revert d. induction files as [|f files IH]; intros d; [done|].
  cbn [fold_left]. rewrite IH, filter_cons, get_set.
  destruct (decide (FileInfo.path f = p)); [|done].
  rewrite last_cons. by destruct (last _).
Qed.

Lemma set_fresh {V} (d : pydict.t V) k v :
  k ∉ pydict.keys d -> pydict.set d k v = d ++ [(k, v)].
Proof.
  induction d as [|[k' v'] d IH]; [done|]. simpl.
  intros [Hne Hd]%not_elem_of_cons. rewrite decide_False by done. by rewrite IH.
Qed.

Lemma fold_set_distinct (files : list FileInfo) d :
  NoDup (pydict.keys d ++ (FileInfo.path <$> files)) ->
  fold_left (fun d f => pydict.set d (FileInfo.path f) f) files d
  = d ++ ((fun f => (FileInfo.path f, f)) <$> files).
Proof.
  revert d. induction files as [|f files IH]; intros d Hnd; simpl.
  - by rewrite app_nil_r.
  - rewrite fmap_cons in Hnd.
    assert (FileInfo.path f ∉ pydict.keys d) as Hf.
    { apply NoDup_app in Hnd as (_ & Hnd & _). intros Hin.
      apply (Hnd _ Hin). left. }
    rewrite set_fresh by done. rewrite IH.
    + by rewrite <- app_assoc.
    + unfold pydict.keys. rewrite fmap_app. simpl. by rewrite <- app_assoc.
Qed.

(** X5. Reading back a baseline that was just stored, when every record
    and the total size fit what the tables hold (for other records the
    INSERT raises, or changes the time, and nothing is claimed): for every
    path the dictionary holds the last of the stored records with that
    path, with all eight fields as they were given; when the stored
    records have distinct paths the dictionary is the list of records
    itself, in the order given. *)
Theorem stored_files_read_back db now name path (files : list FileInfo) :
  db_wf db ->
  Forall storable files ->
  int64 (foldr Z.add 0 (FileInfo.size <$> files)) ->
  let db' := (create_baseline db now name path files).2 in
  let id := (create_baseline db now name path files).1 in
  (forall p, pydict.get (get_baseline_files db' id) p
             = last (filter (fun f => FileInfo.path f = p) files))
  /\ (NoDup (FileInfo.path <$> files) ->
      get_baseline_files db' id = (fun f => (FileInfo.path f, f)) <$> files).
Proof.
  intros Hwf _ _ db' id.
  pose proof (get_baseline_files_created db now name path files Hwf) as Hget.
  unfold db', id. destruct (create_baseline db now name path files) as [i d].
  simpl. rewrite Hget. unfold dict_of_files. split.
  - intros p. rewrite get_fold_set. by destruct (last _).
  - intros Hnd. by rewrite fold_set_distinct.
Qed.

End StoreQueries.

Section StoreInvariant.
Context `{PyLib}.
Import GuardianDatabase.

Lemma db_consistent_init : db_consistent init_database.
Proof. unfold db_consistent. simpl. split_and!; [lia|constructor..]. Qed.

Lemma files_of_old now id (files : list FileInfo) rows id' :
  id' ≠ id ->
  filter (fun row => Files.baseline_id row = id') (rows ++ (insert_file now id <$> files))
  = filter (fun row => Files.baseline_id row = id') rows.
Proof.
  intros Hne. rewrite filter_app.
  rewrite (filter_none _ (insert_file now id <$> files)); [by rewrite app_nil_r|].
  intros row (f & -> & _)%list_elem_of_fmap. simpl. congruence.
Qed.

Lemma files_of_new now id (files : list FileInfo) rows :
  Forall (fun row => Files.baseline_id row ≠ id) rows ->
  filter (fun row => Files.baseline_id row = id) (rows ++ (insert_file now id <$> files))
  = insert_file now id <$> files.
Proof.
  intros Hold. rewrite filter_app.
  rewrite (filter_none _ rows) by (by apply Forall_forall).
  apply filter_all. by intros row (f & -> & _)%list_elem_of_fmap.
Qed.

Lemma db_consistent_create db now name path (files : list FileInfo) :
  files ≠ [] ->
  db_consistent db -> db_consistent (create_baseline db now name path files).2.
Proof.
  intros Hfiles (Hseq & Hnd & Hids & Hfk & Hch & Hagg). rewrite create_baseline_eq.
  unfold db_consistent, files_of.
  cbn [snd baselines baselines_seq GuardianDatabase.files change_history].
  rewrite fmap_app. cbn [fmap list_fmap Baselines.id].
  assert (forall id, id ∈ Baselines.id <$> baselines db -> id ≠ baselines_seq db + 1)
    as Hfresh.
  { intros id Hin. rewrite Forall_forall in Hids. specialize (Hids _ Hin). lia. }
  split_and!.
  - lia.
  - apply NoDup_app. split_and!; [done| |apply NoDup_singleton].
    intros id Hin ->%list_elem_of_singleton. by apply (Hfresh _ Hin).
  - apply Forall_app. split.
    + eapply Forall_impl; [exact Hids|]. simpl. lia.
    + constructor; [lia|constructor].
  - apply Forall_app. split.
    + eapply Forall_impl; [exact Hfk|]. simpl. intros row Hin.
      apply elem_of_app. by left.
    + apply Forall_forall. intros row (f & -> & _)%list_elem_of_fmap. simpl.
      apply elem_of_app. right. left.
  - eapply Forall_impl; [exact Hch|]. simpl. intros row Hin.
    apply elem_of_app. by left.
  - apply Forall_app. split.
    + apply Forall_forall. intros row Hrow.
      rewrite Forall_forall in Hagg. specialize (Hagg _ Hrow).
      cbv zeta in Hagg |- *. unfold files_of in Hagg.
      rewrite files_of_old; [done|].
      apply Hfresh, list_elem_of_fmap. by exists row.
    + constructor; [|constructor]. cbv zeta. cbn [Baselines.id Baselines.file_count
        Baselines.total_size].
      rewrite files_of_new.
      * rewrite length_fmap, <- list_fmap_compose. split_and!; [done|done|].
        destruct files; [done|]. simpl. lia.
      * eapply Forall_impl; [exact Hfk|]. simpl. intros row Hin. by apply Hfresh.
Qed.

Lemma latest_baseline_elem db path id :
  get_latest_baseline db path = Some id -> id ∈ Baselines.id <$> baselines db.
Proof.
  unfold get_latest_baseline.
  destruct (order_by_created_at_desc _) as [|row rest] eqn:Hsorted; [done|].
  intros [= <-]. apply list_elem_of_fmap. exists row. split; [done|].
  assert (row ∈ order_by_created_at_desc
                  (filter (fun row => Baselines.path row = path) (baselines db))) as Hin.
  { rewrite Hsorted. left. }
  apply (proj1 (order_by_elem _ _)) in Hin.
  by apply list_elem_of_filter in Hin as [_ ?].
Qed.

Lemma db_consistent_record db now id changes :
  id ∈ Baselines.id <$> baselines db ->
  db_consistent db -> db_consistent (record_changes db now id changes).
Proof.
  intros Hid (Hseq & Hnd & Hids & Hfk & Hch & Hagg). rewrite record_changes_eq.
  unfold db_consistent, files_of.
  cbn [baselines baselines_seq GuardianDatabase.files change_history].
  split_and!; try done.
  apply Forall_app. split; [done|].
  apply Forall_forall. by intros row (c & -> & _)%list_elem_of_fmap.
Qed.

End StoreInvariant.

Section GuardianInvariant.
Context `{PyLib}.

(** X6. The tables stay consistent under the two operations of [Guardian]:
    starting from the empty store, after any sequence of [create_baseline]
    and [check_integrity] calls the baseline ids are distinct and positive,
    every row of [files] and [change_history] refers to an existing
    baseline, and each baseline's [file_count] and [total_size] are the
    number and the total size of its file rows, with at least one file. *)
Theorem store_stays_consistent :
  db_consistent GuardianDatabase.init_database
  /\ (forall self fs now db path name,
        db_consistent db ->
        db_consistent (create_baseline self fs now db path name).1.2)
  /\ (forall self fs now db path,
        db_consistent db -> db_consistent (check_integrity self fs now db path).1.2).
Proof.
  split_and!.
  - apply db_consistent_init.
  - intros self fs now db path name Hdb. unfold create_baseline.
    destruct (scan_directory (Guardian.scanner self) fs path) as [[files|e] slog];
      [|done].
    destruct (decide (files = [])) as [|Hne]; [done|].
    pose proof (db_consistent_create db now
                  (default ("baseline_" +:+ strftime_Ymd_HMS now) name) path files
                  Hne Hdb).
    by destruct (GuardianDatabase.create_baseline db now _ path files).
  - intros self fs now db path Hdb. unfold check_integrity.
    destruct (GuardianDatabase.get_latest_baseline db path) as [id|] eqn:Hlatest;
      [|done].
    destruct (scan_directory (Guardian.scanner self) fs path) as [[files|e] slog];
      [|done].
    simpl. case_decide; [done|].
    apply db_consistent_record; [|done]. by eapply latest_baseline_elem.
Qed.

End GuardianInvariant.

Section StoreFrame.
Import GuardianDatabase.

(** X7. Storing a baseline disturbs nothing that was there: the new id is
    above the counter, the files of every other baseline id read back as
    before, a path other than the one stored resolves to the same latest
    baseline as before, and the change history is untouched. *)
Theorem new_baseline_leaves_others db now name path (files : list FileInfo) :
  let id := (create_baseline db now name path files).1 in
  let db' := (create_baseline db now name path files).2 in
  id = baselines_seq db + 1
  /\ (forall id', id' ≠ id -> get_baseline_files db' id' = get_baseline_files db id')
  /\ (forall path', path' ≠ path ->
        get_latest_baseline db' path' = get_latest_baseline db path')
  /\ change_history db' = change_history db.
Proof.
  rewrite create_baseline_eq. cbn [fst snd]. split_and!; [done| |  |done].
  - intros id' Hne. unfold get_baseline_files. cbn [GuardianDatabase.files].
    by rewrite files_of_old.
  - intros path' Hne. unfold get_latest_baseline. cbn [baselines].
    rewrite filter_app, filter_cons_False, filter_nil, app_nil_r; [done|].
    simpl. congruence.
Qed.

End StoreFrame.

Section GuardianStore.
Context `{PyLib}.

(** X8. What [check_integrity] writes: it never touches [baselines] or
    [files]; when it returns changes it has appended to [change_history]
    one row per change, in the order returned, under the id of the latest
    baseline of the path; without a baseline for the path it returns no
    change and writes nothing, and when the scan raises the store is as it
    was. *)
Theorem check_integrity_appends_history self fs now db path :
  let r := (check_integrity self fs now db path).1.1 in
  let db' := (check_integrity self fs now db path).1.2 in
  GuardianDatabase.baselines db' = GuardianDatabase.baselines db
  /\ GuardianDatabase.baselines_seq db' = GuardianDatabase.baselines_seq db
  /\ GuardianDatabase.files db' = GuardianDatabase.files db
  /\ match r, GuardianDatabase.get_latest_baseline db path with
     | Ok changes, Some id =>
         GuardianDatabase.change_history db'
         = GuardianDatabase.change_history db
           ++ (GuardianDatabase.insert_change now id <$> changes)
     | Ok changes, None => changes = [] /\ db' = db
     | Raise _, _ => db' = db
     end.
Proof.
  unfold check_integrity.
  destruct (GuardianDatabase.get_latest_baseline db path) as [id|]; [|done].
  destruct (scan_directory (Guardian.scanner self) fs path) as [[files|e] slog];
    [|done].
  cbn [fst snd]. case_decide as Hch.
  - rewrite Hch. simpl. by rewrite app_nil_r.
  - by rewrite record_changes_eq.
Qed.

(** X9. A baseline stored in a later second than every earlier baseline of
    its path becomes the latest one of the path; and a check made when the
    scan of the path returns what it returned for the baseline reports no
    change and leaves the store as it is.  The file system of the check,
    [fs'], is a state of its own: only the scan of the path has to agree
    with the one of the baseline. *)
Theorem check_clean_after_new_second self fs fs' now now' db path name id db1 log1 :
  db_wf db ->
  Forall (fun row => Baselines.path row = path ->
                     Baselines.created_at row < GuardianDatabase.CURRENT_TIMESTAMP now)
         (GuardianDatabase.baselines db) ->
  create_baseline self fs now db path name = (Ok (Some id), db1, log1) ->
  (scan_directory (Guardian.scanner self) fs' path).1
  = (scan_directory (Guardian.scanner self) fs path).1 ->
  GuardianDatabase.get_latest_baseline db1 path = Some id
  /\ exists log2, check_integrity self fs' now' db1 path = (Ok [], db1, log2).
Proof.
  intros Hwf Hold Hcreate Hsame. unfold create_baseline in Hcreate.
  destruct (scan_directory (Guardian.scanner self) fs path) as [[files|e] slog] eqn:Hscan;
    [|done].
  destruct (decide (files = [])); [done|].
  pose proof (get_baseline_files_created db now
                (default ("baseline_" +:+ strftime_Ymd_HMS now) name) path files Hwf)
    as Hfiles.
  pose proof (latest_after_create db now
                (default ("baseline_" +:+ strftime_Ymd_HMS now) name) path files Hold)
    as Hlatest.
  destruct (GuardianDatabase.create_baseline db now _ path files) as [id' db'].
  injection Hcreate as -> -> _. split; [done|].
  unfold check_integrity. rewrite Hlatest.
  destruct (scan_directory (Guardian.scanner self) fs' path) as [r' slog'].
  simpl in Hsame. subst r'. rewrite Hfiles.
  fold (dict_of_files files).
  rewrite detect_changes_same by apply wf_dict_of_files.
  rewrite decide_True by done. eauto.
Qed.

End GuardianStore.

(** * Further properties of the scanner *)

Section ExclusionRules.
Context `{PyLib}.
Variable self : GuardianScanner.

Lemma prefix_append (p rest : string) : String.prefix p (p +:+ rest) = true.
Proof.
  induction p as [|c p IH]; simpl; [by destruct rest|].
  by destruct (ascii_dec c c).
Qed.

Lemma match_patterns_true p patterns b :
  match_patterns p patterns = Ok b ->
  b = true <->
  exists pattern, pattern ∈ patterns
    /\ (pathlib.match_ p pattern = Ok true \/ pathlib.name p = pattern).
Proof.
  revert b. induction patterns as [|pattern patterns IH]; intros b; simpl.
  - intros [= <-]. split; [done|]. intros (pat & Hin & _). by apply elem_of_nil in Hin.
  - destruct (pathlib.match_ p pattern) as [m|e] eqn:Hm; [|done]. simpl.
    destruct (m || bool_decide (pathlib.name p = pattern)) eqn:Hor.
    + intros [= <-]. split; [|done]. intros _. exists pattern. split; [left|].
      apply orb_true_iff in Hor as [->|Hn]; [by left|].
      right. by apply bool_decide_eq_true in Hn.
    + intros Hrest. rewrite (IH _ Hrest).
      apply orb_false_iff in Hor as [-> Hn]. apply bool_decide_eq_false in Hn.
      split.
      * intros (pat & Hin & Hpat). exists pat. split; [by right|done].
      * intros (pat & [->|Hin]%elem_of_cons & Hpat); [|by exists pat].
        destruct Hpat as [Hpat|Hpat]; [by rewrite Hm in Hpat|done].
Qed.

(** X10. What [_should_exclude] answers when every configured pattern is
    one that [Path.match] accepts and the value of [exclude_paths] holds
    no percent sign (the value is read through [ConfigParser.get] at every
    call, which interpolates at a percent sign and may raise; nothing is
    claimed then): it answers, and the answer is yes exactly when some
    exclude pattern matches the path or equals its name, or some entry of
    [exclude_paths] is a prefix of the path string.  The prefix test is on
    characters, not on path components: every string that begins with an
    entry of [exclude_paths] is excluded, whatever follows. *)
Theorem exclusion_by_pattern_or_prefix :
  Forall valid_pattern (GuardianScanner.exclude_patterns self) ->
  has_char "%" (GuardianConfig.exclude_paths (GuardianScanner.config self)) = false ->
  (forall file_path,
     exists b, _should_exclude self file_path = Ok b
       /\ (b = true <->
           (exists pattern, pattern ∈ GuardianScanner.exclude_patterns self
              /\ (pathlib.match_ file_path pattern = Ok true
                  \/ pathlib.name file_path = pattern))
           \/ exists exclude_path,
                exclude_path ∈ GuardianConfig.get_list
                                 (GuardianConfig.exclude_paths
                                    (GuardianScanner.config self))
                /\ str.startswith file_path exclude_path = true))
  /\ (forall exclude_path rest,
        exclude_path ∈ GuardianConfig.get_list
                         (GuardianConfig.exclude_paths (GuardianScanner.config self)) ->
        _should_exclude self (exclude_path +:+ rest) = Ok true).
Proof.
  intros Hvalid _.
  assert (forall file_path,
     exists b, _should_exclude self file_path = Ok b
       /\ (b = true <->
           (exists pattern, pattern ∈ GuardianScanner.exclude_patterns self
              /\ (pathlib.match_ file_path pattern = Ok true
                  \/ pathlib.name file_path = pattern))
           \/ exists exclude_path,
                exclude_path ∈ GuardianConfig.get_list
                                 (GuardianConfig.exclude_paths
                                    (GuardianScanner.config self))
                /\ str.startswith file_path exclude_path = true)) as Hchar.
  { intros file_path. unfold _should_exclude.
    destruct (match_patterns_valid file_path _ Hvalid) as [m Hm]. rewrite Hm. simpl.
    pose proof (match_patterns_true _ _ _ Hm) as Hiff.
    destruct m.
    - exists true. split; [done|]. split; [|done]. intros _. left. by apply Hiff.
    - eexists. split; [done|]. rewrite existsb_exists. split.
      + intros (x & Hx%list_elem_of_In & Hp). right. by exists x.
      + intros [Hpat|(x & Hx & Hp)].
        * by apply Hiff in Hpat.
        * exists x. split; [by apply list_elem_of_In|done]. }
  split; [exact Hchar|].
  intros exclude_path rest Hin.
  destruct (Hchar (exclude_path +:+ rest)) as (b & -> & Hb). f_equal.
  apply Hb. right. exists exclude_path. split; [done|]. apply prefix_append.
Qed.

End ExclusionRules.

Section Permissions.
Context `{PyLib}.

Lemma append_assoc (s t u : string) : (s +:+ t) +:+ u = s +:+ (t +:+ u).
Proof.
  induction s as [|c s IH]; [done|].
  change (String c ((s +:+ t) +:+ u) = String c (s +:+ (t +:+ u))). by rewrite IH.
Qed.

Lemma oct_digits_acc fuel n acc : exists s, oct_digits fuel n acc = s +:+ acc.
Proof.
  revert n acc. induction fuel as [|fuel IH]; intros n acc; cbn [oct_digits].
  - by exists "".
  - destruct (n / 8 =? 0).
    + by exists (String (ascii_of_nat (48 + Z.to_nat (n mod 8))) "").
    + destruct (IH (n / 8) (String (ascii_of_nat (48 + Z.to_nat (n mod 8))) acc))
        as [s ->].
      exists (s +:+ String (ascii_of_nat (48 + Z.to_nat (n mod 8))) "").
      by rewrite append_assoc.
Qed.

Lemma oct_digits_low fuel n :
  64 <= n -> exists s, oct_digits (S (S (S fuel))) n "" = s +:+ rwx_digits n.
Proof.
  intros Hn. cbn [oct_digits].
  assert ((n / 8 =? 0) = false) as ->
    by (apply Z.eqb_neq; Z.div_mod_to_equations; lia).
  assert ((n / 8 / 8 =? 0) = false) as ->
    by (apply Z.eqb_neq; Z.div_mod_to_equations; lia).
  unfold rwx_digits, digit_char. rewrite (Z.div_div n 8 8) by lia.
  change (8 * 8) with 64.
  destruct (n / 64 / 8 =? 0); [by exists ""|].
  destruct (oct_digits_acc fuel (n / 64 / 8)
              (String (ascii_of_nat (48 + Z.to_nat (n / 64 mod 8)))
                 (String (ascii_of_nat (48 + Z.to_nat (n / 8 mod 8)))
                    (String (ascii_of_nat (48 + Z.to_nat (n mod 8))) ""))))
    as [s ->].
  by exists s.
Qed.

Lemma substring_append_r (s t : string) n :
  String.substring (String.length s) n (s +:+ t) = String.substring 0 n t.
Proof.
  induction s as [|c s IH]; [done|].
  change (String.substring (String.length s) n (s +:+ t) = String.substring 0 n t).
  exact IH.
Qed.

Lemma length_append (s t : string) :
  String.length (s +:+ t) = (String.length s + String.length t)%nat.
Proof.
  induction s as [|c s IH]; [done|].
  change (S (String.length (s +:+ t)) = S (String.length s + String.length t)).
  by rewrite IH.
Qed.

Lemma last3_append (s : string) a b c :
  last3 (s +:+ String a (String b (String c ""))) = String a (String b (String c "")).
Proof.
  unfold last3. rewrite length_append. simpl String.length.
  replace (String.length s + 3 - 3)%nat with (String.length s) by lia.
  by rewrite substring_append_r.
Qed.

Lemma permissions_of_mode mode : 64 <= mode -> last3 (oct mode) = rwx_digits mode.
Proof.
  intros Hmode. unfold oct.
  assert (6 <= Z.log2 mode) by (apply Z.log2_le_pow2; lia).
  destruct (Z.to_nat (Z.log2 mode)) as [|[|fuel]] eqn:Hfuel; [lia..|].
  destruct (oct_digits_low fuel mode Hmode) as [s ->].
  rewrite <- append_assoc. apply last3_append.
Qed.

(** X11. Every scanned record carries the inode, the modification time and
    the mode of the [os.stat] of a file entry of a walked directory.  For
    a file whose [st_mode] is at least 0o100 (every regular file's is, the
    file type sits in higher bits) the [permissions] field is the three
    octal digits of the low nine bits of [st_mode], the read, write and
    execute bits of user, group and other; the type of the file and the
    setuid, setgid and sticky bits are not in it, so two modes that agree
    on the low nine bits give the same field. *)
Theorem permissions_are_low_nine_bits self fs directory files log fi :
  scan_directory self fs directory = (Ok files, log) ->
  fi ∈ files ->
  let top := posixpath.abspath (cwd fs) directory in
  exists n r es filename stat_info content rd,
    lookup fs top = Some n /\ walked self top n r es
    /\ (filename, File (inr stat_info) content rd) ∈ es
    /\ FileInfo.path fi = posixpath.join r filename
    /\ FileInfo.inode fi = Some (st_ino stat_info)
    /\ FileInfo.modified_time fi = st_mtime stat_info
    /\ FileInfo.permissions fi = last3 (oct (st_mode stat_info))
    /\ (64 <= st_mode stat_info ->
        FileInfo.permissions fi = rwx_digits (st_mode stat_info)
        /\ forall mode', 64 <= mode' -> mode' mod 512 = st_mode stat_info mod 512 ->
                         last3 (oct mode') = FileInfo.permissions fi).
Proof.
  intros Hscan Hfi top.
  destruct (scan_result_provenance self fs directory files log fi Hscan Hfi)
    as (n & r & es & Hn & Hw & filename & stat_info & content & rd & Hin & _ & _ & ->).
  exists n, r, es, filename, stat_info, content, rd.
  unfold file_record. destruct (digests_of content rd) as [[? ?] ?].
  cbn [FileInfo.permissions FileInfo.inode FileInfo.modified_time FileInfo.path].
  split_and!; try done. intros Hmode. rewrite !permissions_of_mode by done.
  split; [done|]. intros mode' Hmode' Hlow. rewrite permissions_of_mode by done.
  unfold rwx_digits.
  assert (mode' / 64 mod 8 = st_mode stat_info / 64 mod 8) as -> by
    (Z.div_mod_to_equations; lia).
  assert (mode' / 8 mod 8 = st_mode stat_info / 8 mod 8) as -> by
    (Z.div_mod_to_equations; lia).
  assert (mode' mod 8 = st_mode stat_info mod 8) as -> by
    (Z.div_mod_to_equations; lia).
  done.
Qed.

End Permissions.

Section EmptySides.
Context `{PyLib}.
Variable now : clock.

Lemma flat_map_singleton {A B} (f : A -> B) (l : list A) :
  flat_map (fun x => [f x]) l = f <$> l.
Proof. induction l as [|a l IH]; [done|]. simpl. by rewrite IH. Qed.

(** X12. The two one-sided cases of the comparison: against an empty scan
    every file of the baseline is reported REMOVED, in baseline order, and
    against an empty baseline every scanned file is reported ADDED, in scan
    order.  So a check of a directory that has vanished since its baseline
    reports the whole baseline as removed. *)
Theorem one_side_empty :
  (forall b : pydict.t FileInfo,
      detect_changes now b [] = (fun item => report_removed now item.1 item.2) <$> b)
  /\ (forall c : pydict.t FileInfo,
        detect_changes now [] c = (fun item => report_added now item.1 item.2) <$> c)
  /\ (forall self fs db path id,
        os_path_exists fs (posixpath.abspath (cwd fs) path) = false ->
        GuardianDatabase.get_latest_baseline db path = Some id ->
        (check_integrity self fs now db path).1.1
        = Ok ((fun item => report_removed now item.1 item.2)
                <$> GuardianDatabase.get_baseline_files db id)).
Proof.
  assert (forall b : pydict.t FileInfo,
      detect_changes now b [] = (fun item => report_removed now item.1 item.2) <$> b)
    as Hremoved.
  { intros b. rewrite detect_changes_eq. simpl. rewrite app_nil_r.
    rewrite <- flat_map_singleton. apply flat_map_ext. by intros [k v]. }
  split_and!; [done| |].
  - intros c. rewrite detect_changes_eq. simpl.
    rewrite <- flat_map_singleton. apply flat_map_ext. by intros [k v].
  - intros self fs db path id Hmissing Hlatest. unfold check_integrity.
    rewrite Hlatest, scan_directory_eq. cbv zeta. rewrite Hmissing.
    cbn [fst snd fold_left]. by rewrite Hremoved.
Qed.

End EmptySides.

Section BelowRoot.
Context `{PyLib}.
Variable self : GuardianScanner.

Lemma join_extends a b :
  str.startswith b "/" = false -> exists rest, posixpath.join a b = a +:+ rest.
Proof.
  intros Hb. unfold posixpath.join. rewrite Hb.
  destruct (bool_decide (a = "") || str.endswith a "/"); eauto.
Qed.

Lemma relative_names_entry es d sub :
  relative_names (Dir es) = true -> (d, sub) ∈ es ->
  str.startswith d "/" = false /\ relative_names sub = true.
Proof.
  cbn [relative_names]. rewrite forallb_forall.
  intros Hall Hin%list_elem_of_In. specialize (Hall _ Hin). cbv beta iota in Hall.
  apply andb_true_iff in Hall as [Hd Hsub]. by apply negb_true_iff in Hd.
Qed.

Lemma walked_extends top n r es :
  walked self top n r es -> relative_names n = true ->
  (exists rest, r = top +:+ rest) /\ relative_names (Dir es) = true.
Proof.
  induction 1 as [top es|top es d sub r es' Hin Hex Hw IH]; intros Hrel.
  - split; [|done]. exists "". clear. induction top as [|c top IH]; [done|].
    change (String c top = String c (top +:+ "")). by rewrite <- IH.
  - destruct (relative_names_entry _ _ _ Hrel Hin) as [Hd Hsub].
    destruct (IH Hsub) as [[rest ->] Hes']. split; [|done].
    destruct (join_extends top d Hd) as [rest' ->].
    exists (rest' +:+ rest). apply append_assoc.
Qed.

(** X13. Every record of a scan lies below the scanned root: its path
    begins with the absolute, normalised path of the directory given,
    provided no directory entry of the tree has a name beginning with a
    slash (on a real file system none has). *)
Theorem records_lie_below_root fs directory files log n fi :
  let top := posixpath.abspath (cwd fs) directory in
  lookup fs top = Some n -> relative_names n = true ->
  scan_directory self fs directory = (Ok files, log) ->
  fi ∈ files ->
  str.startswith (FileInfo.path fi) top = true.
Proof.
  intros top Hn Hrel Hscan Hfi.
  destruct (scan_result_provenance self fs directory files log fi Hscan Hfi)
    as (n' & r & es & Hn' & Hw & filename & stat_info & content & rd & Hin & _ & _ & ->).
  fold top in Hn'. rewrite Hn in Hn'. injection Hn' as <-.
  rewrite file_record_path.
  destruct (walked_extends _ _ _ _ Hw Hrel) as [[rest ->] Hes].
  destruct (relative_names_entry _ _ _ Hes Hin) as [Hname _].
  destruct (join_extends (top +:+ rest) filename Hname) as [rest' Hjoin].
  unfold str.startswith. subst top. rewrite Hjoin, append_assoc. apply prefix_append.
Qed.

End BelowRoot.

(** * The reports *)

Section ReportFacts.
Context `{PyLib} `{ReportLib}.

Lemma by_type_get_set d k v t :
  by_type.get (by_type.set d k v) t = if decide (k = t) then Some v else by_type.get d t.
Proof.
  induction d as [|[k' v'] d IH]; simpl; [done|].
  destruct (decide (k' = k)) as [->|Hne]; simpl.
  - by destruct (decide (k = t)).
  - destruct (decide (k' = t)) as [->|]; [by rewrite decide_False|done].
Qed.

Lemma grouped_step changes d change :
  grouped changes d ->
  grouped (changes ++ [change])
    (let k := ChangeReport.change_type change in
     let by_type := if negb (by_type.mem d k) then by_type.set d k [] else d in
     by_type.append by_type k change).
Proof.
  intros Hd t. cbv zeta. unfold of_type. rewrite filter_app, filter_cons, filter_nil.
  fold (of_type t changes).
  set (k := ChangeReport.change_type change).
  assert (by_type.get (if negb (by_type.mem d k) then by_type.set d k [] else d) k
          = Some (of_type k changes)) as Hk.
  { unfold by_type.mem. rewrite (Hd k).
    destruct (of_type k changes) eqn:Hl; simpl.
    - rewrite by_type_get_set, decide_True by done. done.
    - rewrite (Hd k), Hl. done. }
  assert (forall t, t ≠ k ->
            by_type.get (if negb (by_type.mem d k) then by_type.set d k [] else d) t
            = by_type.get d t) as Hother.
  { intros t' Hne. destruct (negb (by_type.mem d k)); [|done].
    rewrite by_type_get_set, decide_False by done. done. }
  unfold by_type.append. rewrite Hk, by_type_get_set.
  destruct (decide (k = t)) as [<-|Hne].
  - by destruct (of_type k changes).
  - rewrite app_nil_r, Hother by done. apply Hd.
Qed.

Lemma grouped_fold changes0 changes d :
  grouped changes0 d ->
  grouped (changes0 ++ changes)
    (fold_left (fun by_type change =>
                  let k := ChangeReport.change_type change in
                  let by_type := if negb (by_type.mem by_type k)
                                 then by_type.set by_type k [] else by_type in
                  by_type.append by_type k change)
               changes d).
Proof.
  revert changes0 d. induction changes as [|change changes IH]; intros changes0 d Hd.
  - by rewrite app_nil_r.
  - cbn [fold_left].
    replace (changes0 ++ change :: changes) with ((changes0 ++ [change]) ++ changes)
      by (by rewrite <- app_assoc).
    apply IH. by apply grouped_step.
Qed.

Lemma group_by_type_get changes t :
  by_type.get (group_by_type changes) t
  = match of_type t changes with [] => None | l => Some l end.
Proof. apply (grouped_fold [] changes []). by intros t'. Qed.

Lemma console_change_cases change :
  (hashes_given change = true /\ exists lines, console_change change = Report lines)
  \/ (hashes_given change = false
      /\ console_change change = TypeError "'NoneType' object is not subscriptable").
Proof.
  unfold hashes_given, console_change.
  destruct (decide (ChangeReport.change_type change = MODIFIED)); [|left; eauto].
  destruct (ChangeReport.old_hash change) as [old|]; [|by right].
  destruct (ChangeReport.new_hash change) as [new|]; [|by right].
  left. split; [done|]. simpl. case_decide; eauto.
Qed.

Lemma console_changes_cases changes :
  (forallb hashes_given changes = true
   /\ exists lines, console_changes changes = Report lines)
  \/ (forallb hashes_given changes = false
      /\ console_changes changes = TypeError "'NoneType' object is not subscriptable").
Proof.
  induction changes as [|change changes IH]; simpl; [left; eauto|].
  destruct (console_change_cases change) as [[-> [lines ->]]|[-> ->]]; [|by right].
  simpl. destruct IH as [[-> [lines' ->]]|[-> ->]]; [left; eauto|by right].
Qed.

Lemma forallb_of_type t changes :
  t ≠ MODIFIED -> forallb hashes_given (of_type t changes) = true.
Proof.
  intros Ht. apply forallb_forall. intros change Hin%list_elem_of_In.
  apply list_elem_of_filter in Hin as [Htype _]. unfold hashes_given.
  rewrite decide_False; [done|]. by rewrite Htype.
Qed.

Lemma forallb_of_type_MODIFIED changes :
  forallb hashes_given (of_type MODIFIED changes) = forallb hashes_given changes.
Proof.
  induction changes as [|change changes IH]; [done|].
  unfold of_type. rewrite filter_cons. fold (of_type MODIFIED changes).
  destruct (decide (ChangeReport.change_type change = MODIFIED)) as [Hm|Hm]; simpl.
  - by rewrite IH.
  - rewrite IH. unfold hashes_given at 2. by rewrite decide_False.
Qed.

Lemma console_section_cases changes t :
  (forallb hashes_given (of_type t changes) = true
   /\ exists lines, console_section (group_by_type changes) t = Report lines)
  \/ (forallb hashes_given (of_type t changes) = false
      /\ console_section (group_by_type changes) t
         = TypeError "'NoneType' object is not subscriptable").
Proof.
  unfold console_section. rewrite group_by_type_get.
  destruct (of_type t changes) as [|change l] eqn:Hl; [left; eauto|].
  destruct (console_changes_cases (change :: l)) as [[-> [lines ->]]|[-> ->]];
    [left; eauto|by right].
Qed.

(** X14. When the console report fails: slicing the digest of a MODIFIED
    change that has none raises TypeError; with a digest on both sides of
    every MODIFIED change the report is built, and it is the one fixed
    sentence exactly when there is no change. *)
Theorem console_report_fails_without_digest now changes :
  (forallb hashes_given changes = true ->
     exists text, _generate_console_report now changes = Report text
       /\ (text = "No changes detected. System integrity maintained."
           <-> changes = []))
  /\ (forallb hashes_given changes = false ->
      _generate_console_report now changes
      = TypeError "'NoneType' object is not subscriptable").
Proof.
  unfold _generate_console_report.
  pose proof (forallb_of_type ADDED changes ltac:(done)) as Ha.
  pose proof (forallb_of_type REMOVED changes ltac:(done)) as Hr.
  pose proof (forallb_of_type_MODIFIED changes) as Hm.
  destruct (console_section_cases changes ADDED) as [[_ [added ->]]|[Hf _]];
    [|by rewrite Ha in Hf].
  destruct (console_section_cases changes REMOVED) as [[_ [removed ->]]|[Hf _]];
    [|by rewrite Hr in Hf].
  split.
  - intros Hall. destruct (decide (changes = [])) as [->|Hne]; [by eexists|].
    destruct (console_section_cases changes MODIFIED) as [[_ [modified ->]]|[Hf _]];
      [|by rewrite Hm, Hall in Hf].
    simpl. eexists. split; [done|]. split; [|done].
    intros Heq. apply (f_equal (String.get 0)) in Heq. vm_compute in Heq.
    discriminate.
  - intros Hsome. destruct (decide (changes = [])) as [->|Hne]; [done|].
    destruct (console_section_cases changes MODIFIED) as [[Ht _]|[_ ->]];
      [by rewrite Hm, Hsome in Ht|done].
Qed.

(** X15. The console report depends on the changes only through their
    number and, for each of ADDED, MODIFIED and REMOVED, the list of the
    changes of that type in the order given: two lists of the same length
    with the same changes of each of the three types give the same report,
    however the types are interleaved.  A change of another type counts
    in the total and is listed nowhere. *)
Theorem console_report_groups_by_type now changes changes' :
  length changes = length changes' ->
  of_type ADDED changes = of_type ADDED changes' ->
  of_type MODIFIED changes = of_type MODIFIED changes' ->
  of_type REMOVED changes = of_type REMOVED changes' ->
  _generate_console_report now changes = _generate_console_report now changes'.
Proof.
  intros Hlen Ha Hm Hr. unfold _generate_console_report, console_section.
  rewrite !group_by_type_get, Ha, Hm, Hr, Hlen.
  destruct changes, changes'; done.
Qed.

End ReportFacts.

Section HtmlFacts.
Context `{PyLib} `{ReportLib}.

Lemma append_nil_r (s : string) : s +:+ "" = s.
Proof.
  induction s as [|c s IH]; [done|].
  change (String c (s +:+ "") = String c s). by rewrite IH.
Qed.

Lemma html_loop changes html :
  fold_left (fun html change => html +:+ html_change change) changes html
  = html +:+ html_changes changes.
Proof.
  revert html. induction changes as [|change changes IH]; intros html; simpl.
  - by rewrite append_nil_r.
  - by rewrite IH, append_assoc.
Qed.

Lemma html_changes_app l1 l2 :
  html_changes (l1 ++ l2) = html_changes l1 +:+ html_changes l2.
Proof.
  induction l1 as [|change l1 IH]; [done|].
  cbn [app html_changes foldr]. fold (html_changes (l1 ++ l2)).
  fold (html_changes l1). by rewrite IH, append_assoc.
Qed.

Lemma html_change_path_verbatim change :
  exists before after,
    html_change change
    = before +:+ "] " +:+ ChangeReport.file_path change +:+ "</h3>" +:+ after.
Proof.
  exists (html_change_open
          +:+ str.lower (ChangeType_value (ChangeReport.change_type change))
          +:+ html_change_title
          +:+ ChangeType_value (ChangeReport.change_type change)).
  unfold html_change, html_change_path, html_change_title_end.
  generalize html_change_open, html_change_title, html_old_hash, html_new_hash,
    html_hash_end, html_size, html_size_arrow, html_size_end,
    (str.lower (ChangeType_value (ChangeReport.change_type change))),
    (ChangeType_value (ChangeReport.change_type change)),
    (ChangeReport.file_path change),
    (str_of_optional_str (ChangeReport.old_hash change)),
    (str_of_optional_str (ChangeReport.new_hash change)),
    (str_of_optional_int (ChangeReport.old_size change)),
    (str_of_optional_int (ChangeReport.new_size change)).
  intros s1 s2 s3 s4 s5 s6 s7 s8 css value path old new old_size new_size.
  destruct (decide (ChangeReport.change_type change = MODIFIED));
    [destruct (decide (ChangeReport.old_size change ≠ ChangeReport.new_size change))|].
  - exists (nl +:+ "            " +:+ s3 +:+ old +:+ s4 +:+ new +:+ s5
            +:+ s6 +:+ old_size +:+ s7 +:+ new_size +:+ s8 +:+ "</div>").
    by rewrite !append_assoc.
  - exists (nl +:+ "            " +:+ s3 +:+ old +:+ s4 +:+ new +:+ s5 +:+ "</div>").
    by rewrite !append_assoc.
  - exists (nl +:+ "            " +:+ "</div>"). by rewrite !append_assoc.
Qed.

(** X16. The HTML report writes the path of every change as it is, between
    the closing bracket of the type and the end of the heading: no
    character of a path is escaped. *)
Theorem html_report_paths_verbatim now changes change :
  change ∈ changes ->
  exists before after,
    _generate_html_report now changes
    = before +:+ "] " +:+ ChangeReport.file_path change +:+ "</h3>" +:+ after.
Proof.
  intros (l1 & l2 & ->)%list_elem_of_split.
  destruct (html_change_path_verbatim change) as (before & after & Hchange).
  unfold _generate_html_report. rewrite html_loop, html_changes_app.
  cbn [html_changes foldr]. fold (html_changes l2). rewrite Hchange.
  generalize (html_head +:+ strftime_Ymd_HMS_text now +:+ html_total
              +:+ pretty (length (l1 ++ change :: l2)) +:+ html_head_end).
  generalize (html_changes l1), (html_changes l2),
    (ChangeReport.file_path change). intros h1 h2 path h0.
  exists (h0 +:+ h1 +:+ before), (after +:+ h2 +:+ "</body></html>").
  by rewrite !append_assoc.
Qed.

End HtmlFacts.

(** * [Guardian.run] *)

Section RunFacts.
Context `{PyLib} `{ReportLib}.

Lemma detect_changes_hashes_given now (b c : pydict.t FileInfo) :
  forallb hashes_given (detect_changes now b c) = true.
Proof.
  apply forallb_forall. intros r Hr%list_elem_of_In.
  rewrite detect_changes_eq in Hr.
  apply elem_of_app in Hr as [Hr|Hr]; apply list_elem_of_In, in_flat_map in Hr
    as ([k v] & _ & Hr%list_elem_of_In); simpl in Hr.
  - destruct (pydict.get c k) as [cf|]; [case_decide|];
      try apply list_elem_of_singleton in Hr as ->; try done.
    by apply elem_of_nil in Hr.
  - destruct (pydict.mem b k); simpl in Hr;
      try apply list_elem_of_singleton in Hr as ->; try done.
    by apply elem_of_nil in Hr.
Qed.

Lemma check_integrity_hashes_given self fs now db path changes :
  (check_integrity self fs now db path).1.1 = Ok changes ->
  forallb hashes_given changes = true.
Proof.
  unfold check_integrity.
  destruct (GuardianDatabase.get_latest_baseline db path) as [id|];
    [|by intros [= <-]].
  destruct (scan_directory (Guardian.scanner self) fs path) as [[files|e] slog];
    [|done].
  simpl. intros [= <-]. apply detect_changes_hashes_given.
Qed.

Lemma console_report_built now changes :
  forallb hashes_given changes = true ->
  exists text, _generate_console_report now changes = Report text.
Proof.
  intros Hall. unfold _generate_console_report.
  destruct (decide (changes = [])); [by eexists|].
  pose proof (forallb_of_type ADDED changes ltac:(done)) as Ha.
  pose proof (forallb_of_type REMOVED changes ltac:(done)) as Hr.
  pose proof (forallb_of_type_MODIFIED changes) as Hm.
  destruct (console_section_cases changes ADDED) as [[_ [added ->]]|[Hf _]];
    [|by rewrite Ha in Hf].
  destruct (console_section_cases changes REMOVED) as [[_ [removed ->]]|[Hf _]];
    [|by rewrite Hr in Hf].
  destruct (console_section_cases changes MODIFIED) as [[_ [modified ->]]|[Hf _]];
    [|by rewrite Hm, Hall in Hf].
  by eexists.
Qed.

Lemma generate_report_built reporter now changes output_format :
  forallb hashes_given changes = true ->
  exists text, generate_report reporter now changes output_format = Report text.
Proof.
  intros Hall. unfold generate_report.
  repeat case_decide; eauto using console_report_built.
Qed.

(** X17. Two things [run] never does.  It never ends with the TypeError of
    the console report: the changes that [check_integrity] returns have
    both digests wherever the report slices them, so that the report, in
    any of the three formats, is built.  And it never exits with a status
    other than 1. *)
Theorem run_never_type_error self reporter open_w fs now db args :
  let o := Guardian_run self reporter open_w fs now db args in
  (forall msg, Outcome.ending_ o ≠ RaisesTypeError msg)
  /\ (forall code, Outcome.ending_ o = SysExit code -> code = 1)
  /\ (forall path changes output_format,
        (check_integrity self fs now db path).1.1 = Ok changes ->
        exists text, generate_report reporter now changes output_format = Report text).
Proof.
  intros o. split_and!.
  - intros msg. unfold o, Guardian_run. destruct (Args.baseline args).
    + destruct (create_baseline self fs now db (Args.path args) (Args.name args))
        as [[[[id|]|e] db'] log]; [case_decide|..]; done.
    + destruct (Args.check args); [|done].
      pose proof (check_integrity_hashes_given self fs now db (Args.path args))
        as Hgiven.
      destruct (check_integrity self fs now db (Args.path args))
        as [[[changes|e] db'] log]; [|done]. cbn [fst snd] in Hgiven.
      case_decide; [|done].
      destruct (generate_report_built reporter now changes (Args.output args)
                  (Hgiven _ eq_refl)) as [text ->].
      destruct (Args.save_report args); [destruct (open_w _)|];
        by destruct (Args.fail_on_changes args).
  - intros code. unfold o, Guardian_run. destruct (Args.baseline args).
    + destruct (create_baseline self fs now db (Args.path args) (Args.name args))
        as [[[[id|]|e] db'] log]; [case_decide|..]; cbn [Outcome.ending_];
        congruence.
    + destruct (Args.check args); [|cbn [Outcome.ending_]; congruence].
      destruct (check_integrity self fs now db (Args.path args))
        as [[[changes|e] db'] log]; [|done].
      case_decide; [|done].
      destruct (generate_report reporter now changes (Args.output args)); [|done].
      destruct (Args.save_report args); [destruct (open_w _)|];
        destruct (Args.fail_on_changes args); cbn [Outcome.ending_]; congruence.
  - intros path changes output_format Hchanges.
    apply generate_report_built. by eapply check_integrity_hashes_given.
Qed.

(** X18. In check mode a path without a baseline passes: [run] prints that
    no changes were detected and returns, whatever the flags.  The status
    is 1 exactly when [fail_on_changes] is set, the check returned changes
    and, if the report is to be saved, its file could be opened.  A file is
    written only with [save_report], and then it holds the report that was
    printed.  The store and the log are those of [check_integrity]. *)
Theorem check_mode_exit_status self reporter open_w fs now db args :
  Args.baseline args = false -> Args.check args = true ->
  let o := Guardian_run self reporter open_w fs now db args in
  let checked := check_integrity self fs now db (Args.path args) in
  let report_file := "guardian_report_" +:+ strftime_Ymd_HMS now +:+ ".txt" in
  (GuardianDatabase.get_latest_baseline db (Args.path args) = None ->
     o = Outcome.mk Returns db
           [(ERROR, "No baseline found for path: " +:+ Args.path args)]
           ["No changes detected. System integrity maintained."] [])
  /\ (Outcome.ending_ o = SysExit 1 <->
      Args.fail_on_changes args = true
      /\ (exists changes, checked.1.1 = Ok changes /\ changes ≠ [])
      /\ (Args.save_report args = true -> open_w report_file = None))
  /\ (Outcome.written o ≠ [] ->
      Args.save_report args = true
      /\ exists report,
          Outcome.written o = [(report_file, report)]
          /\ Outcome.stdout o = [report; "Report saved to: " +:+ report_file])
  /\ Outcome.db o = checked.1.2 /\ Outcome.log o = checked.2.
Proof.
  intros Hb Hc o checked report_file. unfold o, Guardian_run. rewrite Hb, Hc.
  split.
  { intros Hnone. unfold check_integrity. by rewrite Hnone. }
  pose proof (check_integrity_hashes_given self fs now db (Args.path args)) as Hgiven.
  unfold checked.
  destruct (check_integrity self fs now db (Args.path args))
    as [[[changes|e] db'] log]; cbn [fst snd] in *.
  - destruct (decide (changes ≠ [])) as [Hne|Heq].
    + destruct (generate_report_built reporter now changes (Args.output args)
                  (Hgiven _ eq_refl)) as [text ->].
      fold report_file.
      destruct (Args.save_report args); [destruct (open_w report_file) as [msg|]|];
        destruct (Args.fail_on_changes args);
        cbn [Outcome.ending_ Outcome.db Outcome.log Outcome.stdout Outcome.written].
      * split_and!; try reflexivity.
        -- split; [discriminate|]. intros (_ & _ & Hopen). by specialize (Hopen eq_refl).
        -- intros Hw. by destruct Hw.
      * split_and!; try reflexivity.
        -- split; [discriminate|]. intros (? & _). discriminate.
        -- intros Hw. by destruct Hw.
      * split_and!; try reflexivity.
        -- split; [|reflexivity]. intros _. split; [reflexivity|].
           split; [by exists changes|reflexivity].
        -- intros _. split; [reflexivity|]. by exists text.
      * split_and!; try reflexivity.
        -- split; [discriminate|]. intros (? & _). discriminate.
        -- intros _. split; [reflexivity|]. by exists text.
      * split_and!; try reflexivity.
        -- split; [|reflexivity]. intros _. split; [reflexivity|].
           split; [by exists changes|discriminate].
        -- intros Hw. by destruct Hw.
      * split_and!; try reflexivity.
        -- split; [discriminate|]. intros (? & _). discriminate.
        -- intros Hw. by destruct Hw.
    + cbn [Outcome.ending_ Outcome.db Outcome.log Outcome.stdout Outcome.written].
      split_and!; try reflexivity.
      * split; [discriminate|]. intros (_ & (changes' & [= <-] & Hne) & _). done.
      * intros Hw. by destruct Hw.
  - cbn [Outcome.ending_ Outcome.db Outcome.log Outcome.stdout Outcome.written].
    split_and!; try reflexivity.
    + split; [discriminate|]. intros (_ & (changes' & ? & _) & _). discriminate.
    + intros Hw. by destruct Hw.
Qed.

(** X19. Baseline mode, on a consistent store.  When [run] returns, the
    scan had found a file and the line printed names the id of the new
    baseline, the AUTOINCREMENT counter plus one; [run] exits with status 1
    exactly when the scan returned no file.  No file is written, and the
    flags of check mode are not read: with [baseline] set, [check] is
    ignored. *)
Theorem baseline_mode_exit_status self reporter open_w fs now db args :
  db_consistent db -> Args.baseline args = true ->
  let o := Guardian_run self reporter open_w fs now db args in
  let scanned := (scan_directory (Guardian.scanner self) fs (Args.path args)).1 in
  (Outcome.ending_ o = Returns ->
     (exists files, scanned = Ok files /\ files ≠ [])
     /\ Outcome.stdout o
        = ["Baseline created successfully with ID: "
           +:+ pretty (GuardianDatabase.baselines_seq db + 1)])
  /\ (Outcome.ending_ o = SysExit 1 <-> scanned = Ok [])
  /\ Outcome.written o = []
  /\ (forall args',
        Args.baseline args' = true -> Args.path args' = Args.path args ->
        Args.name args' = Args.name args ->
        Guardian_run self reporter open_w fs now db args' = o).
Proof.
  intros (Hseq & _) Hb o scanned.
  assert (forall args',
        Args.baseline args' = true -> Args.path args' = Args.path args ->
        Args.name args' = Args.name args ->
        Guardian_run self reporter open_w fs now db args' = o) as Hignored.
  { intros args' Hb' Hpath Hname. unfold o, Guardian_run.
    by rewrite Hb, Hb', Hpath, Hname. }
  enough ((Outcome.ending_ o = Returns ->
             (exists files, scanned = Ok files /\ files ≠ [])
             /\ Outcome.stdout o
                = ["Baseline created successfully with ID: "
                   +:+ pretty (GuardianDatabase.baselines_seq db + 1)])
          /\ (Outcome.ending_ o = SysExit 1 <-> scanned = Ok [])
          /\ Outcome.written o = [])
    as (? & ? & ?) by done.
  clear Hignored. unfold o, scanned, Guardian_run, create_baseline. rewrite Hb.
  destruct (scan_directory (Guardian.scanner self) fs (Args.path args))
    as [[files|e] slog]; cbn [fst snd].
  - destruct (decide (files = [])) as [->|Hne].
    + cbn [Outcome.ending_ Outcome.db Outcome.log Outcome.stdout Outcome.written
           fst snd].
      split_and!; done.
    + rewrite create_baseline_eq. rewrite decide_True by lia.
      cbn [Outcome.ending_ Outcome.db Outcome.log Outcome.stdout Outcome.written
           fst snd].
      split_and!; try done.
      * intros _. split; [by exists files|done].
      * split; [done|]. by intros [= ->].
  - cbn [Outcome.ending_ Outcome.db Outcome.log Outcome.stdout Outcome.written
         fst snd].
    split_and!; done.
Qed.

End RunFacts.

(** * Sizes written as integers *)

Section ExactFloats.
Import pynum.

Lemma round_half_even_exact q d : 0 < d -> round_half_even (q * d) d = q.
Proof.
  intros Hd. unfold round_half_even. rewrite Z.div_mul, Z.mod_mul by lia.
  cbv zeta. destruct (Z.ltb_spec (2 * 0) d); [done|lia].
Qed.

Lemma pow2_pos x : 0 < 2 ^ x \/ x < 0.
Proof. destruct (Z.le_gt_cases 0 x); [left; by apply Z.pow_pos_nonneg|by right]. Qed.

Lemma round64_pos_exact n a b :
  0 < n -> Z.log2 n <= 52 -> 0 <= a -> 0 <= b ->
  -1074 <= Z.log2 n + a - b - 52 -> Z.log2 n + a - b < 1024 ->
  round64_pos (n * 2 ^ a) (2 ^ b)
  = Finite (n * 2 ^ (52 - Z.log2 n)) (Z.log2 n + a - b - 52).
Proof.
  intros Hn HL Ha Hb Hlo Hhi. unfold round64_pos.
  rewrite Z.log2_mul_pow2, Z.log2_pow2 by lia.
  pose proof (Z.log2_nonneg n) as HL0.
  destruct (Z.log2_spec n Hn) as [Hlow _].
  set (L := Z.log2 n) in *.
  assert (0 < 2 ^ L) as HpL by (apply Z.pow_pos_nonneg; lia).
  assert ((if 0 <=? a + L - b
           then 2 ^ b * 2 ^ (a + L - b) <=? n * 2 ^ a
           else 2 ^ b <=? n * 2 ^ a * 2 ^ (- (a + L - b))) = true) as ->.
  { destruct (Z.leb_spec 0 (a + L - b)); apply Z.leb_le.
    - rewrite <- Z.pow_add_r by lia. replace (b + (a + L - b)) with (L + a) by lia.
      rewrite Z.pow_add_r by lia. apply Z.mul_le_mono_nonneg_r; [|done].
      apply Z.pow_nonneg. lia.
    - rewrite <- Z.mul_assoc, <- Z.pow_add_r by lia.
      replace (a + - (a + L - b)) with (b - L) by lia.
      replace b with (L + (b - L)) at 1 by lia. rewrite Z.pow_add_r by lia.
      apply Z.mul_le_mono_nonneg_r; [|done]. apply Z.pow_nonneg. lia. }
  cbv zeta. rewrite Z.max_l by lia.
  assert ((if 0 <=? a + L - b - 52
           then round_half_even (n * 2 ^ a) (2 ^ b * 2 ^ (a + L - b - 52))
           else round_half_even (n * 2 ^ a * 2 ^ (- (a + L - b - 52))) (2 ^ b))
          = n * 2 ^ (52 - L)) as ->.
  { destruct (Z.leb_spec 0 (a + L - b - 52)).
    - rewrite <- Z.pow_add_r by lia.
      replace (n * 2 ^ a) with (n * 2 ^ (52 - L) * 2 ^ (b + (a + L - b - 52))).
      + apply round_half_even_exact. apply Z.pow_pos_nonneg; lia.
      + rewrite <- Z.mul_assoc, <- Z.pow_add_r by lia. f_equal. f_equal. lia.
    - replace (n * 2 ^ a * 2 ^ (- (a + L - b - 52))) with (n * 2 ^ (52 - L) * 2 ^ b).
      + apply round_half_even_exact. apply Z.pow_pos_nonneg; lia.
      + rewrite <- !Z.mul_assoc, <- !Z.pow_add_r by lia. f_equal. f_equal. lia. }
  assert (0 < n * 2 ^ (52 - L)) as Hm.
  { apply Z.mul_pos_pos; [done|]. apply Z.pow_pos_nonneg; lia. }
  destruct (Z.eqb_spec (n * 2 ^ (52 - L)) 0); [lia|].
  rewrite Z.log2_mul_pow2 by lia. fold L.
  destruct (Z.leb_spec 1024 (52 - L + L + (a + L - b - 52))); [lia|].
  f_equal. lia.
Qed.

Lemma round64_pos_int n :
  0 < n -> n < 2 ^ 53 ->
  round64_pos n 1 = Finite (n * 2 ^ (52 - Z.log2 n)) (Z.log2 n - 52).
Proof.
  intros Hn Hlt. pose proof (Z.log2_nonneg n).
  assert (Z.log2 n < 53) by (by apply Z.log2_lt_pow2).
  transitivity (round64_pos (n * 2 ^ 0) (2 ^ 0)).
  { f_equal. rewrite Z.pow_0_r. lia. }
  rewrite round64_pos_exact by lia. f_equal. lia.
Qed.

Lemma float_of_pow2 k :
  0 <= k <= 30 -> float_of_int (2 ^ k) = Finite (2 ^ 52) (k - 52).
Proof.
  intros Hk. unfold float_of_int, round64.
  assert (0 < 2 ^ k) by (apply Z.pow_pos_nonneg; lia).
  destruct (Z.eqb_spec (2 ^ k) 0); [lia|]. destruct (Z.ltb_spec (2 ^ k) 0); [lia|].
  transitivity (round64_pos (1 * 2 ^ k) (2 ^ 0)).
  { f_equal. lia. }
  rewrite round64_pos_exact; rewrite ?Z.log2_1; try lia.
  rewrite Z.sub_0_r. f_equal; lia.
Qed.

Lemma size_float_exact n k :
  0 <= n < 2 ^ 53 -> 0 <= k <= 30 ->
  int_of_float (fmul (round64 n 1) (float_of_int (2 ^ k))) = Ok (n * 2 ^ k).
Proof.
  intros [Hn Hlt] Hk. rewrite float_of_pow2 by done. unfold round64 at 1.
  assert (0 < 2 ^ 52) as H52 by done.
  destruct (Z.eqb_spec n 0) as [->|Hn0].
  { cbn [fmul]. destruct (Z.leb_spec 0 (0 + (k - 52))); [lia|].
    rewrite Z.mul_0_l. unfold round64. simpl Z.eqb. cbn iota.
    cbn [int_of_float]. by rewrite !Z.mul_0_l. }
  destruct (Z.ltb_spec n 0); [lia|].
  rewrite round64_pos_int by lia.
  pose proof (Z.log2_nonneg n).
  assert (Z.log2 n < 53) by (apply Z.log2_lt_pow2; lia).
  set (L := Z.log2 n) in *.
  cbn [fmul]. destruct (Z.leb_spec 0 (L - 52 + (k - 52))); [lia|].
  assert (0 < 2 ^ (52 - L)) by (apply Z.pow_pos_nonneg; lia).
  replace (n * 2 ^ (52 - L) * 2 ^ 52) with (n * 2 ^ (104 - L))
    by (rewrite <- Z.mul_assoc, <- Z.pow_add_r by lia; f_equal; f_equal; lia).
  assert (0 < 2 ^ (104 - L)) by (apply Z.pow_pos_nonneg; lia).
  unfold round64.
  destruct (Z.eqb_spec (n * 2 ^ (104 - L)) 0); [nia|].
  destruct (Z.ltb_spec (n * 2 ^ (104 - L)) 0); [nia|].
  rewrite round64_pos_exact by lia. fold L.
  cbn [int_of_float].
  destruct (Z.leb_spec 0 (L + (104 - L) - - (L - 52 + (k - 52)) - 52)); f_equal.
  - rewrite <- Z.mul_assoc, <- Z.pow_add_r by lia. f_equal. f_equal. lia.
  - replace (n * 2 ^ (52 - L))
      with (n * 2 ^ k * 2 ^ (- (L + (104 - L) - - (L - 52 + (k - 52)) - 52))).
    + apply Z.quot_mul. apply Z.pow_nonzero; lia.
    + rewrite <- Z.mul_assoc, <- Z.pow_add_r by lia. f_equal. f_equal. lia.
Qed.

End ExactFloats.

Section Numerals.
Context `{PyLib}.

Local Ltac digit_cases d Hd :=
  let H := fresh in
  assert (d = 0 \/ d = 1 \/ d = 2 \/ d = 3 \/ d = 4 \/ d = 5 \/ d = 6 \/ d = 7
          \/ d = 8 \/ d = 9) as H by (unfold decimal_digit in Hd; lia);
  destruct H as [->|[->|[->|[->|[->|[->|[->|[->|[->| ->]]]]]]]]].

Lemma digit_char_facts d :
  decimal_digit d ->
  pynum.digit_value (digit_char d) = Some d
  /\ str.is_space (digit_char d) = false
  /\ str.upper_char (digit_char d) = digit_char d
  /\ str.lower_char (digit_char d) = digit_char d
  /\ Ascii.eqb (digit_char d) "e" = false
  /\ Ascii.eqb (digit_char d) "E" = false
  /\ Ascii.eqb (digit_char d) "." = false.
Proof. intros Hd. digit_cases d Hd; by vm_compute. Qed.

Lemma rev_app_append (s t : string) : String.rev_app s t = String.rev s +:+ t.
Proof.
  revert t. induction s as [|a s IH]; intros t; [done|].
  unfold String.rev. cbn [String.rev_app]. rewrite (IH (String a t)), (IH (String a "")).
  by rewrite append_assoc.
Qed.

Lemma rev_cons a (s : string) : String.rev (String a s) = String.rev s +:+ String a "".
Proof. unfold String.rev at 1. cbn [String.rev_app]. apply rev_app_append. Qed.

Lemma rev_append (s t : string) : String.rev (s +:+ t) = String.rev t +:+ String.rev s.
Proof.
  induction s as [|a s IH]; [by rewrite append_nil_r|].
  change (String a s +:+ t) with (String a (s +:+ t)).
  by rewrite !rev_cons, IH, append_assoc.
Qed.

Lemma rev_involutive (s : string) : String.rev (String.rev s) = s.
Proof.
  induction s as [|a s IH]; [done|]. by rewrite rev_cons, rev_append, IH.
Qed.

Lemma strip_clean (x : string) c s c' r :
  x = String c s -> str.is_space c = false ->
  String.rev x = String c' r -> str.is_space c' = false ->
  str.strip x = x.
Proof.
  intros Hx Hc Hrev Hc'. unfold str.strip, str.rstrip.
  assert (str.lstrip x = x) as -> by (rewrite Hx; cbn [str.lstrip]; by rewrite Hc).
  rewrite Hrev. cbn [str.lstrip]. rewrite Hc', <- Hrev. apply rev_involutive.
Qed.

Lemma numeral_app ds1 ds2 : numeral (ds1 ++ ds2) = numeral ds1 +:+ numeral ds2.
Proof.
  induction ds1 as [|d ds1 IH]; [done|].
  change (String (digit_char d) (numeral (ds1 ++ ds2))
          = String (digit_char d) (numeral ds1 +:+ numeral ds2)). by rewrite IH.
Qed.

Lemma map_append f (s t : string) : str.map f (s +:+ t) = str.map f s +:+ str.map f t.
Proof.
  induction s as [|a s IH]; [done|].
  change (String (f a) (str.map f (s +:+ t))
          = String (f a) (str.map f s +:+ str.map f t)). by rewrite IH.
Qed.

Lemma numeral_upper ds : Forall decimal_digit ds -> str.upper (numeral ds) = numeral ds.
Proof.
  induction 1 as [|d ds Hd _ IH]; [done|].
  destruct (digit_char_facts d Hd) as (_ & _ & Hu & _).
  unfold str.upper in *. cbn [numeral foldr str.map]. fold (numeral ds).
  by rewrite Hu, IH.
Qed.

Lemma numeral_lower ds : Forall decimal_digit ds -> str.lower (numeral ds) = numeral ds.
Proof.
  induction 1 as [|d ds Hd _ IH]; [done|].
  destruct (digit_char_facts d Hd) as (_ & _ & _ & Hl & _).
  unfold str.lower in *. cbn [numeral foldr str.map]. fold (numeral ds).
  by rewrite Hl, IH.
Qed.

Lemma digitpart_go_numeral ds :
  Forall decimal_digit ds -> pynum.digitpart_go true (numeral ds) = Some ds.
Proof.
  induction 1 as [|d ds Hd _ IH]; [done|].
  destruct (digit_char_facts d Hd) as (Hv & _).
  cbn [numeral foldr pynum.digitpart_go]. fold (numeral ds). by rewrite Hv, IH.
Qed.

Lemma digitpart_numeral ds :
  ds ≠ [] -> Forall decimal_digit ds -> pynum.digitpart (numeral ds) = Some ds.
Proof.
  intros Hne Hds. destruct Hds as [|d ds Hd Hds]; [done|].
  destruct (digit_char_facts d Hd) as (Hv & _).
  unfold pynum.digitpart. cbn [numeral foldr pynum.digitpart_go]. fold (numeral ds).
  by rewrite Hv, digitpart_go_numeral.
Qed.

Lemma split_at_cons c1 c2 c s :
  pynum.split_at c1 c2 (String c s)
  = if Ascii.eqb c c1 || Ascii.eqb c c2 then (EmptyString, Some s)
    else let '(a, b) := pynum.split_at c1 c2 s in (String c a, b).
Proof. reflexivity. Qed.

Lemma split_at_numeral c1 c2 ds :
  Forall (fun d => Ascii.eqb (digit_char d) c1 = false
                   /\ Ascii.eqb (digit_char d) c2 = false) ds ->
  pynum.split_at c1 c2 (numeral ds) = (numeral ds, None).
Proof.
  induction 1 as [|d ds [H1 H2] _ IH]; [done|].
  cbn [numeral foldr]. fold (numeral ds). by rewrite split_at_cons, H1, H2, IH.
Qed.

Lemma take_sign_numeral ds :
  ds ≠ [] -> Forall decimal_digit ds ->
  pynum.take_sign (numeral ds) = (false, numeral ds).
Proof.
  intros Hne Hds. destruct Hds as [|d ds Hd Hds]; [done|].
  cbn [numeral foldr]. digit_cases d Hd; reflexivity.
Qed.

Lemma numeral_not_word ds :
  ds ≠ [] -> Forall decimal_digit ds ->
  ~ (numeral ds = "inf" \/ numeral ds = "infinity") /\ numeral ds ≠ "nan".
Proof.
  intros Hne Hds. destruct Hds as [|d ds Hd Hds]; [done|].
  cbn [numeral foldr]. digit_cases d Hd; (split; [intros [?|?]|]; discriminate).
Qed.

Lemma numeral_first_last ds :
  ds ≠ [] -> Forall decimal_digit ds ->
  (exists d s, decimal_digit d /\ numeral ds = String (digit_char d) s)
  /\ (exists d r, decimal_digit d /\ String.rev (numeral ds) = String (digit_char d) r).
Proof.
  intros Hne Hds. split.
  - destruct Hds as [|d ds Hd Hds]; [done|]. by exists d, (numeral ds).
  - destruct (exists_last Hne) as (ds' & d & ->).
    apply Forall_app in Hds as [_ Hd]. apply Forall_inv in Hd.
    exists d, (String.rev (numeral ds')). split; [done|].
    by rewrite numeral_app, rev_append.
Qed.

Lemma strip_numeral ds :
  ds ≠ [] -> Forall decimal_digit ds -> str.strip (numeral ds) = numeral ds.
Proof.
  intros Hne Hds.
  destruct (numeral_first_last ds Hne Hds) as [(d & s & Hd & Hs) (d' & r & Hd' & Hr)].
  destruct (digit_char_facts d Hd) as (_ & Hsp & _).
  destruct (digit_char_facts d' Hd') as (_ & Hsp' & _).
  by eapply strip_clean.
Qed.

Lemma digit_char_not_space d :
  decimal_digit d -> pynum.is_space (digit_char d) = false.
Proof. intros Hd. digit_cases d Hd; by vm_compute. Qed.

Lemma int_strip_numeral ds :
  ds ≠ [] -> Forall decimal_digit ds -> pynum.strip (numeral ds) = numeral ds.
Proof.
  intros Hne Hds.
  destruct (numeral_first_last ds Hne Hds) as [(d & s & Hd & Hs) (d' & r & Hd' & Hr)].
  pose proof (digit_char_not_space d Hd) as Hsp.
  pose proof (digit_char_not_space d' Hd') as Hsp'.
  unfold pynum.strip.
  assert (pynum.lstrip (numeral ds) = numeral ds) as ->
    by (rewrite Hs; cbn [pynum.lstrip]; by rewrite Hsp).
  rewrite Hr. cbn [pynum.lstrip]. rewrite Hsp', <- Hr. apply rev_involutive.
Qed.

Lemma digit_run_numeral ds :
  Forall decimal_digit ds -> pynum.digit_run (numeral ds) = numeral ds.
Proof.
  induction 1 as [|d ds Hd _ IH]; [done|].
  destruct (digit_char_facts d Hd) as (Hv & _).
  cbn [numeral foldr pynum.digit_run]. fold (numeral ds).
  rewrite Hv, bool_decide_true by eauto. cbn [orb]. by rewrite IH.
Qed.

Lemma float_of_numeral ds :
  ds ≠ [] -> Forall decimal_digit ds ->
  pynum.float_of_str (numeral ds) = Ok (pynum.round64 (pynum.digits_value ds) 1).
Proof.
  intros Hne Hds. unfold pynum.float_of_str.
  rewrite int_strip_numeral, take_sign_numeral, numeral_lower by done.
  destruct (numeral_not_word ds Hne Hds) as [Hinf Hnan].
  rewrite decide_False, decide_False by done.
  unfold pynum.floatnumber.
  rewrite split_at_numeral.
  2:{ eapply Forall_impl; [exact Hds|]. intros d Hd.
      by destruct (digit_char_facts d Hd) as (_ & _ & _ & _ & ? & ? & _). }
  unfold pynum.mantissa. rewrite split_at_numeral.
  2:{ eapply Forall_impl; [exact Hds|]. intros d Hd.
      by destruct (digit_char_facts d Hd) as (_ & _ & _ & _ & _ & _ & ?). }
  rewrite digitpart_numeral by done. simpl.
  by rewrite app_nil_r, Z.mul_1_r.
Qed.

Lemma fold_digits_nonneg ds acc :
  Forall decimal_digit ds -> 0 <= acc ->
  0 <= fold_left (fun acc d => 10 * acc + d) ds acc.
Proof.
  intros Hds. revert acc. induction Hds as [|d ds Hd _ IH]; intros acc Hacc; [done|].
  simpl. apply IH. unfold decimal_digit in Hd. lia.
Qed.

Lemma digits_value_nonneg ds :
  Forall decimal_digit ds -> 0 <= pynum.digits_value ds.
Proof. intros Hds. by apply fold_digits_nonneg. Qed.

Lemma substring_prefix_append (s t : string) :
  String.substring 0 (String.length s) (s +:+ t) = s.
Proof.
  induction s as [|a s IH]; [by destruct t|].
  change (String a (String.substring 0 (String.length s) (s +:+ t)) = String a s).
  by rewrite IH.
Qed.

Lemma drop_last_append (s t : string) :
  str.drop_last (String.length t) (s +:+ t) = s.
Proof.
  unfold str.drop_last. rewrite length_append.
  replace (String.length s + String.length t - String.length t)%nat
    with (String.length s) by lia.
  apply substring_prefix_append.
Qed.

(** The sizes with a suffix: what [_parse_size] computes once the string is
    upper-cased *)
Lemma parse_size_suffixed size_str ds suffix k :
  ds ≠ [] -> Forall decimal_digit ds -> pynum.digits_value ds < 2 ^ 53 ->
  (suffix, k) ∈ [("GB", 30); ("MB", 20); ("KB", 10); ("B", 0)] ->
  str.upper size_str = numeral ds +:+ suffix ->
  _parse_size size_str = Ok (pynum.digits_value ds * 2 ^ k).
Proof.
  intros Hne Hds Hlt Hin Hupper. unfold _parse_size. rewrite Hupper.
  destruct (numeral_first_last ds Hne Hds) as [(d & s & Hd & Hs) (d' & r & Hd' & Hr)].
  destruct (digit_char_facts d Hd) as (_ & Hsp & _).
  pose proof (digits_value_nonneg ds Hds) as Hnonneg.
  assert (str.strip (numeral ds +:+ suffix) = numeral ds +:+ suffix
          /\ find (fun sm => str.endswith (numeral ds +:+ suffix) sm.1) multipliers
             = Some (suffix, 2 ^ k)) as [-> ->].
  { assert (exists c t, String.rev suffix = String c t /\ str.is_space c = false)
      as (c & t & Hrev & Hc).
    { repeat (apply elem_of_cons in Hin as [[= -> ->]|Hin]);
        [by eexists _, _..|by apply elem_of_nil in Hin]. }
    split.
    - eapply (strip_clean _ (digit_char d) (s +:+ suffix) c (t +:+ String.rev (numeral ds)));
        try done.
      + by rewrite Hs.
      + by rewrite rev_append, Hrev.
    - unfold multipliers, str.endswith. rewrite rev_append, Hr. clear Hr Hs.
      repeat (apply elem_of_cons in Hin as [[= -> ->]|Hin]);
        [digit_cases d' Hd'; destruct r; vm_compute; reflexivity..
        |by apply elem_of_nil in Hin]. }
  cbv beta iota zeta. rewrite drop_last_append, float_of_numeral by done.
  cbn [rbind]. rewrite size_float_exact; [done|lia|].
  repeat (apply elem_of_cons in Hin as [[= -> ->]|Hin]);
    [lia..|by apply elem_of_nil in Hin].
Qed.

Lemma parse_size_plain size_str ds :
  ds ≠ [] -> Forall decimal_digit ds ->
  Z.of_nat (length ds) <= pynum.max_str_digits ->
  str.upper size_str = numeral ds ->
  _parse_size size_str = Ok (pynum.digits_value ds).
Proof.
  intros Hne Hds Hlen Hupper. unfold _parse_size. rewrite Hupper.
  rewrite strip_numeral by done.
  destruct (numeral_first_last ds Hne Hds) as [_ (d' & r & Hd' & Hr)].
  assert (find (fun sm => str.endswith (numeral ds) sm.1) multipliers = None) as ->.
  { unfold multipliers, str.endswith. rewrite Hr. clear Hr.
    digit_cases d' Hd'; vm_compute; reflexivity. }
  unfold pynum.int_of_str.
  rewrite int_strip_numeral, take_sign_numeral by done. cbv zeta.
  rewrite digit_run_numeral, digitpart_numeral by done.
  destruct (Z.ltb_spec pynum.max_str_digits (Z.of_nat (length ds))); [lia|].
  by rewrite decide_True.
Qed.

(** X20. Sizes written as integers are read exactly: a string that, once
    upper-cased, is a run of at most 4300 decimal digits gives the number
    the digits write ([int] refuses longer runs), and one that is digits
    followed by B, KB, MB or GB gives that number times 1, 1024, 1024^2 or
    1024^3, for every number below 2^53 (the detour through [float] loses
    nothing there).  The suffix may be written in either case. *)
Theorem parse_size_of_integer size_str ds :
  ds ≠ [] -> Forall decimal_digit ds ->
  (Z.of_nat (length ds) <= pynum.max_str_digits ->
   str.upper size_str = numeral ds ->
   _parse_size size_str = Ok (pynum.digits_value ds))
  /\ (forall suffix multiplier,
        (suffix, multiplier) ∈ multipliers ->
        pynum.digits_value ds < 2 ^ 53 ->
        str.upper size_str = numeral ds +:+ suffix ->
        _parse_size size_str = Ok (pynum.digits_value ds * multiplier)).
Proof.
  intros Hne Hds. split; [by apply parse_size_plain|].
  intros suffix multiplier Hin Hlt Hupper. unfold multipliers in Hin.
  assert (exists k, (suffix, k) ∈ [("GB", 30); ("MB", 20); ("KB", 10); ("B", 0)]
                    /\ multiplier = 2 ^ k) as (k & Hk & ->).
  { repeat (apply elem_of_cons in Hin as [[= -> ->]|Hin]);
      [exists 30|exists 20|exists 10|exists 0|by apply elem_of_nil in Hin];
      (split; [|reflexivity]).
    - left.
    - right; left.
    - right; right; left.
    - right; right; right; left. }
  by apply (parse_size_suffixed size_str ds suffix k).
Qed.

End Numerals.

(** * Lists in the configuration *)

Section GetList.

Lemma has_char_append c (s t : string) :
  has_char c (s +:+ t) = has_char c s || has_char c t.
Proof.
  induction s as [|a s IH]; [done|].
  change (Ascii.eqb a c || has_char c (s +:+ t)
          = Ascii.eqb a c || has_char c s || has_char c t).
  by rewrite IH, orb_assoc.
Qed.

Lemma has_char_rev c (s : string) : has_char c (String.rev s) = has_char c s.
Proof.
  induction s as [|a s IH]; [done|].
  rewrite rev_cons, has_char_append, IH. simpl. by rewrite orb_false_r, orb_comm.
Qed.

Lemma has_char_lstrip c (s : string) :
  has_char c s = false -> has_char c (str.lstrip s) = false.
Proof.
  induction s as [|a s IH]; [done|]. intros Hs. cbn [str.lstrip].
  destruct (str.is_space a); [|done]. apply IH.
  simpl in Hs. by apply orb_false_iff in Hs as [_ ?].
Qed.

Lemma has_char_strip c (s : string) :
  has_char c s = false -> has_char c (str.strip s) = false.
Proof.
  intros Hs. unfold str.strip, str.rstrip.
  rewrite has_char_rev. apply has_char_lstrip. rewrite has_char_rev.
  by apply has_char_lstrip.
Qed.

Lemma lstrip_idem (s : string) : str.lstrip (str.lstrip s) = str.lstrip s.
Proof.
  induction s as [|a s IH]; [done|]. cbn [str.lstrip].
  destruct (str.is_space a) eqn:Ha; [done|]. cbn [str.lstrip]. by rewrite Ha.
Qed.

Lemma lstrip_snoc (s : string) c :
  str.is_space c = false ->
  exists w, str.lstrip (s +:+ String c "") = w +:+ String c "".
Proof.
  intros Hc. induction s as [|a s [w IH]].
  - exists "". change (str.lstrip (String c "") = String c "").
    cbn [str.lstrip]. by rewrite Hc.
  - change (String a s +:+ String c "") with (String a (s +:+ String c "")).
    cbn [str.lstrip]. destruct (str.is_space a); [by exists w|].
    by exists (String a s).
Qed.

Lemma strip_idem (s : string) : str.strip (str.strip s) = str.strip s.
Proof.
  unfold str.strip at 2 3. set (t := str.lstrip s).
  assert (str.lstrip t = t) as Ht by apply lstrip_idem.
  assert (str.lstrip (str.rstrip t) = str.rstrip t) as Hl.
  { unfold str.rstrip. destruct t as [|c t']; [done|].
    cbn [str.lstrip] in Ht. destruct (str.is_space c) eqn:Hc.
    - exfalso. clear -Ht.
      assert (forall x : string, String.length (str.lstrip x) <= String.length x)%nat
        as Hlen.
      { induction x as [|a x IH]; [done|]. cbn [str.lstrip].
        destruct (str.is_space a); simpl; lia. }
      specialize (Hlen t'). rewrite Ht in Hlen. simpl in Hlen. lia.
    - rewrite rev_cons. destruct (lstrip_snoc (String.rev t') c Hc) as [w ->].
      rewrite rev_append. change (String.rev (String c "")) with (String c "").
      change (String c "" +:+ String.rev w) with (String c (String.rev w)).
      cbn [str.lstrip]. by rewrite Hc. }
  unfold str.strip. rewrite Hl. unfold str.rstrip at 1.
  unfold str.rstrip at 1. rewrite rev_involutive, lstrip_idem. done.
Qed.

Lemma split_no_sep sep (s : string) :
  Forall (fun piece => has_char sep piece = false) (str.split sep s).
Proof.
  induction s as [|a s IH]; [by repeat constructor|]. cbn [str.split].
  destruct (Ascii.eqb a sep) eqn:Ha; [by constructor|].
  destruct (str.split sep s) as [|h t]; [by repeat constructor; simpl; rewrite Ha|].
  apply Forall_cons in IH as [Hh Ht]. constructor; [|done]. simpl. by rewrite Ha, Hh.
Qed.

Lemma split_whole sep (s : string) :
  has_char sep s = false -> str.split sep s = [s].
Proof.
  induction s as [|a s IH]; [done|]. simpl.
  intros [Ha Hs]%orb_false_iff. by rewrite Ha, IH.
Qed.

Lemma split_append_sep sep (s t : string) :
  has_char sep s = false ->
  str.split sep (s +:+ String sep t) = s :: str.split sep t.
Proof.
  induction s as [|a s IH]; intros Hs.
  - change ("" +:+ String sep t) with (String sep t). cbn [str.split].
    by rewrite Ascii.eqb_refl.
  - change (String a s +:+ String sep t) with (String a (s +:+ String sep t)).
    simpl in Hs. apply orb_false_iff in Hs as [Ha Hs].
    cbn [str.split]. by rewrite Ha, IH.
Qed.

Lemma split_join sep (items : list string) :
  items ≠ [] -> Forall (fun item => has_char sep item = false) items ->
  str.split sep (str.join (String sep "") items) = items.
Proof.
  intros Hne Hitems. induction Hitems as [|x items Hx Hitems IH]; [done|].
  destruct items as [|y items].
  - by apply split_whole.
  - change (str.join (String sep "") (x :: y :: items))
      with (x +:+ String sep "" +:+ str.join (String sep "") (y :: items)).
    change (String sep "" +:+ str.join (String sep "") (y :: items))
      with (String sep (str.join (String sep "") (y :: items))).
    rewrite split_append_sep by done. f_equal. by apply IH.
Qed.

(** X21. The lists of the configuration: every item that [get_list]
    returns is not empty, has no white space at either end and holds no
    comma; and every list of such items is read back as it is from its
    items joined by commas, the empty list from the empty string. *)
Theorem get_list_items :
  (forall value, Forall clean_item (GuardianConfig.get_list value))
  /\ (forall items,
        Forall clean_item items ->
        GuardianConfig.get_list (str.join "," items) = items).
Proof.
  split.
  - intros value. apply Forall_forall. intros item Hin.
    unfold GuardianConfig.get_list in Hin.
    apply list_elem_of_omap in Hin as (piece & Hpiece & Hitem).
    cbv zeta in Hitem. case_decide as Hempty; [done|]. injection Hitem as <-.
    split_and!; [done|apply strip_idem|]. apply has_char_strip.
    pose proof (split_no_sep "," value) as Hall. rewrite Forall_forall in Hall.
    by apply Hall.
  - intros items Hitems. unfold GuardianConfig.get_list.
    destruct (decide (items = [])) as [->|Hne]; [done|].
    rewrite split_join; [|done|].
    + clear Hne. induction Hitems as [|item items (Hne & Hstrip & _) _ IH]; [done|].
      cbn [omap list_omap]. rewrite Hstrip, decide_False by done. by rewrite IH.
    + eapply Forall_impl; [exact Hitems|]. by intros item (_ & _ & ?).
Qed.

End GetList.

(** * The further properties on concrete inputs *)

Section FurtherWitnesses.
Import Examples.

Local Ltac by_computation := vm_compute; reflexivity.
Local Ltac decide_by_computation := apply (bool_decide_unpack _); vm_compute; exact I.

Lemma no_changes_witness :
  pydict.wf baseline_dict /\ pydict.wf current_dict
  /\ (detect_changes (H:=Demo.lib) 0 baseline_dict current_dict = [] <->
      forall p, FileInfo.hash_sha256 <$> pydict.get baseline_dict p
                = FileInfo.hash_sha256 <$> pydict.get current_dict p).
Proof.
  assert (pydict.wf baseline_dict) as Hb by decide_by_computation.
  assert (pydict.wf current_dict) as Hc by decide_by_computation.
  exact (conj Hb (conj Hc (@no_changes_iff_same_digests Demo.lib 0 _ _ Hb Hc))).
Defined.

Lemma swap_witness :
  pydict.wf baseline_dict /\ pydict.wf current_dict
  /\ count_type ADDED (detect_changes (H:=Demo.lib) 0 baseline_dict current_dict)
     = count_type REMOVED (detect_changes (H:=Demo.lib) 0 current_dict baseline_dict).
Proof.
  assert (pydict.wf baseline_dict) as Hb by decide_by_computation.
  assert (pydict.wf current_dict) as Hc by decide_by_computation.
  exact (conj Hb (conj Hc (proj1 (@swap_exchanges_added_removed Demo.lib 0 _ _ Hb Hc)))).
Defined.

Lemma latest_baseline_witness :
  GuardianDatabase.get_latest_baseline db_old "/srv/app" = Some 1
  /\ exists row before after,
      Baselines.id row = 1 /\ Baselines.path row = "/srv/app"
      /\ filter (fun row => Baselines.path row = "/srv/app")
           (GuardianDatabase.baselines db_old) = before ++ row :: after
      /\ Forall (fun y => Baselines.created_at y < Baselines.created_at row) before
      /\ Forall (fun y => Baselines.created_at y <= Baselines.created_at row) after.
Proof.
  assert (GuardianDatabase.get_latest_baseline db_old "/srv/app" = Some 1) as Hlatest
    by by_computation.
  exact (conj Hlatest (latest_baseline_first_newest db_old "/srv/app" 1 Hlatest)).
Defined.

Lemma read_back_witness :
  db_wf GuardianDatabase.init_database
  /\ forall p,
      pydict.get
        (GuardianDatabase.get_baseline_files
           (GuardianDatabase.create_baseline GuardianDatabase.init_database 0 "n" "/d"
              [info "/d/a.txt" "aa" 5; info "/d/a.txt" "a2" 11]).2
           (GuardianDatabase.create_baseline GuardianDatabase.init_database 0 "n" "/d"
              [info "/d/a.txt" "aa" 5; info "/d/a.txt" "a2" 11]).1) p
      = last (filter (fun f => FileInfo.path f = p)
                [info "/d/a.txt" "aa" 5; info "/d/a.txt" "a2" 11]).
Proof.
  split; [exact db_wf_init|].
  assert (forall z, (- 2 ^ 63 <=? z) = true -> (z <? 2 ^ 63) = true -> int64 z)
    as Hint by (intros z H1%Z.leb_le H2%Z.ltb_lt; by split).
  assert (int64 5) as H5 by (apply (Hint 5); by_computation).
  assert (int64 7) as H7 by (apply (Hint 7); by_computation).
  assert (int64 11) as H11 by (apply (Hint 11); by_computation).
  assert (int64 16) as H16 by (apply (Hint 16); by_computation).
  assert (forall p d z, int64 z -> storable (info p d z)) as Hinfo.
  { intros p d z Hz. split; [exact Hz|]. split; [exact H7|discriminate]. }
  assert (Forall storable [info "/d/a.txt" "aa" 5; info "/d/a.txt" "a2" 11]) as Hst.
  { constructor; [by apply Hinfo|]. constructor; [by apply Hinfo|]. constructor. }
  assert (int64 (foldr Z.add 0
                   (FileInfo.size <$> [info "/d/a.txt" "aa" 5; info "/d/a.txt" "a2" 11])))
    as Hsum by exact H16.
  exact (proj1 (stored_files_read_back GuardianDatabase.init_database 0 "n" "/d"
                  [info "/d/a.txt" "aa" 5; info "/d/a.txt" "a2" 11] db_wf_init
                  Hst Hsum)).
Defined.

Lemma check_clean_witness :
  db_wf db_old
  /\ GuardianDatabase.get_latest_baseline
       (create_baseline (H:=Demo.lib) guardian fs_changed 1700000050000000 db_old
          "/srv/app" (Some "second")).1.2 "/srv/app" = Some 2
  /\ exists log2,
      check_integrity (H:=Demo.lib) guardian fs_changed 1700000060000000
        (create_baseline (H:=Demo.lib) guardian fs_changed 1700000050000000 db_old
           "/srv/app" (Some "second")).1.2 "/srv/app"
      = (Ok [],
         (create_baseline (H:=Demo.lib) guardian fs_changed 1700000050000000 db_old
            "/srv/app" (Some "second")).1.2, log2).
Proof.
  assert (db_wf db_old) as Hwf.
  { exact (@create_baseline_keeps_wf Demo.lib guardian fs_full 1700000000200000
             GuardianDatabase.init_database "/srv/app" (Some "first") db_wf_init). }
  assert (Forall (fun row => Baselines.path row = "/srv/app" ->
                    Baselines.created_at row
                    < GuardianDatabase.CURRENT_TIMESTAMP 1700000050000000)
            (GuardianDatabase.baselines db_old)) as Hold by decide_by_computation.
  assert (create_baseline (H:=Demo.lib) guardian fs_changed 1700000050000000 db_old
            "/srv/app" (Some "second")
          = (Ok (Some 2),
             (create_baseline (H:=Demo.lib) guardian fs_changed 1700000050000000 db_old
                "/srv/app" (Some "second")).1.2,
             (create_baseline (H:=Demo.lib) guardian fs_changed 1700000050000000 db_old
                "/srv/app" (Some "second")).2)) as Hcreate by by_computation.
  exact (conj Hwf
           (@check_clean_after_new_second Demo.lib guardian fs_changed fs_changed
              1700000050000000 1700000060000000 db_old "/srv/app" (Some "second") 2 _ _
              Hwf Hold Hcreate eq_refl)).
Defined.

Lemma exclusion_witness :
  Forall valid_pattern (GuardianScanner.exclude_patterns (Guardian.scanner guardian))
  /\ "/proc" ∈ GuardianConfig.get_list
                 (GuardianConfig.exclude_paths
                    (GuardianScanner.config (Guardian.scanner guardian)))
  /\ _should_exclude (H:=Demo.lib) (Guardian.scanner guardian) ("/proc" +:+ "esses/x")
     = Ok true.
Proof.
  assert (Forall valid_pattern
            (GuardianScanner.exclude_patterns (Guardian.scanner guardian))) as Hv
    by decide_by_computation.
  assert ("/proc" ∈ GuardianConfig.get_list
                      (GuardianConfig.exclude_paths
                         (GuardianScanner.config (Guardian.scanner guardian)))) as Hin
    by decide_by_computation.
  assert (has_char "%" (GuardianConfig.exclude_paths
                          (GuardianScanner.config (Guardian.scanner guardian))) = false)
    as Hplain by by_computation.
  exact (conj Hv (conj Hin
           (proj2 (@exclusion_by_pattern_or_prefix Demo.lib (Guardian.scanner guardian)
                     Hv Hplain) "/proc" "esses/x" Hin))).
Defined.

Lemma permissions_witness :
  scan_directory (H:=Demo.lib) (Guardian.scanner small) fs_gate "/data"
  = (Ok gate_files, gate_log)
  /\ FileInfo.mk "/data/five" 5 (Finite 0 0) "a5x532" "b5x532" "c5x532" "644" (Some 7)
     ∈ gate_files
  /\ exists n r es filename stat_info content rd,
      lookup fs_gate (posixpath.abspath (cwd fs_gate) "/data") = Some n
      /\ walked (H:=Demo.lib) (Guardian.scanner small)
           (posixpath.abspath (cwd fs_gate) "/data") n r es
      /\ (filename, File (inr stat_info) content rd) ∈ es
      /\ "/data/five" = posixpath.join r filename
      /\ Some 7 = Some (st_ino stat_info)
      /\ Finite 0 0 = st_mtime stat_info
      /\ "644" = last3 (oct (st_mode stat_info))
      /\ (64 <= st_mode stat_info ->
          "644" = rwx_digits (st_mode stat_info)
          /\ forall mode', 64 <= mode' -> mode' mod 512 = st_mode stat_info mod 512 ->
                           last3 (oct mode') = "644").
Proof.
  assert (scan_directory (H:=Demo.lib) (Guardian.scanner small) fs_gate "/data"
          = (Ok gate_files, gate_log)) as Hscan by by_computation.
  assert (FileInfo.mk "/data/five" 5 (Finite 0 0) "a5x532" "b5x532" "c5x532" "644"
            (Some 7) ∈ gate_files) as Hfi by (unfold gate_files; left).
  exact (conj Hscan (conj Hfi
           (@permissions_are_low_nine_bits Demo.lib (Guardian.scanner small) fs_gate
              "/data" gate_files gate_log _ Hscan Hfi))).
Defined.

Lemma below_root_witness :
  lookup fs_gate (posixpath.abspath (cwd fs_gate) "/data") = Some gate_dir
  /\ relative_names gate_dir = true
  /\ scan_directory (H:=Demo.lib) (Guardian.scanner small) fs_gate "/data"
     = (Ok gate_files, gate_log)
  /\ FileInfo.mk "/data/sub/s" 1 (Finite 0 0) "a1x115" "b1x115" "c1x115" "644" (Some 7)
     ∈ gate_files
  /\ str.startswith "/data/sub/s" (posixpath.abspath (cwd fs_gate) "/data") = true.
Proof.
  assert (lookup fs_gate (posixpath.abspath (cwd fs_gate) "/data") = Some gate_dir)
    as Hn by by_computation.
  assert (relative_names gate_dir = true) as Hrel by by_computation.
  assert (scan_directory (H:=Demo.lib) (Guardian.scanner small) fs_gate "/data"
          = (Ok gate_files, gate_log)) as Hscan by by_computation.
  assert (FileInfo.mk "/data/sub/s" 1 (Finite 0 0) "a1x115" "b1x115" "c1x115" "644"
            (Some 7) ∈ gate_files) as Hfi by (unfold gate_files; right; right; left).
  exact (conj Hn (conj Hrel (conj Hscan (conj Hfi
           (@records_lie_below_root Demo.lib (Guardian.scanner small) fs_gate "/data"
              gate_files gate_log gate_dir _ Hn Hrel Hscan Hfi))))).
Defined.

Lemma console_groups_witness :
  _generate_console_report (H0:=DemoReport.lib) 5 [DemoReport.added; DemoReport.removed]
  = _generate_console_report (H0:=DemoReport.lib) 5 [DemoReport.removed; DemoReport.added].
Proof.
  apply (@console_report_groups_by_type DemoReport.lib 5
           [DemoReport.added; DemoReport.removed] [DemoReport.removed; DemoReport.added]);
    by_computation.
Defined.

Lemma html_paths_witness :
  exists before after,
    _generate_html_report (H0:=DemoReport.lib) 5 [DemoReport.added]
    = before +:+ "] " +:+ "/d/c.txt" +:+ "</h3>" +:+ after.
Proof.
  assert (DemoReport.added ∈ [DemoReport.added]) as Hin by left.
  exact (@html_report_paths_verbatim DemoReport.lib 5 [DemoReport.added]
           DemoReport.added Hin).
Defined.

Lemma check_mode_witness :
  Args.baseline DemoReport.check_args = false /\ Args.check DemoReport.check_args = true
  /\ Outcome.db (Guardian_run (H:=Demo.lib) (H0:=DemoReport.lib) guardian
                   DemoReport.reporter DemoReport.open_w fs_changed 1700000050000000
                   db_old DemoReport.check_args)
     = (check_integrity (H:=Demo.lib) guardian fs_changed 1700000050000000 db_old
          (Args.path DemoReport.check_args)).1.2.
Proof.
  split; [reflexivity|]. split; [reflexivity|].
  exact (proj1 (proj2 (proj2 (proj2
           (@check_mode_exit_status Demo.lib DemoReport.lib guardian DemoReport.reporter
              DemoReport.open_w fs_changed 1700000050000000 db_old DemoReport.check_args
              eq_refl eq_refl))))).
Defined.

Lemma baseline_mode_witness :
  db_consistent GuardianDatabase.init_database
  /\ Args.baseline DemoReport.baseline_args = true
  /\ Outcome.written (Guardian_run (H:=Demo.lib) (H0:=DemoReport.lib) guardian
                        DemoReport.reporter DemoReport.open_w fs_full 1700000000200000
                        GuardianDatabase.init_database DemoReport.baseline_args)
     = [].
Proof.
  split; [exact db_consistent_init|]. split; [reflexivity|].
  exact (proj1 (proj2 (proj2
           (@baseline_mode_exit_status Demo.lib DemoReport.lib guardian
              DemoReport.reporter DemoReport.open_w fs_full 1700000000200000
              GuardianDatabase.init_database DemoReport.baseline_args
              db_consistent_init eq_refl)))).
Defined.

Lemma parse_size_integer_witness :
  [1; 0; 0] ≠ [] /\ Forall decimal_digit [1; 0; 0]
  /\ _parse_size "100" = Ok (pynum.digits_value [1; 0; 0])
  /\ _parse_size "100mb" = Ok (pynum.digits_value [1; 0; 0] * 1024 ^ 2).
Proof.
  assert (Forall decimal_digit [1; 0; 0]) as Hds
    by (repeat constructor; unfold decimal_digit; lia).
  assert (([1; 0; 0] : list Z) ≠ []) as Hne by discriminate.
  split; [exact Hne|]. split; [exact Hds|]. split.
  { apply (proj1 (parse_size_of_integer "100" [1; 0; 0] Hne Hds)).
    - vm_compute. discriminate.
    - by_computation. }
  apply (proj2 (parse_size_of_integer "100mb" [1; 0; 0] Hne Hds) "MB" (1024 ^ 2)).
  - right. left.
  - by_computation.
  - by_computation.
Defined.

End FurtherWitnesses.
